(** * AppImage desktop-entry generator: a shallow embedding

    The repository holds two Python programs with the same core:
    - [generate_once.py], a one-shot scan of [~/AppImages];
    - [monitor.py], a watchdog handler reacting to new bundles.

    Both classify an application by keywords in its name, extract the
    bundle into a scratch directory, score and cache the icons found there
    and write a freedesktop [.desktop] entry.  This file embeds that core
    in Rocq and states the properties of the specification about it.

    Conventions of the embedding.
    - A Python [str] is the Rocq [string] of its UTF-8 bytes.  Searching
      for a substring or a suffix, and cutting at the last dot or separator,
      give the same answers on bytes as on code points.  [str.lower] maps
      the ASCII capitals and the two other code points whose lower case
      holds an ASCII letter (U+0130 and U+212A); every further code point
      keeps its bytes, none of which is an ASCII byte before or after
      lower-casing, so that no comparison with the ASCII keywords and
      extensions of the programs is affected.
    - A [pathlib.Path] is the string it prints as, without a trailing
      separator; [p / q] joins with one separator and drops a component
      [.], as pathlib does.  [Path.name], [Path.suffix] and [Path.stem]
      follow the [rfind]-based definitions of pathlib.
    - Python integers are [Z]; [//] by a positive constant is [Z.div].
      Sizes of files and images, which are never negative, are [N].
    - The operating system is an explicit record of outcomes ([Env]): every
      call that may raise returns either a value or an exception, and the
      same call is answered the same way throughout.  The home directory
      is taken to be known: [Path.home()] returns.
    - The files the programs write, and the log, form the state [World]
      threaded through a state-and-exception monad [M]; the scratch tree
      of an extraction lives in the environment.  The files of the world
      belong to the user who runs the programs: whether one of them can
      be overwritten is read from the permission bits the world holds for
      it. *)

From Stdlib Require Import ZArith Lia Bool List Ascii String DecimalString.
From stdpp Require Import base option list gmap strings fin_maps.
Import ListNotations.

Local Open Scope string_scope.
Local Open Scope Z_scope.

(** ** Python strings *)

Module PyStr.

(** The byte of a given value. *)
Definition byte (n : nat) : ascii := ascii_of_nat n.

(** [str.lower] on one character of the ASCII range; a byte of a longer
    UTF-8 sequence is kept. *)
Definition lower_char (c : ascii) : ascii :=
  let n := N_of_ascii c in
  if ((65 <=? n) && (n <=? 90))%N then ascii_of_N (n + 32) else c.

(** [s.lower()], as far as ASCII bytes go.  Two code points outside ASCII
    have a lower case that holds an ASCII letter: U+0130 (bytes C4 B0)
    becomes [i] followed by U+0307 (bytes CC 87), and U+212A (bytes
    E2 84 AA) becomes [k].  The bytes of any other code point outside
    ASCII are kept: its lower case, like itself, holds no ASCII byte. *)
Fixpoint lower (s : string) : string :=
  match s with
  | EmptyString => EmptyString
  | String c rest =>
      match rest with
      | String d rest' =>
          if Ascii.eqb c (byte 196) && Ascii.eqb d (byte 176)
          then String "i" (String (byte 204) (String (byte 135) (lower rest')))
          else
            match rest' with
            | String f rest'' =>
                if Ascii.eqb c (byte 226) && Ascii.eqb d (byte 132)
                   && Ascii.eqb f (byte 170)
                then String "k" (lower rest'')
                else String (lower_char c) (lower rest)
            | EmptyString => String (lower_char c) (lower rest)
            end
      | EmptyString => String (lower_char c) (lower rest)
      end
  end.

(** [s.startswith(k)] *)
Fixpoint startswith (s k : string) : bool :=
  match k, s with
  | EmptyString, _ => true
  | String _ _, EmptyString => false
  | String a k', String b s' => if Ascii.eqb a b then startswith s' k' else false
  end.

(** [k in s]: [k] occurs in [s] as a substring. *)
Fixpoint contains (k s : string) : bool :=
  startswith s k ||
  match s with
  | EmptyString => false
  | String _ s' => contains k s'
  end.

(** [s.endswith(k)] *)
Fixpoint endswith (s k : string) : bool :=
  String.eqb s k ||
  match s with
  | EmptyString => false
  | String _ s' => endswith s' k
  end.

(** [s.endswith((k1, ..., kn))]: any of a tuple of suffixes. *)
Definition endswith_any (s : string) (ks : list string) : bool :=
  existsb (endswith s) ks.

(** [len(s)] *)
Definition len (s : string) : Z := Z.of_nat (String.length s).

(** [s.rfind(c)] for a one-character needle: the highest index holding
    [c], or [-1]. *)
Fixpoint rfind (s : string) (c : ascii) : Z :=
  match s with
  | EmptyString => -1
  | String a s' =>
      let r := rfind s' c in
      if 0 <=? r then r + 1
      else if Ascii.eqb a c then 0 else -1
  end.

(** [s[:i]] and [s[i:]] for [0 <= i]. *)
Definition slice_to (s : string) (i : Z) : string :=
  String.substring 0 (Z.to_nat i) s.

Definition slice_from (s : string) (i : Z) : string :=
  String.substring (Z.to_nat i) (String.length s - Z.to_nat i) s.

(** [str(n)] for an integer. *)
Definition of_Z (n : Z) : string := NilZero.string_of_int (Z.to_int n).

(** Truthiness of a string: only the empty string is false. *)
Definition truthy (s : string) : bool := negb (String.eqb s "").

End PyStr.

(** ** Exceptions

    The classes the two programs name in an [except] clause, with the
    ancestors Python gives them.  Every class below derives from
    [Exception]; [Exception_] stands for any class not listed. *)

Inductive exc_class :=
  | Exception_
  | OSError
  | FileNotFoundError
  | PermissionError
  | ImportError
  | ModuleNotFoundError
  | SubprocessError
  | TimeoutExpired
  | CalledProcessError.

#[global] Instance exc_class_eq_dec : EqDecision exc_class.
Proof. solve_decision. Defined.

(** The direct base class, [None] for [Exception] itself. *)
Definition base_class (c : exc_class) : option exc_class :=
  match c with
  | Exception_ => None
  | OSError | ImportError | SubprocessError => Some Exception_
  | FileNotFoundError | PermissionError => Some OSError
  | ModuleNotFoundError => Some ImportError
  | TimeoutExpired | CalledProcessError => Some SubprocessError
  end.

(** [issubclass(c, d)]; the hierarchy is three levels deep. *)
Definition issubclass (c d : exc_class) : bool :=
  bool_decide (c = d) ||
  match base_class c with
  | None => false
  | Some b =>
      bool_decide (b = d) ||
      match base_class b with
      | None => false
      | Some b' => bool_decide (b' = d)
      end
  end.

(** A raised exception: its class and what [str(e)] prints. *)
Record exn := { exc_type : exc_class; exc_str : string }.

Definition isinstance (e : exn) (c : exc_class) : bool :=
  issubclass (exc_type e) c.

(** ** Files, log and the monad *)

Record file := { contents : string; mode : Z }.

Inductive level := INFO | WARNING | ERROR.

(** What persists across calls: the files written under the icon cache and
    the applications directory, and the log records emitted so far. *)
Record World := {
  fs : gmap string file;
  log : list (level * string)
}.

Inductive outcome (A : Type) :=
  | Returned (a : A)
  | Raised (e : exn).
Arguments Returned {A} a.
Arguments Raised {A} e.

(** A computation runs from a world to an outcome and a world; what was
    written before an exception stays written. *)
Definition M (A : Type) : Type := World -> outcome A * World.

#[global] Instance M_ret : MRet M :=
  fun A (a : A) (w : World) => (Returned a, w).

#[global] Instance M_bind : MBind M :=
  fun A B (k : A -> M B) (m : M A) (w : World) =>
    match m w with
    | (Returned a, w') => k a w'
    | (Raised e, w') => (Raised e, w')
    end.

Definition raise {A} (e : exn) : M A := fun w => (Raised e, w).

(** A call into the operating system whose outcome the environment fixes. *)
Definition call {A} (o : outcome A) : M A := fun w => (o, w).

Definition call_unit (o : option exn) : M unit :=
  match o with
  | Some e => raise e
  | None => mret tt
  end.

(** [try: body  except Exception as e: handler(e)] *)
Definition try_except {A} (body : M A) (handler : exn -> M A) : M A :=
  fun w =>
    match body w with
    | (Returned a, w') => (Returned a, w')
    | (Raised e, w') => handler e w'
    end.

(** [for x in xs: body(x)] *)
Fixpoint for_each {A} (xs : list A) (body : A -> M unit) : M unit :=
  match xs with
  | [] => mret tt
  | x :: rest => body x;; for_each rest body
  end.

Definition logger (l : level) (msg : string) : M unit :=
  fun w => (Returned tt, {| fs := fs w; log := log w ++ [(l, msg)] |}).

Definition get_file (path : string) : M (option file) :=
  fun w => (Returned (fs w !! path), w).

Definition put_file (path : string) (f : file) : M unit :=
  fun w => (Returned tt, {| fs := <[path := f]> (fs w); log := log w |}).

(** ** pathlib *)

Module Path.

(** [p / q], for a relative [q]: a component [.] is dropped. *)
Definition join (p q : string) : string :=
  if String.eqb q "." then p else p +:+ "/" +:+ q.

(** [p.name]: the final component. *)
Definition name (p : string) : string :=
  PyStr.slice_from p (PyStr.rfind p "/" + 1).

(** [p.suffix]: from the last dot of the name, unless the dot leads or
    ends the name. *)
Definition suffix (p : string) : string :=
  let name := name p in
  let i := PyStr.rfind name "." in
  if (0 <? i) && (i <? PyStr.len name - 1) then PyStr.slice_from name i
  else "".

(** [p.stem]: the name without its suffix. *)
Definition stem (p : string) : string :=
  let name := name p in
  let i := PyStr.rfind name "." in
  if (0 <? i) && (i <? PyStr.len name - 1) then PyStr.slice_to name i
  else name.

End Path.

Infix "//" := Path.join (at level 40, left associativity).

(** ** The environment

    Everything the programs ask of the operating system and of the
    libraries.  A field of type [outcome A] is a call that returns or
    raises; [option exn] is a call made for its effect, [None] meaning it
    went through. *)

Record completed_process := { returncode : Z; stderr : string }.

Record Env := {
  (** [Path.home()], on a machine where the home directory is known and
      is not the root directory *)
  home : string;
  (** [Path.mkdir(parents=True, exist_ok=True)] on a directory *)
  mkdir_p : string -> option exn;
  (** [tempfile.TemporaryDirectory()] entered while the given bundle is
      processed, and the removal of that directory on exit *)
  mkdtemp : string -> outcome string;
  cleanup : string -> option exn;
  (** [subprocess.run([bundle, '--appimage-extract'], cwd=..., timeout=60)] *)
  run_appimage_extract : string -> string -> outcome completed_process;
  (** [os.walk(top)] after the extraction: (root, dirs, files) triples *)
  os_walk : string -> list (string * list string * list string);
  (** [path.stat().st_size] *)
  st_size : string -> outcome N;
  (** [from PIL import Image], then [Image.open(path).size] *)
  import_PIL : option exn;
  Image_size : string -> outcome (N * N);
  (** the scratch file [shutil.copy2] reads; whether its destination is a
      directory ([os.path.isdir]); and whether the copy fails before
      anything is written, the source being unreadable or the destination
      impossible to create *)
  scratch_file : string -> file;
  isdir : string -> bool;
  copy2_error : string -> string -> option exn;
  (** whether the process overrides the permission bits of files, as the
      superuser does *)
  privileged : bool;
  (** [open(path, 'w')], [f.write] and [os.chmod] *)
  open_error : string -> option exn;
  write_error : string -> option exn;
  chmod_error : string -> option exn;
  (** the mode a file gets when [open] creates it *)
  creation_mode : Z;
  (** [subprocess.run(['update-desktop-database', dir], check=True)] *)
  run_update_desktop_database : string -> option exn;
  (** the names of the entries of a directory, as [Path.glob] scans them *)
  listdir : string -> list string
}.

(** [dir.glob("*.AppImage")]: the entries whose name matches, as paths
    under [dir]. *)
Definition glob_AppImage (e : Env) (dir : string) : list string :=
  List.map (fun entry => dir // entry)
    (List.filter (fun entry => PyStr.endswith entry ".AppImage")
       (listdir e dir)).

(** The bit [0o200] of a mode: the owner may write. *)
Definition owner_writable (f : file) : bool := Z.testbit (mode f) 7.

(** Opening a path for writing: a file that is there must be writable,
    unless the process is privileged. *)
Definition may_overwrite (e : Env) (old : option file) : bool :=
  match old with
  | None => true
  | Some f => privileged e || owner_writable f
  end.

(** Where [shutil.copy2(src, dst)] writes: into [dst] under the name of the
    source when [dst] is a directory, at [dst] otherwise. *)
Definition copy2_target (e : Env) (src dst : string) : string :=
  if isdir e dst then dst +:+ "/" +:+ Path.name src else dst.

(** [shutil.copy2(src, dst)]: the destination is opened for writing, then
    receives the contents and the mode of the source. *)
Definition copy2 (e : Env) (src dst : string) : M unit :=
  let dst := copy2_target e src dst in
  call_unit (copy2_error e src dst);;
  old ← get_file dst;
  if may_overwrite e old then put_file dst (scratch_file e src)
  else
    raise {| exc_type := PermissionError;
             exc_str := "[Errno 13] Permission denied: '" +:+ dst +:+ "'" |}.

(** [with open(path, 'w') as f: f.write(text)]: opening truncates (and
    creates the file if need be), writing fills it. *)
Definition write_text (e : Env) (path text : string) : M unit :=
  call_unit (open_error e path);;
  old ← get_file path;
  let m := match old with Some f => mode f | None => creation_mode e end in
  put_file path {| contents := ""; mode := m |};;
  call_unit (write_error e path);;
  put_file path {| contents := text; mode := m |}.

(** [os.chmod(path, m)] *)
Definition chmod (e : Env) (path : string) (m : Z) : M unit :=
  call_unit (chmod_error e path);;
  old ← get_file path;
  match old with
  | Some f => put_file path {| contents := contents f; mode := m |}
  | None =>
      raise {| exc_type := FileNotFoundError;
               exc_str := "[Errno 2] No such file or directory: '" +:+ path +:+ "'" |}
  end.

(** Leaving a [with] block: the exit action runs however the body ended,
    and an exception it raises is the one that propagates. *)
Definition on_exit {A} (body : M A) (exit : option exn) : M A :=
  fun w =>
    match body w with
    | (r, w') =>
        match exit with
        | Some ex => (Raised ex, w')
        | None => (r, w')
        end
    end.

(** [with tempfile.TemporaryDirectory() as temp_dir: body]: the directory
    is removed however the body ends. *)
Definition with_TemporaryDirectory {A} (e : Env) (bundle : string)
    (body : string -> M A) : M A :=
  temp_dir ← call (mkdtemp e bundle);
  on_exit (body temp_dir) (cleanup e temp_dir).

(** [any(k in s for k in keywords)] *)
Definition any_in (keywords : list string) (s : string) : bool :=
  existsb (fun k => PyStr.contains k s) keywords.

(** ** The one-shot script, [generate_once.py] *)

Module GenerateOnce.

(** [generate_once.detect_category], lines 23-56. *)
Definition detect_category (app_name : string) : string :=
  let app_name_lower := PyStr.lower app_name in
  (* Browser detection *)
  if any_in ["chrome"; "firefox"; "edge"; "brave"; "opera"; "safari";
             "chromium"; "librewolf"; "libre"] app_name_lower
  then "Network;WebBrowser;"
  (* Development tools *)
  else if any_in ["code"; "studio"; "ide"; "editor"; "vim"; "emacs";
                  "sublime"] app_name_lower
  then "Development;IDE;"
  (* Media players *)
  else if any_in ["player"; "vlc"; "mpv"; "kodi"; "spotify"; "audacity"]
                 app_name_lower
  then "AudioVideo;Audio;Video;"
  (* Image editors *)
  else if any_in ["gimp"; "inkscape"; "blender"; "krita"; "darktable"]
                 app_name_lower
  then "Graphics;2DGraphics;3DGraphics;"
  (* Office applications *)
  else if any_in ["libreoffice"; "openoffice"; "word"; "excel";
                  "powerpoint"] app_name_lower
  then "Office;"
  (* Games *)
  else if any_in ["game"; "steam"; "minecraft"; "roblox"] app_name_lower
  then "Game;"
  (* System tools *)
  else if any_in ["terminal"; "system"; "admin"; "disk"; "backup"]
                 app_name_lower
  then "System;"
  (* Default category *)
  else "Utility;".

(** Lines 85-91: the files under the scratch tree whose lower-cased name
    ends in one of the four icon extensions, in traversal order. *)
Definition find_icon_files (e : Env) (temp_path : string) : list string :=
  flat_map
    (fun '(root, dirs, files) =>
       List.map (fun file => root // file)
         (List.filter
            (fun file =>
               PyStr.endswith_any (PyStr.lower file)
                 [".png"; ".svg"; ".xpm"; ".ico"])
            files))
    (os_walk e temp_path).

(** Lines 107-118: the points for the format. *)
Definition format_score (icon_path : string) (score : Z) : Z :=
  let suffix := PyStr.lower (Path.suffix icon_path) in
  (* Prefer SVG (vector, scalable) *)
  if String.eqb suffix ".svg" then score + 1000
  (* Then PNG (good quality, common) *)
  else if String.eqb suffix ".png" then score + 500
  (* Then XPM (legacy but supported) *)
  else if String.eqb suffix ".xpm" then score + 100
  (* Then ICO (Windows format) *)
  else if String.eqb suffix ".ico" then score + 50
  else score.

(** Lines 104-133: the body of the scoring loop, giving one icon its
    score. *)
Definition score_icon (e : Env) (icon_path : string) : M Z :=
  let score := 0 in
  file_size ← call (st_size e icon_path);
  let score := format_score icon_path score in
  (* Prefer larger files (more detail) *)
  let score := score + Z.min (Z.of_N file_size / 1024) 100 in
  (* Try to get pixel dimensions for PNG files *)
  if String.eqb (PyStr.lower (Path.suffix icon_path)) ".png" then
    try_except
      (call_unit (import_PIL e);;
       '(width, height) ← call (Image_size e icon_path);
       mret (score + Z.min (Z.of_N width * Z.of_N height / 1000) 200))
      (fun ex =>
         if isinstance ex ImportError then
           logger WARNING "PIL not available, using file size for scoring";;
           mret score
         else
           logger WARNING ("Could not get PNG dimensions: " +:+ exc_str ex);;
           mret score)
  else mret score.

(** Lines 103-137: the scoring loop, threading [best_icon] and
    [best_score]. *)
Fixpoint select_best_icon (e : Env) (icon_files : list string)
    (best_icon : option string) (best_score : Z) : M (option string * Z) :=
  match icon_files with
  | [] => mret (best_icon, best_score)
  | icon_path :: rest =>
      score ← score_icon e icon_path;
      if best_score <? score
      then select_best_icon e rest (Some icon_path) score
      else select_best_icon e rest best_icon best_score
  end.

(** Lines 158-168: the size directory of a bitmap icon. *)
Definition size_dir (file_size : Z) : string :=
  if file_size <? 5000 then "16x16"
  else if file_size <? 15000 then "32x32"
  else if file_size <? 50000 then "48x48"
  else if file_size <? 100000 then "64x64"
  else "128x128".

(** Lines 151-172: the cache directory an icon goes to. *)
Definition cache_subdir (icon_cache_dir icon_path : string) (file_size : Z)
    : string :=
  if String.eqb (PyStr.lower (Path.suffix icon_path)) ".svg"
  then icon_cache_dir // "scalable/apps"
  else icon_cache_dir // (size_dir file_size +:+ "/apps").

(** Lines 147-177: the body of the caching loop. *)
Definition cache_icon (e : Env) (icon_cache_dir icon_path : string) : M unit :=
  (* Use stem (no extension) for icon name in cache *)
  let icon_name := Path.stem icon_path in
  file_size ← call (st_size e icon_path);
  let cache_subdir :=
    cache_subdir icon_cache_dir icon_path (Z.of_N file_size) in
  call_unit (mkdir_p e cache_subdir);;
  (* Copy icon to cache (without extension) *)
  let dest_path_no_ext := cache_subdir // icon_name in
  copy2 e icon_path dest_path_no_ext;;
  logger INFO ("Cached icon: " +:+ dest_path_no_ext).

(** Lines 71-180: the [try] block of [extract_and_cache_icons]. *)
Definition extract_body (e : Env) (appimage_path icon_cache_dir temp_path : string)
    : M (option string) :=
  (* Extract AppImage *)
  result ← call (run_appimage_extract e appimage_path temp_path);
  if negb (returncode result =? 0) then
    logger WARNING ("Failed to extract AppImage: " +:+ stderr result);;
    mret None
  else
    (* Find all icon files recursively *)
    let icon_files := find_icon_files e temp_path in
    match icon_files with
    | [] =>
        logger WARNING ("No icons found in " +:+ appimage_path);;
        mret None
    | _ :: _ =>
        logger INFO ("Found " +:+ PyStr.of_Z (Z.of_nat (length icon_files))
                     +:+ " icons in " +:+ appimage_path);;
        (* Score and select best icon *)
        '(best_icon, best_score) ← select_best_icon e icon_files None (-1);
        match best_icon with
        | None =>
            logger WARNING "No suitable icon found";;
            mret None
        | Some best_icon =>
            logger INFO ("Selected best icon: " +:+ best_icon +:+ " (score: "
                         +:+ PyStr.of_Z best_score +:+ ")");;
            (* Copy all icons to appropriate cache directories *)
            for_each icon_files (cache_icon e icon_cache_dir);;
            (* Return the best icon name for desktop file *)
            mret (Some (Path.stem best_icon))
        end
    end.

(** [extract_and_cache_icons], lines 58-187. *)
Definition extract_and_cache_icons (e : Env) (appimage_path : string)
    : M (option string) :=
  let icon_cache_dir := home e // ".local/share/icons/hicolor" in
  call_unit (mkdir_p e icon_cache_dir);;
  (* Create unique temp directory for extraction *)
  with_TemporaryDirectory e appimage_path (fun temp_path =>
    logger INFO ("Extracting " +:+ appimage_path +:+ " to " +:+ temp_path);;
    try_except
      (extract_body e appimage_path icon_cache_dir temp_path)
      (fun ex =>
         if isinstance ex TimeoutExpired then
           logger ERROR ("Timeout extracting " +:+ appimage_path);;
           mret None
         else
           logger ERROR ("Error extracting icons from " +:+ appimage_path
                         +:+ ": " +:+ exc_str ex);;
           mret None)).

Definition nl : string := String (ascii_of_nat 10) EmptyString.

(** Lines 202-210: the text of the entry. *)
Definition desktop_content (app_name appimage_path : string)
    (icon_name : option string) (category : string) : string :=
  "[Desktop Entry]" +:+ nl +:+
  "Type=Application" +:+ nl +:+
  "Name=" +:+ app_name +:+ nl +:+
  "Comment=AppImage Application" +:+ nl +:+
  "Exec=" +:+ appimage_path +:+ " %u" +:+ nl +:+
  "Icon=" +:+ (match icon_name with
               | Some s => if PyStr.truthy s then s
                           else "application-x-executable"
               | None => "application-x-executable"
               end) +:+ nl +:+
  "Terminal=false" +:+ nl +:+
  "Categories=" +:+ category +:+ nl.

(** Lines 218-226: the refresh of the desktop database, with its two
    handlers. *)
Definition update_desktop_database (e : Env) (desktop_dir : string) : M unit :=
  try_except
    (call_unit (run_update_desktop_database e desktop_dir);;
     logger INFO "Updated desktop database")
    (fun ex =>
       if isinstance ex CalledProcessError then
         logger WARNING ("Failed to update desktop database: " +:+ exc_str ex)
       else if isinstance ex FileNotFoundError then
         logger WARNING "update-desktop-database not found"
       else raise ex).

(** Lines 192-226: the [try] block of [generate_desktop_file]. *)
Definition generate_body (e : Env) (appimage_path desktop_dir : string)
    : M unit :=
  let app_name := Path.stem appimage_path in
  let desktop_file := desktop_dir // (app_name +:+ ".desktop") in
  (* Extract and cache icons *)
  icon_name ← extract_and_cache_icons e appimage_path;
  (* Detect category *)
  let category := detect_category app_name in
  (* Generate desktop file content *)
  let desktop_content :=
    desktop_content app_name appimage_path icon_name category in
  (* Write desktop file *)
  write_text e desktop_file desktop_content;;
  chmod e desktop_file 493 (* 0o755 *);;
  logger INFO ("Generated desktop file: " +:+ desktop_file);;
  (* Update desktop database *)
  update_desktop_database e desktop_dir.

(** [generate_desktop_file], lines 189-229. *)
Definition generate_desktop_file (e : Env) (appimage_path desktop_dir : string)
    : M unit :=
  try_except
    (generate_body e appimage_path desktop_dir)
    (fun ex =>
       logger ERROR ("Error generating desktop file for " +:+ appimage_path
                     +:+ ": " +:+ exc_str ex)).

(** [main], lines 231-257. *)
Definition main (e : Env) : M unit :=
  (* Default directories *)
  let appimage_dir := home e // "AppImages" in
  let desktop_dir := home e // ".local/share/applications" in
  (* Create directories if they don't exist *)
  call_unit (mkdir_p e appimage_dir);;
  call_unit (mkdir_p e desktop_dir);;
  logger INFO ("Scanning for AppImages in: " +:+ appimage_dir);;
  logger INFO ("Generating desktop files in: " +:+ desktop_dir);;
  (* Find all AppImages *)
  let appimages := glob_AppImage e appimage_dir in
  match appimages with
  | [] => logger INFO "No AppImages found"
  | _ :: _ =>
      logger INFO ("Found " +:+ PyStr.of_Z (Z.of_nat (length appimages))
                   +:+ " AppImages");;
      (* Generate desktop files for each AppImage *)
      for_each appimages (fun appimage =>
        logger INFO ("Processing: " +:+ Path.name appimage);;
        generate_desktop_file e appimage desktop_dir);;
      logger INFO "Desktop file generation complete"
  end.

End GenerateOnce.

(** ** The watch daemon, [monitor.py] *)

Module Monitor.

(** The handler object: the two directories [__init__] stores. *)
Record AppImageHandler := {
  appimage_dir : string;
  desktop_dir : string
}.

(** [AppImageHandler.__init__], lines 32-35. *)
Definition init (e : Env) (appimage_dir desktop_dir : string)
    : M AppImageHandler :=
  let self := {| appimage_dir := appimage_dir; desktop_dir := desktop_dir |} in
  call_unit (mkdir_p e desktop_dir);;
  mret self.

(** [AppImageHandler.detect_category], lines 46-79. *)
Definition detect_category (self : AppImageHandler) (app_name : string)
    : string :=
  let app_name_lower := PyStr.lower app_name in
  (* Browser detection *)
  if any_in ["chrome"; "firefox"; "edge"; "brave"; "opera"; "safari";
             "chromium"; "librewolf"; "libre"] app_name_lower
  then "Network;WebBrowser;"
  (* Development tools *)
  else if any_in ["code"; "studio"; "ide"; "editor"; "vim"; "emacs";
                  "sublime"] app_name_lower
  then "Development;IDE;"
  (* Media players *)
  else if any_in ["player"; "vlc"; "mpv"; "kodi"; "spotify"; "audacity"]
                 app_name_lower
  then "AudioVideo;Audio;Video;"
  (* Image editors *)
  else if any_in ["gimp"; "inkscape"; "blender"; "krita"; "darktable"]
                 app_name_lower
  then "Graphics;2DGraphics;3DGraphics;"
  (* Office applications *)
  else if any_in ["libreoffice"; "openoffice"; "word"; "excel";
                  "powerpoint"] app_name_lower
  then "Office;"
  (* Games *)
  else if any_in ["game"; "steam"; "minecraft"; "roblox"] app_name_lower
  then "Game;"
  (* System tools *)
  else if any_in ["terminal"; "system"; "admin"; "disk"; "backup"]
                 app_name_lower
  then "System;"
  (* Default category *)
  else "Utility;".

(** Lines 108-114: the files under the scratch tree whose lower-cased name
    ends in one of the four icon extensions, in traversal order. *)
Definition find_icon_files (e : Env) (temp_path : string) : list string :=
  flat_map
    (fun '(root, dirs, files) =>
       List.map (fun file => root // file)
         (List.filter
            (fun file =>
               PyStr.endswith_any (PyStr.lower file)
                 [".png"; ".svg"; ".xpm"; ".ico"])
            files))
    (os_walk e temp_path).

(** Lines 130-141: the points for the format. *)
Definition format_score (icon_path : string) (score : Z) : Z :=
  let suffix := PyStr.lower (Path.suffix icon_path) in
  (* Prefer SVG (vector, scalable) *)
  if String.eqb suffix ".svg" then score + 1000
  (* Then PNG (good quality, common) *)
  else if String.eqb suffix ".png" then score + 500
  (* Then XPM (legacy but supported) *)
  else if String.eqb suffix ".xpm" then score + 100
  (* Then ICO (Windows format) *)
  else if String.eqb suffix ".ico" then score + 50
  else score.

(** Lines 127-156: the body of the scoring loop, giving one icon its
    score. *)
Definition score_icon (e : Env) (icon_path : string) : M Z :=
  let score := 0 in
  file_size ← call (st_size e icon_path);
  let score := format_score icon_path score in
  (* Prefer larger files (more detail) *)
  let score := score + Z.min (Z.of_N file_size / 1024) 100 in
  (* Try to get pixel dimensions for PNG files *)
  if String.eqb (PyStr.lower (Path.suffix icon_path)) ".png" then
    try_except
      (call_unit (import_PIL e);;
       '(width, height) ← call (Image_size e icon_path);
       mret (score + Z.min (Z.of_N width * Z.of_N height / 1000) 200))
      (fun ex =>
         if isinstance ex ImportError then
           logger WARNING "PIL not available, using file size for scoring";;
           mret score
         else
           logger WARNING ("Could not get PNG dimensions: " +:+ exc_str ex);;
           mret score)
  else mret score.

(** Lines 126-160: the scoring loop, threading [best_icon] and
    [best_score]. *)
Fixpoint select_best_icon (e : Env) (icon_files : list string)
    (best_icon : option string) (best_score : Z) : M (option string * Z) :=
  match icon_files with
  | [] => mret (best_icon, best_score)
  | icon_path :: rest =>
      score ← score_icon e icon_path;
      if best_score <? score
      then select_best_icon e rest (Some icon_path) score
      else select_best_icon e rest best_icon best_score
  end.

(** Lines 181-191: the size directory of a bitmap icon. *)
Definition size_dir (file_size : Z) : string :=
  if file_size <? 5000 then "16x16"
  else if file_size <? 15000 then "32x32"
  else if file_size <? 50000 then "48x48"
  else if file_size <? 100000 then "64x64"
  else "128x128".

(** Lines 174-195: the cache directory an icon goes to. *)
Definition cache_subdir (icon_cache_dir icon_path : string) (file_size : Z)
    : string :=
  if String.eqb (PyStr.lower (Path.suffix icon_path)) ".svg"
  then icon_cache_dir // "scalable/apps"
  else icon_cache_dir // (size_dir file_size +:+ "/apps").

(** Lines 170-200: the body of the caching loop. *)
Definition cache_icon (e : Env) (icon_cache_dir icon_path : string) : M unit :=
  (* Use stem (no extension) for icon name in cache *)
  let icon_name := Path.stem icon_path in
  file_size ← call (st_size e icon_path);
  let cache_subdir :=
    cache_subdir icon_cache_dir icon_path (Z.of_N file_size) in
  call_unit (mkdir_p e cache_subdir);;
  (* Copy icon to cache (without extension) *)
  let dest_path_no_ext := cache_subdir // icon_name in
  copy2 e icon_path dest_path_no_ext;;
  logger INFO ("Cached icon: " +:+ dest_path_no_ext).

(** Lines 94-203: the [try] block of [extract_and_cache_icons]. *)
Definition extract_body (e : Env) (appimage_path icon_cache_dir temp_path : string)
    : M (option string) :=
  (* Extract AppImage *)
  result ← call (run_appimage_extract e appimage_path temp_path);
  if negb (returncode result =? 0) then
    logger WARNING ("Failed to extract AppImage: " +:+ stderr result);;
    mret None
  else
    (* Find all icon files recursively *)
    let icon_files := find_icon_files e temp_path in
    match icon_files with
    | [] =>
        logger WARNING ("No icons found in " +:+ appimage_path);;
        mret None
    | _ :: _ =>
        logger INFO ("Found " +:+ PyStr.of_Z (Z.of_nat (length icon_files))
                     +:+ " icons in " +:+ appimage_path);;
        (* Score and select best icon *)
        '(best_icon, best_score) ← select_best_icon e icon_files None (-1);
        match best_icon with
        | None =>
            logger WARNING "No suitable icon found";;
            mret None
        | Some best_icon =>
            logger INFO ("Selected best icon: " +:+ best_icon +:+ " (score: "
                         +:+ PyStr.of_Z best_score +:+ ")");;
            (* Copy all icons to appropriate cache directories *)
            for_each icon_files (cache_icon e icon_cache_dir);;
            (* Return the best icon name for desktop file *)
            mret (Some (Path.stem best_icon))
        end
    end.

(** [AppImageHandler.extract_and_cache_icons], lines 81-210. *)
Definition extract_and_cache_icons (self : AppImageHandler) (e : Env)
    (appimage_path : string)
    : M (option string) :=
  let icon_cache_dir := home e // ".local/share/icons/hicolor" in
  call_unit (mkdir_p e icon_cache_dir);;
  (* Create unique temp directory for extraction *)
  with_TemporaryDirectory e appimage_path (fun temp_path =>
    logger INFO ("Extracting " +:+ appimage_path +:+ " to " +:+ temp_path);;
    try_except
      (extract_body e appimage_path icon_cache_dir temp_path)
      (fun ex =>
         if isinstance ex TimeoutExpired then
           logger ERROR ("Timeout extracting " +:+ appimage_path);;
           mret None
         else
           logger ERROR ("Error extracting icons from " +:+ appimage_path
                         +:+ ": " +:+ exc_str ex);;
           mret None)).

Definition nl : string := String (ascii_of_nat 10) EmptyString.

(** Lines 225-233: the text of the entry. *)
Definition desktop_content (app_name appimage_path : string)
    (icon_name : option string) (category : string) : string :=
  "[Desktop Entry]" +:+ nl +:+
  "Type=Application" +:+ nl +:+
  "Name=" +:+ app_name +:+ nl +:+
  "Comment=AppImage Application" +:+ nl +:+
  "Exec=" +:+ appimage_path +:+ " %u" +:+ nl +:+
  "Icon=" +:+ (match icon_name with
               | Some s => if PyStr.truthy s then s
                           else "application-x-executable"
               | None => "application-x-executable"
               end) +:+ nl +:+
  "Terminal=false" +:+ nl +:+
  "Categories=" +:+ category +:+ nl.

(** Lines 241-249: the refresh of the desktop database, with its two
    handlers. *)
Definition update_desktop_database (e : Env) (desktop_dir : string) : M unit :=
  try_except
    (call_unit (run_update_desktop_database e desktop_dir);;
     logger INFO "Updated desktop database")
    (fun ex =>
       if isinstance ex CalledProcessError then
         logger WARNING ("Failed to update desktop database: " +:+ exc_str ex)
       else if isinstance ex FileNotFoundError then
         logger WARNING "update-desktop-database not found"
       else raise ex).

(** Lines 215-249: the [try] block of [generate_desktop_file]. *)
Definition generate_body (self : AppImageHandler) (e : Env)
    (appimage_path : string) : M unit :=
  let app_name := Path.stem appimage_path in
  let desktop_file := desktop_dir self // (app_name +:+ ".desktop") in
  (* Extract and cache icons *)
  icon_name ← extract_and_cache_icons self e appimage_path;
  (* Detect category *)
  let category := detect_category self app_name in
  (* Generate desktop file content *)
  let desktop_content :=
    desktop_content app_name appimage_path icon_name category in
  (* Write desktop file *)
  write_text e desktop_file desktop_content;;
  chmod e desktop_file 493 (* 0o755 *);;
  logger INFO ("Generated desktop file: " +:+ desktop_file);;
  (* Update desktop database *)
  update_desktop_database e (desktop_dir self).

(** [AppImageHandler.generate_desktop_file], lines 212-252. *)
Definition generate_desktop_file (self : AppImageHandler) (e : Env)
    (appimage_path : string) : M unit :=
  try_except
    (generate_body self e appimage_path)
    (fun ex =>
       logger ERROR ("Error generating desktop file for " +:+ appimage_path
                     +:+ ": " +:+ exc_str ex)).

(** A watchdog file-system event. *)
Record event := {
  is_directory : bool;
  src_path : string;
  dest_path : string
}.

(** [AppImageHandler.on_created], lines 37-40. *)
Definition on_created (self : AppImageHandler) (e : Env) (ev : event) : M unit :=
  if negb (is_directory ev) && PyStr.endswith (src_path ev) ".AppImage" then
    logger INFO ("New AppImage detected: " +:+ src_path ev);;
    generate_desktop_file self e (src_path ev)
  else mret tt.

(** [AppImageHandler.on_moved], lines 42-45. *)
Definition on_moved (self : AppImageHandler) (e : Env) (ev : event) : M unit :=
  if negb (is_directory ev) && PyStr.endswith (dest_path ev) ".AppImage" then
    logger INFO ("AppImage moved to: " +:+ dest_path ev);;
    generate_desktop_file self e (dest_path ev)
  else mret tt.

End Monitor.

(** The UTF-8 bytes of U+0130, the capital I with a dot above, and of
    U+212A, the Kelvin sign. *)
Definition capital_dotted_I : string :=
  String (PyStr.byte 196) (String (PyStr.byte 176) "").

Definition kelvin_sign : string :=
  String (PyStr.byte 226) (String (PyStr.byte 132) (String (PyStr.byte 170) "")).

(** *** The classification table of the specification (section 4.1)

    This second definition follows the words of the specification, not the
    code: an ordered table of keyword groups, scanned for the first group
    one of whose keywords occurs in the lower-cased name. *)

Record keyword_group := {
  group_name : string;
  keywords : list string;
  category : string
}.

Definition spec_table : list keyword_group :=
  [ {| group_name := "browser";
       keywords := ["chrome"; "firefox"; "edge"; "brave"; "opera"; "safari";
                    "chromium"; "librewolf"; "libre"];
       category := "Network;WebBrowser;" |};
    {| group_name := "development";
       keywords := ["code"; "studio"; "ide"; "editor"; "vim"; "emacs";
                    "sublime"];
       category := "Development;IDE;" |};
    {| group_name := "media";
       keywords := ["player"; "vlc"; "mpv"; "kodi"; "spotify"; "audacity"];
       category := "AudioVideo;Audio;Video;" |};
    {| group_name := "graphics";
       keywords := ["gimp"; "inkscape"; "blender"; "krita"; "darktable"];
       category := "Graphics;2DGraphics;3DGraphics;" |};
    {| group_name := "office";
       keywords := ["libreoffice"; "openoffice"; "word"; "excel";
                    "powerpoint"];
       category := "Office;" |};
    {| group_name := "game";
       keywords := ["game"; "steam"; "minecraft"; "roblox"];
       category := "Game;" |};
    {| group_name := "system";
       keywords := ["terminal"; "system"; "admin"; "disk"; "backup"];
       category := "System;" |} ].

(** A group matches a name when one of its keywords occurs in the
    lower-cased name. *)
Definition group_matches (name : string) (g : keyword_group) : bool :=
  any_in (keywords g) (PyStr.lower name).

(** The specification's classifier: first matching group, else the
    default. *)
Definition spec_classify (name : string) : string :=
  match List.find (group_matches name) spec_table with
  | Some g => category g
  | None => "Utility;"
  end.

(** Every (keyword, group) pair of the table whose keyword occurs in the
    lower-cased name, in table order. *)
Definition matched_keywords (name : string) : list (string * keyword_group) :=
  List.filter (fun kg => PyStr.contains (fst kg) (PyStr.lower name))
    (flat_map (fun g => List.map (fun k => (k, g)) (keywords g)) spec_table).

(** *** The scoring rule of the specification (section 4.2, step 4)

    Again from the words of the specification: a candidate has one of four
    formats, a byte size and, when they can be obtained, pixel
    dimensions. *)

Inductive icon_format := SVG | PNG | XPM | ICO.

Definition base_score (f : icon_format) : Z :=
  match f with
  | SVG => 1000
  | PNG => 500
  | XPM => 100
  | ICO => 50
  end.

Definition spec_score (f : icon_format) (fileSizeBytes : N)
    (dimensions : option (N * N)) : Z :=
  base_score f
  + Z.min (Z.of_N fileSizeBytes / 1024) 100
  + match f, dimensions with
    | PNG, Some (pixelWidth, pixelHeight) =>
        Z.min (Z.of_N pixelWidth * Z.of_N pixelHeight / 1000) 200
    | _, _ => 0
    end.

(** The format of a candidate is read off its extension, whatever the
    case. *)
Definition format_of (icon_path : string) : option icon_format :=
  let ext := PyStr.lower (Path.suffix icon_path) in
  if String.eqb ext ".svg" then Some SVG
  else if String.eqb ext ".png" then Some PNG
  else if String.eqb ext ".xpm" then Some XPM
  else if String.eqb ext ".ico" then Some ICO
  else None.

(** The format under which a file is enumerated as a candidate: the
    extension, whatever the case, in which its name ends. *)
Definition enumerated_as (icon_path : string) : option icon_format :=
  let name := PyStr.lower (Path.name icon_path) in
  if PyStr.endswith name ".svg" then Some SVG
  else if PyStr.endswith name ".png" then Some PNG
  else if PyStr.endswith name ".xpm" then Some XPM
  else if PyStr.endswith name ".ico" then Some ICO
  else None.

(** Characters that only their own upper case lowers to: neither [k] nor
    a byte of the lower case of U+0130. *)
Fixpoint plain (t : string) : Prop :=
  match t with
  | EmptyString => True
  | String x t' => x <> "k"%char /\ x <> PyStr.byte 204 /\ plain t'
  end.

(** Character by character, [r] lowers to [t]. *)
Fixpoint lowers_to (r t : string) : Prop :=
  match r, t with
  | EmptyString, EmptyString => True
  | String c r', String x t' => PyStr.lower_char c = x /\ lowers_to r' t'
  | _, _ => False
  end.

(** Pixel dimensions are obtainable when PIL imports and opens the file. *)
Definition obtainable_dimensions (e : Env) (icon_path : string)
    : option (N * N) :=
  match import_PIL e with
  | Some _ => None
  | None =>
      match Image_size e icon_path with
      | Returned d => Some d
      | Raised _ => None
      end
  end.

(** *** The entry file of the specification (section 6) *)

(** The eight lines of the template. *)
Definition entry_lines (AppName bundle_path icon categories : string)
    : list string :=
  [ "[Desktop Entry]";
    "Type=Application";
    "Name=" +:+ AppName;
    "Comment=AppImage Application";
    "Exec=" +:+ bundle_path +:+ " %u";
    "Icon=" +:+ icon;
    "Terminal=false";
    "Categories=" +:+ categories ].

(** A text file made of lines, each ended by a newline. *)
Fixpoint unlines (lines : list string) : string :=
  match lines with
  | [] => ""
  | line :: rest => line +:+ String (ascii_of_nat 10) (unlines rest)
  end.

(** The icon identifier, or the fallback when extraction produced
    nothing. *)
Definition icon_or_fallback (icon_name : option string) : string :=
  match icon_name with
  | Some s => if String.eqb s "" then "application-x-executable" else s
  | None => "application-x-executable"
  end.

(** ** Observations on runs *)

Definition empty_world : World := {| fs := ∅; log := [] |}.

(** The score the loop body computes for an icon, [None] when it raises. *)
Definition score_of (e : Env) (icon_path : string) : option Z :=
  match fst (GenerateOnce.score_icon e icon_path empty_world) with
  | Returned score => Some score
  | Raised _ => None
  end.

(** The icon cache root; the destination the caching loop computes for an
    icon of a given size ([dest_path_no_ext], line 175); and the path at
    which [shutil.copy2] then leaves the copy. *)
Definition icon_cache_dir (e : Env) : string :=
  home e // ".local/share/icons/hicolor".

Definition cache_dest (e : Env) (icon_path : string) (file_size : N) : string :=
  GenerateOnce.cache_subdir (icon_cache_dir e) icon_path (Z.of_N file_size)
  // Path.stem icon_path.

Definition cache_target (e : Env) (icon_path : string) (file_size : N)
    : string :=
  copy2_target e icon_path (cache_dest e icon_path file_size).

(** A sequence of whole-file writes, applied in order. *)
Fixpoint apply_writes (writes : list (string * file)) (m : gmap string file)
    : gmap string file :=
  match writes with
  | [] => m
  | (path, f) :: rest => apply_writes rest (<[path := f]> m)
  end.

(** The last file a sequence of writes puts at a path. *)
Fixpoint written (writes : list (string * file)) (path : string)
    : option file :=
  match writes with
  | [] => None
  | (q, f) :: rest =>
      match written rest path with
      | Some g => Some g
      | None => if decide (q = path) then Some f else None
      end
  end.

(** A computation whose outcome does not depend on the world it starts
    from and whose effect on the files is a fixed sequence of writes. *)
Definition writes_only {A} (c : M A) (o : outcome A)
    (writes : list (string * file)) : Prop :=
  forall w, fst (c w) = o /\ fs (snd (c w)) = apply_writes writes (fs w).

Definition writer {A} (c : M A) : Prop :=
  exists o writes, writes_only c o writes.

(** The copies the caching loop makes for a list of icons whose sizes are
    known. *)
Definition cache_writes (e : Env) (icons : list (string * N))
    : list (string * file) :=
  List.map (fun '(icon_path, file_size) =>
              (cache_target e icon_path file_size, scratch_file e icon_path))
           icons.

(** An icon of known size that the caching loop can copy into the files
    [m]: its size is read, its cache directory is made, the copy goes
    through and what [m] holds where the copy lands can be overwritten. *)
Definition cachable (e : Env) (m : gmap string file) (icon : string * N)
    : Prop :=
  st_size e (fst icon) = Returned (snd icon)
  /\ mkdir_p e (GenerateOnce.cache_subdir (icon_cache_dir e) (fst icon)
                  (Z.of_N (snd icon))) = None
  /\ copy2_error e (fst icon) (cache_target e (fst icon) (snd icon)) = None
  /\ may_overwrite e (m !! cache_target e (fst icon) (snd icon)) = true.

(** Icons that can be copied one after the other, each into the files the
    copies before it have left. *)
Fixpoint all_cachable (e : Env) (m : gmap string file)
    (icons : list (string * N)) : Prop :=
  match icons with
  | [] => True
  | icon :: rest =>
      cachable e m icon
      /\ all_cachable e
           (<[cache_target e (fst icon) (snd icon) := scratch_file e (fst icon)]> m)
           rest
  end.

(** Every icon of the bundle leaves a copy that can be overwritten: it is
    writable by its owner, or the process is privileged. *)
Definition keeps_cache_writable (e : Env) (appimage_path : string) : Prop :=
  forall temp_path icon_path,
    mkdtemp e appimage_path = Returned temp_path ->
    In icon_path (GenerateOnce.find_icon_files e temp_path) ->
    may_overwrite e (Some (scratch_file e icon_path)) = true.

(** Two sets of files that can be overwritten at the same paths among
    those satisfying [Q]. *)
Definition same_access (e : Env) (Q : string -> Prop)
    (m m' : gmap string file) : Prop :=
  forall path, Q path ->
    may_overwrite e (m !! path) = may_overwrite e (m' !! path).

(** A computation that asks of the files only whether those at the paths
    satisfying [Q] can be overwritten: from two worlds that agree on this
    it ends the same way, after the same writes. *)
Definition steady (e : Env) (Q : string -> Prop) {A} (c : M A) : Prop :=
  forall w w', same_access e Q (fs w) (fs w') ->
    fst (c w) = fst (c w')
    /\ exists writes,
         fs (snd (c w)) = apply_writes writes (fs w)
         /\ fs (snd (c w')) = apply_writes writes (fs w').

(** A computation after which every path can be overwritten exactly when
    it could before. *)
Definition keeps_access (e : Env) {A} (c : M A) : Prop :=
  forall w path,
    may_overwrite e (fs (snd (c w)) !! path) = may_overwrite e (fs w !! path).

(** What [copy2] raises when it may not open its destination. *)
Definition copy_denied (path : string) : exn :=
  {| exc_type := PermissionError;
     exc_str := "[Errno 13] Permission denied: '" +:+ path +:+ "'" |}.

(** An icon of known size whose copy fails on the files [m]: its cache
    directory cannot be made, the copy fails before anything is written,
    or a file that cannot be overwritten is where the copy would land. *)
Definition copy_fails (e : Env) (m : gmap string file) (q : string) (n : N)
    (ex : exn) : Prop :=
  mkdir_p e (GenerateOnce.cache_subdir (icon_cache_dir e) q (Z.of_N n)) = Some ex
  \/ (mkdir_p e (GenerateOnce.cache_subdir (icon_cache_dir e) q (Z.of_N n))
      = None
      /\ (copy2_error e q (cache_target e q n) = Some ex
          \/ (copy2_error e q (cache_target e q n) = None
              /\ may_overwrite e (m !! cache_target e q n) = false
              /\ ex = copy_denied (cache_target e q n)))).

(** The scratch directory is set up and torn down without an error. *)
Definition scratch_ok (e : Env) (appimage_path temp_path : string) : Prop :=
  mkdir_p e (icon_cache_dir e) = None
  /\ mkdtemp e appimage_path = Returned temp_path
  /\ cleanup e temp_path = None.

(** The handler of [extract_and_cache_icons], lines 182-187. *)
Definition extract_handler (appimage_path : string) (ex : exn)
    : M (option string) :=
  if isinstance ex TimeoutExpired then
    logger ERROR ("Timeout extracting " +:+ appimage_path);;
    mret None
  else
    logger ERROR ("Error extracting icons from " +:+ appimage_path
                  +:+ ": " +:+ exc_str ex);;
    mret None.

(** The entry file of a bundle. *)
Definition desktop_file_of (appimage_path desktop_dir : string) : string :=
  desktop_dir // (Path.stem appimage_path +:+ ".desktop").

(** The permission bits [0o111]: executable by user, group and others. *)
Definition executable_bits : Z := 73.

(** What writing the entry does to the files (lines 212-215 of
    [generate_once.py]): nothing when [open] fails, a truncated file when
    [write] fails, the text under the old or the creation mode when
    [chmod] fails, and the text under mode [0o755] otherwise. *)
Definition entry_fs (e : Env) (desktop_file text : string)
    (m : gmap string file) : gmap string file :=
  match open_error e desktop_file with
  | Some _ => m
  | None =>
      let md := match m !! desktop_file with
                | Some f => mode f
                | None => creation_mode e
                end in
      match write_error e desktop_file with
      | Some _ => <[desktop_file := {| contents := ""; mode := md |}]> m
      | None =>
          match chmod_error e desktop_file with
          | Some _ => <[desktop_file := {| contents := text; mode := md |}]> m
          | None => <[desktop_file := {| contents := text; mode := 493 |}]> m
          end
      end
  end.

(** ** Sample environments

    A machine on which every call goes through except those given as
    arguments: the outcome of the extraction, the scratch tree it leaves,
    the sizes of the files in it, and whether entry files can be opened.
    The process is not privileged, the icons of the bundle have mode
    [0o644], and the directories of the icon cache are the six the
    programs create, each also reached through its [..]. *)

Definition cache_directory (path : string) : bool :=
  existsb
    (fun d =>
       let dir := "/home/user/.local/share/icons/hicolor" // d in
       String.eqb path dir || String.eqb path (dir // ".."))
    ["scalable/apps"; "16x16/apps"; "32x32/apps"; "48x48/apps"; "64x64/apps";
     "128x128/apps"].

Definition machine
    (run : outcome completed_process)
    (tree : string -> list (string * list string * list string))
    (size : string -> outcome N)
    (open_err : string -> option exn) : Env :=
  {| home := "/home/user";
     mkdir_p := fun _ => None;
     mkdtemp := fun _ => Returned "/tmp/tmpk3v9";
     cleanup := fun _ => None;
     run_appimage_extract := fun _ _ => run;
     os_walk := tree;
     st_size := size;
     import_PIL :=
       Some {| exc_type := ModuleNotFoundError;
               exc_str := "No module named 'PIL'" |};
     Image_size :=
       fun _ => Raised {| exc_type := ModuleNotFoundError;
                          exc_str := "No module named 'PIL'" |};
     scratch_file := fun path => {| contents := "icon:" +:+ path; mode := 420 |};
     isdir := cache_directory;
     copy2_error := fun _ _ => None;
     privileged := false;
     open_error := open_err;
     write_error := fun _ => None;
     chmod_error := fun _ => None;
     creation_mode := 420;
     run_update_desktop_database := fun _ => None;
     listdir := fun _ => ["firefox-Games-edition.AppImage"; "notes.txt";
                          "Krita-5.2.AppImage"] |}.

Definition exit_status (code : Z) (err : string) : outcome completed_process :=
  Returned {| returncode := code; stderr := err |}.

Definition sample_tree (top : string)
    : list (string * list string * list string) :=
  [ (top // "squashfs-root", ["usr"], ["app.png"; "AppRun"; "app.svg"]);
    (top // "squashfs-root/usr", [], ["small.ICO"; "readme.txt"]) ].

Definition sample_size (path : string) : outcome N :=
  if PyStr.endswith path ".png" then Returned 20000%N
  else if PyStr.endswith path ".svg" then Returned 3000%N
  else Returned 800%N.

Definition sample_env : Env :=
  machine (exit_status 0 "") sample_tree sample_size (fun _ => None).

Definition sample_bundle : string :=
  "/home/user/AppImages/firefox-Games-edition.AppImage".

Definition sample_desktop_dir : string :=
  "/home/user/.local/share/applications".

(** The icons of the sample tree with their sizes, in traversal order. *)
Definition sample_icons : list (string * N) :=
  [ ("/tmp/tmpk3v9/squashfs-root/app.png", 20000%N);
    ("/tmp/tmpk3v9/squashfs-root/app.svg", 3000%N);
    ("/tmp/tmpk3v9/squashfs-root/usr/small.ICO", 800%N) ].


Definition exit_1_env : Env :=
  machine (exit_status 1 "squashfs error") sample_tree sample_size
    (fun _ => None).

Definition timeout_env : Env :=
  machine
    (Raised {| exc_type := TimeoutExpired;
               exc_str := "timed out after 60 seconds" |})
    sample_tree sample_size (fun _ => None).

Definition no_icon_env : Env :=
  machine (exit_status 0 "")
    (fun top => [(top // "squashfs-root", [], ["AppRun"; "readme.txt"])])
    sample_size (fun _ => None).

(** An applications directory that cannot be written. *)
Definition read_only_env : Env :=
  machine (exit_status 0 "") sample_tree sample_size
    (fun _ => Some {| exc_type := PermissionError;
                      exc_str := "[Errno 13] Permission denied" |}).

(** A scratch tree holding one empty file whose whole name is [.png]. *)
Definition hidden_env : Env :=
  machine (exit_status 0 "")
    (fun top => [(top // "squashfs-root", [], [".png"])])
    (fun _ => Returned 0%N) (fun _ => None).

(** A scratch tree in which [app.png] is a dangling symbolic link:
    [os.walk] lists it among the files, [stat] fails on it. *)
Definition dangling_link_env : Env :=
  machine (exit_status 0 "")
    (fun top => [(top // "squashfs-root", [], ["app.png"])])
    (fun _ => Raised {| exc_type := FileNotFoundError;
                        exc_str := "[Errno 2] No such file or directory" |})
    (fun _ => None).

Definition hidden_icon : string := "/tmp/tmpk3v9/squashfs-root/.png".

(** ** Further observations *)

(** A path lies under the icon cache. *)
Definition under_icon_cache (e : Env) (path : string) : bool :=
  PyStr.startswith path (icon_cache_dir e +:+ "/").

(** A computation that leaves alone every file whose path satisfies [Q]. *)
Definition untouched {A} (Q : string -> Prop) (c : M A) : Prop :=
  forall w path, Q path -> fs (snd (c w)) !! path = fs w !! path.

(** The applications directory [main] writes to, and the directory it
    scans. *)
Definition default_desktop_dir (e : Env) : string :=
  home e // ".local/share/applications".

Definition default_appimage_dir (e : Env) : string :=
  home e // "AppImages".

(** The warnings the scoring body logs for an icon: one when the icon is a
    PNG whose dimensions cannot be obtained, none otherwise. *)
Definition scoring_warnings (e : Env) (icon_path : string)
    : list (level * string) :=
  if String.eqb (PyStr.lower (Path.suffix icon_path)) ".png" then
    match import_PIL e with
    | Some ex =>
        if isinstance ex ImportError
        then [(WARNING, "PIL not available, using file size for scoring")]
        else [(WARNING, "Could not get PNG dimensions: " +:+ exc_str ex)]
    | None =>
        match Image_size e icon_path with
        | Returned _ => []
        | Raised ex =>
            if isinstance ex ImportError
            then [(WARNING, "PIL not available, using file size for scoring")]
            else [(WARNING, "Could not get PNG dimensions: " +:+ exc_str ex)]
        end
    end
  else [].

(** *** More sample environments *)

(** A machine like [e] but for the listing of directories. *)
Definition with_listdir (e : Env) (ls : string -> list string) : Env :=
  {| home := home e;
     mkdir_p := mkdir_p e;
     mkdtemp := mkdtemp e;
     cleanup := cleanup e;
     run_appimage_extract := run_appimage_extract e;
     os_walk := os_walk e;
     st_size := st_size e;
     import_PIL := import_PIL e;
     Image_size := Image_size e;
     scratch_file := scratch_file e;
     isdir := isdir e;
     copy2_error := copy2_error e;
     privileged := privileged e;
     open_error := open_error e;
     write_error := write_error e;
     chmod_error := chmod_error e;
     creation_mode := creation_mode e;
     run_update_desktop_database := run_update_desktop_database e;
     listdir := ls |}.

(** A machine like [e] but for the creation of directories. *)
Definition with_mkdir_p (e : Env) (mk : string -> option exn) : Env :=
  {| home := home e;
     mkdir_p := mk;
     mkdtemp := mkdtemp e;
     cleanup := cleanup e;
     run_appimage_extract := run_appimage_extract e;
     os_walk := os_walk e;
     st_size := st_size e;
     import_PIL := import_PIL e;
     Image_size := Image_size e;
     scratch_file := scratch_file e;
     isdir := isdir e;
     copy2_error := copy2_error e;
     privileged := privileged e;
     open_error := open_error e;
     write_error := write_error e;
     chmod_error := chmod_error e;
     creation_mode := creation_mode e;
     run_update_desktop_database := run_update_desktop_database e;
     listdir := listdir e |}.

(** A machine like [e] but for writing, [chmod] and the refresh of the
    desktop database. *)
Definition with_entry_errors (e : Env)
    (wr ch : string -> option exn) (refresh : string -> option exn) : Env :=
  {| home := home e;
     mkdir_p := mkdir_p e;
     mkdtemp := mkdtemp e;
     cleanup := cleanup e;
     run_appimage_extract := run_appimage_extract e;
     os_walk := os_walk e;
     st_size := st_size e;
     import_PIL := import_PIL e;
     Image_size := Image_size e;
     scratch_file := scratch_file e;
     isdir := isdir e;
     copy2_error := copy2_error e;
     privileged := privileged e;
     open_error := open_error e;
     write_error := wr;
     chmod_error := ch;
     creation_mode := creation_mode e;
     run_update_desktop_database := refresh;
     listdir := listdir e |}.

(** A machine like [e] but for PIL. *)
Definition with_PIL (e : Env) (imp : option exn)
    (size : string -> outcome (N * N)) : Env :=
  {| home := home e;
     mkdir_p := mkdir_p e;
     mkdtemp := mkdtemp e;
     cleanup := cleanup e;
     run_appimage_extract := run_appimage_extract e;
     os_walk := os_walk e;
     st_size := st_size e;
     import_PIL := imp;
     Image_size := size;
     scratch_file := scratch_file e;
     isdir := isdir e;
     copy2_error := copy2_error e;
     privileged := privileged e;
     open_error := open_error e;
     write_error := write_error e;
     chmod_error := chmod_error e;
     creation_mode := creation_mode e;
     run_update_desktop_database := run_update_desktop_database e;
     listdir := listdir e |}.

Definition disk_full : exn :=
  {| exc_type := OSError; exc_str := "[Errno 28] No space left on device" |}.

Definition permission_denied : exn :=
  {| exc_type := PermissionError; exc_str := "[Errno 13] Permission denied" |}.

(** The sample handler of the daemon. *)
Definition sample_handler : Monitor.AppImageHandler :=
  {| Monitor.appimage_dir := "/home/user/AppImages";
     Monitor.desktop_dir := sample_desktop_dir |}.

(** A tree with a small XPM followed by a large ICO. *)
Definition legacy_env : Env :=
  machine (exit_status 0 "")
    (fun top => [(top // "squashfs-root", [], ["old.xpm"; "big.ico"])])
    (fun path => if PyStr.endswith path ".ico" then Returned 60000%N
                 else Returned 500%N)
    (fun _ => None).

(** A tree with two small icons of the same stem. *)
Definition collision_env : Env :=
  machine (exit_status 0 "")
    (fun top => [(top // "squashfs-root", [], ["icon.png"; "icon.xpm"])])
    (fun _ => Returned 1000%N)
    (fun _ => None).

(** The sample machine with a full disk, with a file system without
    permission bits, and with a refresh that is not permitted. *)
Definition disk_full_env : Env :=
  with_entry_errors sample_env (fun _ => Some disk_full) (fun _ => None)
    (fun _ => None).

Definition no_chmod_env : Env :=
  with_entry_errors sample_env (fun _ => None)
    (fun _ => Some permission_denied) (fun _ => None).

Definition refresh_denied_env : Env :=
  with_entry_errors sample_env (fun _ => None) (fun _ => None)
    (fun _ => Some permission_denied).

(** A world holding the entry of another bundle. *)
Definition other_entry : string :=
  "/home/user/.local/share/applications/Krita-5.2.desktop".

Definition world_with_other_entry : World :=
  {| fs := {[ other_entry := {| contents := "[Desktop Entry]"; mode := 493 |} ]};
     log := [] |}.



(** A scratch tree holding two empty files, [.svg] and [..png]. *)
Definition bare_svg_env : Env :=
  machine (exit_status 0 "")
    (fun top => [(top // "squashfs-root", [], [".svg"; "..png"])])
    (fun _ => Returned 0%N) (fun _ => None).


(** A world whose icon cache holds a read-only [scalable/apps/app]. *)
Definition locked_icon : string :=
  "/home/user/.local/share/icons/hicolor/scalable/apps/app".

Definition world_with_locked_icon : World :=
  {| fs := {[ locked_icon := {| contents := "old icon"; mode := 292 |} ]};
     log := [] |}.

(** * Properties *)

(** ** Lists *)

Section find_first.
Context {A : Type} (f : A -> bool).

(** [List.find] returns the element at the least index satisfying the
    test. *)
Lemma find_first_index (l : list A) (x : A) :
  List.find f l = Some x ->
  exists n, l !! n = Some x /\ f x = true /\
            forall m y, (m < n)%nat -> l !! m = Some y -> f y = false.
Proof.
  induction l as [|a l IH]; simpl; [discriminate|].
  destruct (f a) eqn:Ha.
  - intros [= ->]. exists 0%nat. repeat split; auto. intros m y Hm. lia.
  - intros Hx. destruct (IH Hx) as (n & Hn & Hfx & Hlt).
    exists (S n). repeat split; auto.
    intros [|m] y Hm; simpl.
    + intros [= <-]. exact Ha.
    + intros Hy. apply (Hlt m); [lia | exact Hy].
Qed.

Lemma find_none_all (l : list A) :
  List.find f l = None -> forall n y, l !! n = Some y -> f y = false.
Proof.
  induction l as [|a l IH]; simpl; intros H n y Hy.
  - destruct n; discriminate.
  - destruct (f a) eqn:Ha; [discriminate|].
    destruct n as [|n]; simpl in Hy.
    + injection Hy as <-. exact Ha.
    + eapply IH; eauto.
Qed.

Lemma find_is_some (l : list A) n y :
  l !! n = Some y -> f y = true -> exists x, List.find f l = Some x.
Proof.
  intros Hy Hf. destruct (List.find f l) as [x|] eqn:E; [eauto|].
  rewrite (find_none_all l E n y Hy) in Hf. discriminate.
Qed.
End find_first.

(** ** Strings *)

Lemma append_cons (x : ascii) (a b : string) :
  String x a +:+ b = String x (a +:+ b).
Proof. reflexivity. Qed.

Lemma append_assoc (a b c : string) : (a +:+ b) +:+ c = a +:+ (b +:+ c).
Proof.
  induction a as [|x a IH]; [reflexivity|].
  change (String x ((a +:+ b) +:+ c) = String x (a +:+ (b +:+ c))).
  rewrite IH. reflexivity.
Qed.

Lemma len_cons (x : ascii) (s : string) : PyStr.len (String x s) = PyStr.len s + 1.
Proof. unfold PyStr.len. cbn [String.length]. lia. Qed.

Lemma len_nonneg (s : string) : 0 <= PyStr.len s.
Proof. unfold PyStr.len. lia. Qed.

Lemma len_app (a b : string) : PyStr.len (a +:+ b) = PyStr.len a + PyStr.len b.
Proof.
  induction a as [|x a IH].
  - change ("" +:+ b) with b. change (PyStr.len "") with 0. lia.
  - rewrite append_cons, !len_cons, IH. lia.
Qed.

Lemma rfind_at_least (s : string) (c : ascii) : -1 <= PyStr.rfind s c.
Proof.
  induction s as [|a s IH]; cbn [PyStr.rfind]; [lia|]. cbv zeta.
  destruct (Z.leb_spec 0 (PyStr.rfind s c)); [lia|].
  destruct (Ascii.eqb a c); lia.
Qed.

Lemma rfind_cons_found (a : ascii) (s : string) (c : ascii) :
  0 <= PyStr.rfind s c -> PyStr.rfind (String a s) c = PyStr.rfind s c + 1.
Proof.
  intros H. cbn [PyStr.rfind]. cbv zeta.
  destruct (Z.leb_spec 0 (PyStr.rfind s c)); [reflexivity|lia].
Qed.

Lemma rfind_cons_absent (x : ascii) (s : string) (c : ascii) :
  PyStr.rfind (String x s) c = -1 <->
  PyStr.rfind s c = -1 /\ Ascii.eqb x c = false.
Proof.
  cbn [PyStr.rfind]. cbv zeta. pose proof (rfind_at_least s c).
  destruct (Z.leb_spec 0 (PyStr.rfind s c)).
  - split; [intros ?; lia | intros [? _]; lia].
  - destruct (Ascii.eqb x c).
    + split; [intros ?; lia | intros [_ ?]; discriminate].
    + split; [intros _; split; [lia|reflexivity] | reflexivity].
Qed.

Lemma rfind_app_absent (a b : string) (c : ascii) :
  PyStr.rfind a c = -1 -> PyStr.rfind b c = -1 ->
  PyStr.rfind (a +:+ b) c = -1.
Proof.
  intros Ha Hb. induction a as [|x a IH]; [exact Hb|].
  rewrite append_cons. apply rfind_cons_absent in Ha as [Ha Hx].
  apply rfind_cons_absent. split; [apply IH, Ha|exact Hx].
Qed.

(** The last separator of [a/b] is the one that joins, when [b] holds
    none. *)
Lemma rfind_join (a b : string) (c : ascii) :
  PyStr.rfind b c = -1 ->
  PyStr.rfind (a +:+ String c b) c = PyStr.len a.
Proof.
  intros Hb. induction a as [|x a IH].
  - change ("" +:+ String c b) with (String c b). cbn [PyStr.rfind]. cbv zeta.
    rewrite Hb. cbn. rewrite Ascii.eqb_refl. reflexivity.
  - rewrite append_cons, rfind_cons_found; rewrite IH.
    + rewrite len_cons. reflexivity.
    + apply len_nonneg.
Qed.

Lemma substring_all (s : string) : String.substring 0 (String.length s) s = s.
Proof. induction s as [|x s IH]; cbn; [reflexivity|]. rewrite IH. reflexivity. Qed.

Lemma slice_from_0 (s : string) : PyStr.slice_from s 0 = s.
Proof.
  unfold PyStr.slice_from. cbn [Z.to_nat]. rewrite Nat.sub_0_r.
  apply substring_all.
Qed.

Lemma slice_from_cons (x : ascii) (s : string) (i : Z) :
  0 <= i -> PyStr.slice_from (String x s) (i + 1) = PyStr.slice_from s i.
Proof.
  intros Hi. unfold PyStr.slice_from.
  replace (Z.to_nat (i + 1)) with (S (Z.to_nat i)) by lia.
  cbn [String.length String.substring Nat.sub]. reflexivity.
Qed.

Lemma slice_from_join (a b : string) (c : ascii) :
  PyStr.slice_from (a +:+ String c b) (PyStr.len a + 1) = b.
Proof.
  induction a as [|x a IH].
  - change ("" +:+ String c b) with (String c b).
    change (PyStr.len "" + 1) with (0 + 1).
    rewrite slice_from_cons by lia. apply slice_from_0.
  - rewrite append_cons, len_cons, slice_from_cons.
    + exact IH.
    + pose proof (len_nonneg a). lia.
Qed.

Lemma slice_to_app (a b : string) : PyStr.slice_to (a +:+ b) (PyStr.len a) = a.
Proof.
  unfold PyStr.slice_to, PyStr.len. rewrite Nat2Z.id.
  induction a as [|x a IH]; [destruct b; reflexivity|].
  rewrite append_cons. cbn [String.length String.substring]. rewrite IH.
  reflexivity.
Qed.

Lemma startswith_app (k b : string) : PyStr.startswith (k +:+ b) k = true.
Proof.
  induction k as [|x k IH]; [destruct b; reflexivity|].
  rewrite append_cons. cbn [PyStr.startswith]. rewrite Ascii.eqb_refl. exact IH.
Qed.

Lemma startswith_inv (s k : string) :
  PyStr.startswith s k = true -> exists b, s = k +:+ b.
Proof.
  revert s. induction k as [|x k IH]; intros s H.
  - exists s. reflexivity.
  - destruct s as [|y s]; [discriminate H|].
    cbn [PyStr.startswith] in H.
    destruct (Ascii.eqb_spec x y) as [->|]; [|discriminate H].
    destruct (IH s H) as [b ->]. exists b. reflexivity.
Qed.

Lemma startswith_app_l (s t k : string) :
  PyStr.startswith s k = true -> PyStr.startswith (s +:+ t) k = true.
Proof.
  intros H. destruct (startswith_inv _ _ H) as [b ->].
  rewrite append_assoc. apply startswith_app.
Qed.

(** ** Category detection *)

(** The nested conditionals of the code scan the table of the
    specification. *)
Lemma detect_category_spec_classify (name : string) :
  GenerateOnce.detect_category name = spec_classify name.
Proof.
  unfold GenerateOnce.detect_category, spec_classify, spec_table.
  cbn [List.find]. unfold group_matches. cbn [keywords category].
  repeat match goal with
         | |- context [any_in ?l ?s] => destruct (any_in l s)
         end; reflexivity.
Qed.

(** The category returned is that of the first group that matches. *)
Lemma detect_category_first (name : string) (n : nat) (g : keyword_group) :
  spec_table !! n = Some g ->
  group_matches name g = true ->
  (forall m h, (m < n)%nat -> spec_table !! m = Some h ->
               group_matches name h = false) ->
  GenerateOnce.detect_category name = category g.
Proof.
  intros Hn Hg Hbefore. rewrite detect_category_spec_classify.
  unfold spec_classify.
  destruct (find_is_some (group_matches name) spec_table n g Hn Hg) as [x Hx].
  rewrite Hx.
  destruct (find_first_index _ _ _ Hx) as (k & Hk & Hfx & Hlt).
  destruct (Nat.lt_trichotomy k n) as [Hlt'|[->|Hgt]].
  - rewrite (Hbefore k x Hlt' Hk) in Hfx. discriminate.
  - rewrite Hk in Hn. injection Hn as ->. reflexivity.
  - rewrite (Hlt n g Hgt Hn) in Hg. discriminate.
Qed.

Lemma detect_category_default (name : string) :
  (forall n g, spec_table !! n = Some g -> group_matches name g = false) ->
  GenerateOnce.detect_category name = "Utility;".
Proof.
  intros Hnone. rewrite detect_category_spec_classify. unfold spec_classify.
  destruct (List.find (group_matches name) spec_table) as [x|] eqn:E;
    [|reflexivity].
  destruct (find_first_index _ _ _ E) as (k & Hk & Hfx & _).
  rewrite (Hnone k x Hk) in Hfx. discriminate.
Qed.

Lemma group_matches_keyword (name : string) (g : keyword_group) :
  group_matches name g = true <->
  exists k, In k (keywords g) /\ PyStr.contains k (PyStr.lower name) = true.
Proof. unfold group_matches, any_in. apply existsb_exists. Qed.

Lemma matched_keywords_In (name k : string) (g : keyword_group) :
  In (k, g) (matched_keywords name) <->
  In g spec_table /\ In k (keywords g) /\
  PyStr.contains k (PyStr.lower name) = true.
Proof.
  unfold matched_keywords. rewrite filter_In, in_flat_map. simpl. split.
  - intros [(h & Hh & Hin) Hc]. apply in_map_iff in Hin as (k' & [= <- <-] & Hk).
    auto.
  - intros (Hg & Hk & Hc). split; [|exact Hc].
    exists g. split; [exact Hg|]. apply in_map_iff. eauto.
Qed.

Lemma lookup_In {A} (l : list A) (n : nat) (x : A) : l !! n = Some x -> In x l.
Proof. intros H. apply list_elem_of_In, list_elem_of_lookup. eauto. Qed.

Lemma In_lookup {A} (l : list A) (x : A) : In x l -> exists n, l !! n = Some x.
Proof. intros H. apply list_elem_of_lookup, list_elem_of_In, H. Qed.

(** The group the scan of the table stops at, when some group matches. *)
Lemma detect_category_winner (name : string) (n : nat) (g : keyword_group) :
  spec_table !! n = Some g ->
  group_matches name g = true ->
  exists m h, (m <= n)%nat /\ spec_table !! m = Some h /\
              group_matches name h = true /\
              GenerateOnce.detect_category name = category h.
Proof.
  intros Hn Hg. rewrite detect_category_spec_classify. unfold spec_classify.
  destruct (find_is_some (group_matches name) spec_table n g Hn Hg) as [x Hx].
  rewrite Hx.
  destruct (find_first_index _ _ _ Hx) as (k & Hk & Hfx & Hlt).
  exists k, x. repeat split; auto.
  destruct (Nat.le_gt_cases k n) as [?|Hgt]; [assumption|].
  rewrite (Hlt n g Hgt Hn) in Hg. discriminate.
Qed.

(** C2: for every application name, [detect_category] lower-cases the name
    and scans the seven keyword groups of the specification's table in
    their order (browser, development, media, graphics, office, game,
    system): it returns the category of the first group one of whose
    keywords occurs in the lowered name and ["Utility;"] when no group
    matches.  It always returns one of the eight category strings, and a
    name matching both a browser and a game keyword is a browser, as is
    [firefox-Games-edition].  Lower-casing is that of [str.lower]: a name
    spelled with U+0130 or with the Kelvin sign is matched through the
    [i] and the [k] these lower to. *)
Theorem C2_detect_category_first_matching_group (name : string) :
  GenerateOnce.detect_category name = spec_classify name
  /\ (forall n g,
        spec_table !! n = Some g ->
        group_matches name g = true ->
        (forall m h, (m < n)%nat -> spec_table !! m = Some h ->
                     group_matches name h = false) ->
        GenerateOnce.detect_category name = category g)
  /\ ((forall n g, spec_table !! n = Some g -> group_matches name g = false) ->
      GenerateOnce.detect_category name = "Utility;")
  /\ (GenerateOnce.detect_category name = "Utility;" \/
      exists g, In g spec_table /\
                GenerateOnce.detect_category name = category g)
  /\ (any_in ["chrome"; "firefox"; "edge"; "brave"; "opera"; "safari";
              "chromium"; "librewolf"; "libre"] (PyStr.lower name) = true ->
      any_in ["game"; "steam"; "minecraft"; "roblox"] (PyStr.lower name) = true ->
      GenerateOnce.detect_category name = "Network;WebBrowser;")
  /\ GenerateOnce.detect_category
       (Path.stem "/home/user/AppImages/firefox-Games-edition.AppImage")
     = "Network;WebBrowser;"
  /\ GenerateOnce.detect_category ("KOD" +:+ capital_dotted_I)
     = "AudioVideo;Audio;Video;"
  /\ GenerateOnce.detect_category ("SAFAR" +:+ capital_dotted_I +:+ "-Game")
     = "Network;WebBrowser;"
  /\ GenerateOnce.detect_category (kelvin_sign +:+ "RITA-5.2")
     = "Graphics;2DGraphics;3DGraphics;".
Proof.
  split; [apply detect_category_spec_classify|].
  split; [apply detect_category_first|].
  split; [apply detect_category_default|].
  split.
  - rewrite detect_category_spec_classify. unfold spec_classify.
    destruct (List.find (group_matches name) spec_table) as [x|] eqn:E;
      [right|left; reflexivity].
    exists x. split; [|reflexivity].
    destruct (find_first_index _ _ _ E) as (k & Hk & _).
    eapply lookup_In, Hk.
  - split; [|repeat split; vm_compute; reflexivity].
    intros Hb _. unfold GenerateOnce.detect_category. cbv zeta.
    rewrite Hb. reflexivity.
Qed.

(** A browser that is also a game, an image editor, and a name without
    any keyword. *)
Lemma C2_witness :
  GenerateOnce.detect_category "firefox-Games-edition" = "Network;WebBrowser;"
  /\ GenerateOnce.detect_category "Krita-5.2" = "Graphics;2DGraphics;3DGraphics;"
  /\ GenerateOnce.detect_category "Bitwarden" = "Utility;".
Proof.
  split; [|split].
  - destruct (C2_detect_category_first_matching_group "firefox-Games-edition")
      as (_ & _ & _ & _ & Hboth & _).
    apply Hboth; vm_compute; reflexivity.
  - destruct (C2_detect_category_first_matching_group "Krita-5.2")
      as (_ & Hfirst & _).
    apply (Hfirst 3%nat
             {| group_name := "graphics";
                keywords := ["gimp"; "inkscape"; "blender"; "krita";
                             "darktable"];
                category := "Graphics;2DGraphics;3DGraphics;" |}).
    + reflexivity.
    + vm_compute; reflexivity.
    + intros [|[|[|m]]] h Hm Hh; try lia;
        injection Hh as <-; vm_compute; reflexivity.
  - destruct (C2_detect_category_first_matching_group "Bitwarden")
      as (_ & _ & Hnone & _).
    apply Hnone.
    intros [|[|[|[|[|[|[|n]]]]]]] g Hg; try discriminate;
      injection Hg as <-; vm_compute; reflexivity.
Defined.

(** C8: a name in which exactly one keyword of the table occurs gets the
    category of that keyword's group; a name matching no keyword gets
    ["Utility;"]; and when keywords of two different groups occur, the
    group listed earlier wins: the later group never does, and the earlier
    one does whenever those two are the only groups that match. *)
Theorem C8_single_keyword_and_earlier_group (name : string) :
  (forall k g, matched_keywords name = [(k, g)] ->
               GenerateOnce.detect_category name = category g)
  /\ (matched_keywords name = [] ->
      GenerateOnce.detect_category name = "Utility;")
  /\ (forall i j gi gj,
        (i < j)%nat ->
        spec_table !! i = Some gi -> spec_table !! j = Some gj ->
        group_matches name gi = true -> group_matches name gj = true ->
        (exists m h, (m <= i)%nat /\ spec_table !! m = Some h /\
                     group_matches name h = true /\
                     GenerateOnce.detect_category name = category h)
        /\ ((forall l g, spec_table !! l = Some g ->
                         group_matches name g = true -> l = i \/ l = j) ->
            GenerateOnce.detect_category name = category gi)).
Proof.
  split; [|split].
  - intros k g Hone.
    assert (Hin : In (k, g) (matched_keywords name))
      by (rewrite Hone; left; reflexivity).
    apply matched_keywords_In in Hin as (Hg & Hk & Hc).
    destruct (In_lookup _ _ Hg) as [n Hn].
    assert (Hm : group_matches name g = true)
      by (apply group_matches_keyword; eauto).
    destruct (detect_category_winner name n g Hn Hm) as (m & h & _ & Hh & Hhm & ->).
    apply group_matches_keyword in Hhm as (k' & Hk' & Hc').
    assert (Hin' : In (k', h) (matched_keywords name))
      by (apply matched_keywords_In; eauto using lookup_In).
    rewrite Hone in Hin'. destruct Hin' as [[= _ ->]|[]]. reflexivity.
  - intros Hnone. apply detect_category_default. intros n g Hn.
    destruct (group_matches name g) eqn:Hm; [|reflexivity].
    apply group_matches_keyword in Hm as (k & Hk & Hc).
    assert (Hin : In (k, g) (matched_keywords name))
      by (apply matched_keywords_In; eauto using lookup_In).
    rewrite Hnone in Hin. destruct Hin.
  - intros i j gi gj Hij Hi Hj Hmi Hmj. split.
    + apply (detect_category_winner name i gi Hi Hmi).
    + intros Honly. apply (detect_category_first name i gi Hi Hmi).
      intros m h Hm Hh. destruct (group_matches name h) eqn:Hmh; [|reflexivity].
      destruct (Honly m h Hh Hmh); lia.
Qed.

(** One keyword, none, two groups of which the browser comes first, and
    a name in which [str.lower] brings out the one keyword [kodi]. *)
Lemma C8_witness :
  GenerateOnce.detect_category "Krita-5.2" = "Graphics;2DGraphics;3DGraphics;"
  /\ GenerateOnce.detect_category "Bitwarden" = "Utility;"
  /\ GenerateOnce.detect_category "firefox-Games-edition"
     = "Network;WebBrowser;"
  /\ GenerateOnce.detect_category ("KOD" +:+ capital_dotted_I)
     = "AudioVideo;Audio;Video;".
Proof.
  split; [|split; [|split]].
  - destruct (C8_single_keyword_and_earlier_group "Krita-5.2") as (Hone & _).
    apply (Hone "krita"
             {| group_name := "graphics";
                keywords := ["gimp"; "inkscape"; "blender"; "krita";
                             "darktable"];
                category := "Graphics;2DGraphics;3DGraphics;" |}).
    vm_compute. reflexivity.
  - destruct (C8_single_keyword_and_earlier_group "Bitwarden")
      as (_ & Hnone & _).
    apply Hnone. vm_compute. reflexivity.
  - destruct (C8_single_keyword_and_earlier_group "firefox-Games-edition")
      as (_ & _ & Htwo).
    destruct (Htwo 0%nat 5%nat
                {| group_name := "browser";
                   keywords := ["chrome"; "firefox"; "edge"; "brave"; "opera";
                                "safari"; "chromium"; "librewolf"; "libre"];
                   category := "Network;WebBrowser;" |}
                {| group_name := "game";
                   keywords := ["game"; "steam"; "minecraft"; "roblox"];
                   category := "Game;" |})
      as (_ & Hearlier).
    + lia.
    + reflexivity.
    + reflexivity.
    + vm_compute. reflexivity.
    + vm_compute. reflexivity.
    + apply Hearlier.
      intros [|[|[|[|[|[|[|l]]]]]]] g Hg Hm; try discriminate;
        injection Hg as <-; vm_compute in Hm; try discriminate; auto.
  - destruct (C8_single_keyword_and_earlier_group ("KOD" +:+ capital_dotted_I))
      as (Hone & _).
    apply (Hone "kodi"
             {| group_name := "media";
                keywords := ["player"; "vlc"; "mpv"; "kodi"; "spotify";
                             "audacity"];
                category := "AudioVideo;Audio;Video;" |}).
    vm_compute. reflexivity.
Defined.

(** ** File names and suffixes *)

(** Joining keeps a prefix. *)
Lemma join_eq (p q : string) : q <> "." -> p // q = p +:+ "/" +:+ q.
Proof.
  intros H. unfold Path.join.
  destruct (String.eqb_spec q "."); [contradiction|reflexivity].
Qed.

Lemma startswith_join (p q k : string) :
  PyStr.startswith p k = true -> PyStr.startswith (p // q) k = true.
Proof.
  intros H. unfold Path.join. destruct (String.eqb q "."); [exact H|].
  apply startswith_app_l, H.
Qed.

Lemma slice_from_app (a b : string) :
  PyStr.slice_from (a +:+ b) (PyStr.len a) = b.
Proof.
  induction a as [|x a IH].
  - change ("" +:+ b) with b. change (PyStr.len "") with 0. apply slice_from_0.
  - rewrite append_cons, len_cons, slice_from_cons; [exact IH|].
    apply len_nonneg.
Qed.

(** A directory entry is the name of the path it is joined into. *)
Lemma name_join (root file : string) :
  PyStr.rfind file "/" = -1 -> file <> "." -> Path.name (root // file) = file.
Proof.
  intros Hfile Hdot. unfold Path.name. rewrite join_eq by exact Hdot.
  change ("/" +:+ file) with (String "/" file).
  rewrite rfind_join by exact Hfile. apply slice_from_join.
Qed.

Lemma endswith_inv (s k : string) :
  PyStr.endswith s k = true -> exists pre, s = pre +:+ k.
Proof.
  induction s as [|c s IH]; cbn [PyStr.endswith]; intros H.
  - rewrite orb_false_r in H. apply String.eqb_eq in H as <-. exists "".
    reflexivity.
  - apply orb_true_iff in H as [H|H].
    + apply String.eqb_eq in H as <-. exists "". reflexivity.
    + destruct (IH H) as [pre ->]. exists (String c pre). reflexivity.
Qed.

Lemma app_inj_length (pre1 pre2 a b : string) :
  pre1 +:+ a = pre2 +:+ b -> PyStr.len a = PyStr.len b -> a = b.
Proof.
  revert pre2. induction pre1 as [|c pre1 IH]; intros [|c' pre2] H Hlen.
  - exact H.
  - change ("" +:+ a) with a in H. rewrite H, append_cons, len_cons, len_app in Hlen.
    pose proof (len_nonneg pre2). lia.
  - change ("" +:+ b) with b in H. rewrite <- H, append_cons, len_cons, len_app in Hlen.
    pose proof (len_nonneg pre1). lia.
  - rewrite !append_cons in H. injection H as _ H. apply (IH pre2 H Hlen).
Qed.

(** A string ends in one suffix only of a given length. *)
Lemma endswith_same_length (s a b : string) :
  PyStr.endswith s a = true -> PyStr.endswith s b = true ->
  PyStr.len a = PyStr.len b -> a = b.
Proof.
  intros Ha Hb Hlen.
  destruct (endswith_inv _ _ Ha) as [pre1 E1].
  destruct (endswith_inv _ _ Hb) as [pre2 E2].
  apply (app_inj_length pre1 pre2); [congruence|exact Hlen].
Qed.

Lemma endswith_cons_ne (a b : ascii) (s t : string) :
  a <> b ->
  PyStr.endswith (String a s) (String b t) = PyStr.endswith s (String b t).
Proof.
  intros Hne. cbn [PyStr.endswith].
  destruct (String.eqb_spec (String a s) (String b t)) as [E|_]; [|reflexivity].
  injection E as E _. contradiction.
Qed.

(** *** Lower case *)

Lemma lower_char_dot (c : ascii) : PyStr.lower_char c = "."%char -> c = "."%char.
Proof.
  destruct c as [[] [] [] [] [] [] [] []]; vm_compute; intros H;
    first [reflexivity | discriminate H].
Qed.

Lemma lower_char_keeps_dot (c : ascii) :
  PyStr.lower_char c <> "."%char -> Ascii.eqb c "." = false.
Proof.
  intros H. destruct (Ascii.eqb_spec c "."%char) as [->|]; [|reflexivity].
  exfalso. apply H. reflexivity.
Qed.

Lemma lower_dotted_I (r : string) :
  PyStr.lower (String (PyStr.byte 196) (String (PyStr.byte 176) r))
  = String "i" (String (PyStr.byte 204) (String (PyStr.byte 135) (PyStr.lower r))).
Proof. reflexivity. Qed.

Lemma lower_kelvin (r : string) :
  PyStr.lower
    (String (PyStr.byte 226) (String (PyStr.byte 132) (String (PyStr.byte 170) r)))
  = String "k" (PyStr.lower r).
Proof. reflexivity. Qed.

(** The three ways a non-empty string is lower-cased at its head. *)
Lemma lower_cases (s : string) :
  s = ""
  \/ (exists r, s = String (PyStr.byte 196) (String (PyStr.byte 176) r))
  \/ (exists r, s = String (PyStr.byte 226)
                      (String (PyStr.byte 132) (String (PyStr.byte 170) r)))
  \/ (exists c r, s = String c r /\
                  PyStr.lower s = String (PyStr.lower_char c) (PyStr.lower r)).
Proof.
  destruct s as [|c [|d r]]; [left; reflexivity| |].
  { right. right. right. exists c, "". split; reflexivity. }
  destruct (Ascii.eqb c (PyStr.byte 196) && Ascii.eqb d (PyStr.byte 176))
    eqn:EI.
  { apply andb_true_iff in EI as [Ec Ed].
    apply Ascii.eqb_eq in Ec, Ed. subst c d. right. left. eauto. }
  destruct r as [|f r].
  { right. right. right. exists c, (String d ""). split; [reflexivity|].
    cbn [PyStr.lower]. rewrite EI. reflexivity. }
  destruct (Ascii.eqb c (PyStr.byte 226) && Ascii.eqb d (PyStr.byte 132)
            && Ascii.eqb f (PyStr.byte 170)) eqn:EK.
  { apply andb_true_iff in EK as [EK Ef]. apply andb_true_iff in EK as [Ec Ed].
    apply Ascii.eqb_eq in Ec, Ed, Ef. subst c d f. right. right. left. eauto. }
  right. right. right. exists c, (String d (String f r)).
  split; [reflexivity|].
  change (PyStr.lower (String c (String d (String f r))))
    with (if Ascii.eqb c (PyStr.byte 196) && Ascii.eqb d (PyStr.byte 176)
          then String "i" (String (PyStr.byte 204)
                             (String (PyStr.byte 135) (PyStr.lower (String f r))))
          else if Ascii.eqb c (PyStr.byte 226) && Ascii.eqb d (PyStr.byte 132)
                  && Ascii.eqb f (PyStr.byte 170)
               then String "k" (PyStr.lower r)
               else String (PyStr.lower_char c)
                      (PyStr.lower (String d (String f r)))).
  rewrite EI, EK. reflexivity.
Qed.

Lemma lower_plain (t r : string) :
  plain t -> PyStr.lower r = t -> lowers_to r t.
Proof.
  revert r. induction t as [|x t IH]; intros r Hplain Hlow.
  - destruct (lower_cases r) as [->|[[r' ->]|[[r' ->]|(c & r' & -> & E)]]].
    + exact I.
    + rewrite lower_dotted_I in Hlow. discriminate Hlow.
    + rewrite lower_kelvin in Hlow. discriminate Hlow.
    + rewrite E in Hlow. discriminate Hlow.
  - destruct Hplain as (Hk & Hcc & Hplain).
    destruct (lower_cases r) as [->|[[r' ->]|[[r' ->]|(c & r' & -> & E)]]].
    + discriminate Hlow.
    + rewrite lower_dotted_I in Hlow. injection Hlow as _ Ht. subst t.
      destruct Hplain as (_ & Habs & _). congruence.
    + rewrite lower_kelvin in Hlow. injection Hlow as Hx _. congruence.
    + rewrite E in Hlow. injection Hlow as Hx Ht.
      split; [exact Hx|]. apply IH; assumption.
Qed.

(** A name whose lower case ends in a dot followed by plain characters
    ends in a dot followed by characters that lower to them. *)
Lemma lower_endswith (t s : string) :
  plain t ->
  PyStr.endswith (PyStr.lower s) (String "." t) = true ->
  exists pre u,
    s = pre +:+ String "." u /\ lowers_to u t
    /\ PyStr.lower (String "." u) = String "." t.
Proof.
  intros Hplain. remember (String.length s) as n eqn:Hn. revert s Hn.
  induction n as [n IH] using lt_wf_ind. intros s Hn Hend.
  destruct (lower_cases s) as [->|[[r ->]|[[r ->]|(c & r & -> & E)]]].
  - discriminate Hend.
  - rewrite lower_dotted_I in Hend.
    rewrite !endswith_cons_ne in Hend
      by (let H := fresh in intros H; vm_compute in H; discriminate H).
    destruct (IH (String.length r)) with (s := r) as (pre & u & -> & Hu & Hlow);
      [subst n; cbn [String.length]; lia|reflexivity|exact Hend|].
    exists (String (PyStr.byte 196) (String (PyStr.byte 176) pre)), u. auto.
  - rewrite lower_kelvin in Hend.
    rewrite endswith_cons_ne in Hend
      by (let H := fresh in intros H; vm_compute in H; discriminate H).
    destruct (IH (String.length r)) with (s := r) as (pre & u & -> & Hu & Hlow);
      [subst n; cbn [String.length]; lia|reflexivity|exact Hend|].
    exists (String (PyStr.byte 226)
              (String (PyStr.byte 132) (String (PyStr.byte 170) pre))), u.
    auto.
  - rewrite E in Hend. cbn [PyStr.endswith] in Hend.
    destruct (String.eqb_spec (String (PyStr.lower_char c) (PyStr.lower r))
                (String "." t)) as [Heq|Hne].
    + injection Heq as Hc Hr. apply lower_char_dot in Hc. subst c.
      exists "", r. split; [reflexivity|]. split; [apply lower_plain; assumption|].
      rewrite E, Hr. reflexivity.
    + cbn [orb] in Hend.
      destruct (IH (String.length r)) with (s := r) as (pre & u & -> & Hu & Hlow);
        [subst n; cbn [String.length]; lia|reflexivity|exact Hend|].
      exists (String c pre), u. auto.
Qed.

(** A name that ends, whatever the case, in a dot and three plain
    characters other than dots, and is longer than that, has those four
    characters as its suffix. *)
Lemma suffix_of_longer_name (x y z : ascii) (file : string) :
  x <> "."%char -> y <> "."%char -> z <> "."%char ->
  plain (String x (String y (String z ""))) ->
  PyStr.endswith (PyStr.lower file)
    (String "." (String x (String y (String z "")))) = true ->
  PyStr.lower file <> String "." (String x (String y (String z ""))) ->
  0 < PyStr.rfind file "."
  /\ PyStr.rfind file "." = PyStr.len file - 4
  /\ PyStr.lower (PyStr.slice_from file (PyStr.rfind file "."))
     = String "." (String x (String y (String z ""))).
Proof.
  intros Hx Hy Hz Hplain Hend Hne.
  destruct (lower_endswith _ _ Hplain Hend) as (pre & u & -> & Hu & Hlow).
  destruct u as [|c1 [|c2 [|c3 [|c4 u]]]]; cbn [lowers_to] in Hu;
    try tauto.
  destruct Hu as (H1 & H2 & H3 & _).
  assert (E1 : Ascii.eqb c1 "." = false)
    by (apply lower_char_keeps_dot; congruence).
  assert (E2 : Ascii.eqb c2 "." = false)
    by (apply lower_char_keeps_dot; congruence).
  assert (E3 : Ascii.eqb c3 "." = false)
    by (apply lower_char_keeps_dot; congruence).
  assert (Hr : PyStr.rfind (String c1 (String c2 (String c3 ""))) "." = -1).
  { cbn [PyStr.rfind]. cbv zeta. rewrite E1, E2, E3. reflexivity. }
  assert (Hpre : 0 < PyStr.len pre).
  { destruct pre as [|p0 pre]; [contradiction|].
    rewrite len_cons. pose proof (len_nonneg pre). lia. }
  rewrite (rfind_join pre _ "." Hr), len_app.
  change (PyStr.len (String "." (String c1 (String c2 (String c3 ""))))) with 4.
  split; [exact Hpre|]. split; [lia|].
  rewrite slice_from_app. exact Hlow.
Qed.

(** Every enumerated file has a format, unless its whole name is one of
    the four extensions. *)
Lemma enumerated_file_format (root file : string) :
  PyStr.rfind file "/" = -1 ->
  PyStr.endswith_any (PyStr.lower file) [".png"; ".svg"; ".xpm"; ".ico"] = true ->
  ~ In (PyStr.lower file) [".png"; ".svg"; ".xpm"; ".ico"] ->
  exists f, format_of (root // file) = Some f.
Proof.
  intros Hslash Hend Hbare.
  assert (Hdot : file <> ".") by (intros ->; discriminate Hend).
  unfold PyStr.endswith_any in Hend.
  apply existsb_exists in Hend as (ext & Hext & Hends).
  assert (Hne : PyStr.lower file <> ext)
    by (intros E; apply Hbare; rewrite E; exact Hext).
  unfold format_of, Path.suffix. rewrite (name_join root file Hslash Hdot).
  cbv zeta.
  destruct Hext as [<-|[<-|[<-|[<-|[]]]]];
    (unshelve epose proof
       (suffix_of_longer_name _ _ _ file _ _ _ _ Hends Hne)
       as (Hpos & Hlen & Hlow);
     [discriminate| discriminate | discriminate
     | repeat split; discriminate |];
     assert (Hcond : (0 <? PyStr.rfind file ".")
                     && (PyStr.rfind file "." <? PyStr.len file - 1) = true)
       by (apply andb_true_iff; split; apply Z.ltb_lt; lia);
     rewrite Hcond, Hlow; eexists; reflexivity).
Qed.

(** ** Running computations *)

Lemma bind_run {A B} (m : M A) (k : A -> M B) (w : World) :
  (m ≫= k) w =
  match m w with
  | (Returned a, w') => k a w'
  | (Raised e, w') => (Raised e, w')
  end.
Proof. reflexivity. Qed.

Lemma ret_run {A} (a : A) (w : World) : (mret a : M A) w = (Returned a, w).
Proof. reflexivity. Qed.

Lemma call_run {A} (o : outcome A) (w : World) : call o w = (o, w).
Proof. reflexivity. Qed.

Lemma raise_run {A} (ex : exn) (w : World) :
  (raise ex : M A) w = (Raised ex, w).
Proof. reflexivity. Qed.

Lemma logger_run l msg w :
  logger l msg w = (Returned tt, {| fs := fs w; log := log w ++ [(l, msg)] |}).
Proof. reflexivity. Qed.

Lemma get_file_run path w : get_file path w = (Returned (fs w !! path), w).
Proof. reflexivity. Qed.

Lemma put_file_run path f w :
  put_file path f w
  = (Returned tt, {| fs := <[path := f]> (fs w); log := log w |}).
Proof. reflexivity. Qed.

Lemma world_eta (w : World) : {| fs := fs w; log := log w |} = w.
Proof. destruct w. reflexivity. Qed.

(** Runs the steps at the head of a computation applied to a world. *)
Ltac run :=
  repeat first [ rewrite bind_run | rewrite ret_run | rewrite logger_run
               | rewrite call_run | rewrite raise_run
               | progress cbv beta iota ].

Lemma for_each_cons {A} (x : A) (xs : list A) (body : A -> M unit) :
  for_each (x :: xs) body = (body x ≫= fun _ => for_each xs body).
Proof. reflexivity. Qed.

(** Unfolds the primitive steps of a run. *)
Ltac run_M :=
  cbv [mbind M_bind mret M_ret call raise call_unit put_file get_file logger];
  cbn [fst snd fs log].

(** ** Sequences of writes *)

Lemma apply_writes_app (l1 l2 : list (string * file)) (m : gmap string file) :
  apply_writes (l1 ++ l2) m = apply_writes l2 (apply_writes l1 m).
Proof.
  revert m. induction l1 as [|[q f] l1 IH]; intros m; simpl; [reflexivity|].
  apply IH.
Qed.

(** After a sequence of writes a path holds the last file written there,
    or what it held before. *)
Lemma apply_writes_lookup (l : list (string * file)) (m : gmap string file)
    (path : string) :
  apply_writes l m !! path =
  match written l path with
  | Some g => Some g
  | None => m !! path
  end.
Proof.
  revert m. induction l as [|[q f] l IH]; intros m; simpl; [reflexivity|].
  rewrite IH. destruct (written l path); [reflexivity|].
  rewrite lookup_insert. destruct (decide (q = path)); reflexivity.
Qed.

(** Replaying the same writes changes nothing. *)
Lemma apply_writes_idempotent (l : list (string * file)) (m : gmap string file) :
  apply_writes l (apply_writes l m) = apply_writes l m.
Proof.
  apply map_eq. intros path. rewrite !apply_writes_lookup.
  destruct (written l path); reflexivity.
Qed.

(** ** Computations that only write *)

Section writer_rules.
Context {A B : Type}.

Lemma writes_only_bind_returned (m : M A) (k : A -> M B) a o l1 l2 :
  writes_only m (Returned a) l1 -> writes_only (k a) o l2 ->
  writes_only (m ≫= k) o (l1 ++ l2).
Proof.
  intros Hm Hk w. rewrite bind_run, apply_writes_app.
  destruct (Hm w) as [Ho Hfs]. destruct (m w) as [r w1]. simpl in *.
  subst r. rewrite <- Hfs. apply Hk.
Qed.

Lemma writes_only_bind_raised (m : M A) (k : A -> M B) ex l1 :
  writes_only m (Raised ex) l1 -> writes_only (m ≫= k) (Raised ex) l1.
Proof.
  intros Hm w. rewrite bind_run.
  destruct (Hm w) as [Ho Hfs]. destruct (m w) as [r w1]. simpl in *.
  subst r. auto.
Qed.

Lemma writer_bind (m : M A) (k : A -> M B) :
  writer m -> (forall a, writer (k a)) -> writer (m ≫= k).
Proof.
  intros ([a|ex] & l1 & Hm) Hk.
  - destruct (Hk a) as (o & l2 & Hka).
    exists o, (l1 ++ l2)%list. eapply writes_only_bind_returned; eauto.
  - exists (Raised ex), l1. apply writes_only_bind_raised, Hm.
Qed.

Lemma writes_only_try_returned (body : M A) (handler : exn -> M A) a l :
  writes_only body (Returned a) l ->
  writes_only (try_except body handler) (Returned a) l.
Proof.
  intros Hb w. unfold try_except.
  destruct (Hb w) as [Ho Hfs]. destruct (body w) as [r w1]. simpl in *.
  subst r. auto.
Qed.

Lemma writes_only_try_raised (body : M A) (handler : exn -> M A) ex o l1 l2 :
  writes_only body (Raised ex) l1 -> writes_only (handler ex) o l2 ->
  writes_only (try_except body handler) o (l1 ++ l2).
Proof.
  intros Hb Hh w. unfold try_except. rewrite apply_writes_app.
  destruct (Hb w) as [Ho Hfs]. destruct (body w) as [r w1]. simpl in *.
  subst r. rewrite <- Hfs. apply Hh.
Qed.

Lemma writer_try (body : M A) (handler : exn -> M A) :
  writer body -> (forall ex, writer (handler ex)) ->
  writer (try_except body handler).
Proof.
  intros ([a|ex] & l1 & Hb) Hh.
  - exists (Returned a), l1. apply writes_only_try_returned, Hb.
  - destruct (Hh ex) as (o & l2 & He).
    exists o, (l1 ++ l2)%list. eapply writes_only_try_raised; eauto.
Qed.

Lemma writer_on_exit (body : M A) (exit : option exn) :
  writer body -> writer (on_exit body exit).
Proof.
  intros (o & l & Hb). destruct exit as [ex|].
  - exists (Raised ex), l. intros w. unfold on_exit.
    destruct (Hb w) as [_ Hfs]. destruct (body w) as [r w1]. auto.
  - exists o, l. intros w. unfold on_exit.
    destruct (Hb w) as [Ho Hfs]. destruct (body w) as [r w1]. auto.
Qed.

Lemma writer_ret (a : A) : writer (mret a : M A).
Proof. exists (Returned a), []. intros w. split; reflexivity. Qed.

Lemma writer_raise (ex : exn) : writer (raise ex : M A).
Proof. exists (Raised ex), []. intros w. split; reflexivity. Qed.

Lemma writer_call (o : outcome A) : writer (call o).
Proof. exists o, []. intros w. split; reflexivity. Qed.
End writer_rules.

Lemma writer_call_unit (o : option exn) : writer (call_unit o).
Proof. destruct o; [apply writer_raise | apply writer_ret]. Qed.

Lemma writer_logger (l : level) (msg : string) : writer (logger l msg).
Proof. exists (Returned tt), []. intros w. split; reflexivity. Qed.

Lemma writer_put_file (path : string) (f : file) : writer (put_file path f).
Proof. exists (Returned tt), [(path, f)]. intros w. split; reflexivity. Qed.

Lemma writer_for_each {A} (xs : list A) (body : A -> M unit) :
  (forall x, writer (body x)) -> writer (for_each xs body).
Proof.
  intros Hb. induction xs as [|x xs IH]; simpl.
  - apply writer_ret.
  - apply writer_bind; auto.
Qed.

Ltac writer_step :=
  match goal with
  | |- writer (mbind _ _) => apply writer_bind
  | |- writer (mret _) => apply writer_ret
  | |- writer (raise _) => apply writer_raise
  | |- writer (call_unit _) => apply writer_call_unit
  | |- writer (call _) => apply writer_call
  | |- writer (logger _ _) => apply writer_logger
  | |- writer (put_file _ _) => apply writer_put_file
  | |- writer (try_except _ _) => apply writer_try
  | |- writer (on_exit _ _) => apply writer_on_exit
  | |- writer (for_each _ _) => apply writer_for_each
  | |- writer (if ?b then _ else _) => destruct b
  | |- writer (match ?x with _ => _ end) => destruct x
  | |- forall _, _ => intro
  end.

Lemma writer_score_icon e icon_path : writer (GenerateOnce.score_icon e icon_path).
Proof. unfold GenerateOnce.score_icon. repeat writer_step. Qed.

Lemma writer_select_best_icon e icon_files best_icon best_score :
  writer (GenerateOnce.select_best_icon e icon_files best_icon best_score).
Proof.
  revert best_icon best_score.
  induction icon_files as [|p rest IH]; intros best_icon best_score; simpl.
  - apply writer_ret.
  - apply writer_bind; [apply writer_score_icon|].
    intros score. destruct (best_score <? score); apply IH.
Qed.

(** ** Files that are left alone *)

Section untouched_rules.
Context {A B : Type} (Q : string -> Prop).

Lemma untouched_bind (m : M A) (k : A -> M B) :
  untouched Q m -> (forall a, untouched Q (k a)) -> untouched Q (m ≫= k).
Proof.
  intros Hm Hk w path HQ. rewrite bind_run.
  specialize (Hm w path HQ). destruct (m w) as [[a|ex] w1]; cbn [snd] in *.
  - rewrite (Hk a w1 path HQ). exact Hm.
  - exact Hm.
Qed.

Lemma untouched_try (body : M A) (handler : exn -> M A) :
  untouched Q body -> (forall ex, untouched Q (handler ex)) ->
  untouched Q (try_except body handler).
Proof.
  intros Hb Hh w path HQ. unfold try_except.
  specialize (Hb w path HQ). destruct (body w) as [[a|ex] w1]; cbn [snd] in *.
  - exact Hb.
  - rewrite (Hh ex w1 path HQ). exact Hb.
Qed.

Lemma untouched_on_exit (body : M A) (exit : option exn) :
  untouched Q body -> untouched Q (on_exit body exit).
Proof.
  intros Hb w path HQ. unfold on_exit.
  specialize (Hb w path HQ). destruct (body w) as [r w1].
  destruct exit; exact Hb.
Qed.

Lemma untouched_ret (a : A) : untouched Q (mret a : M A).
Proof. intros w path _. reflexivity. Qed.

Lemma untouched_raise (ex : exn) : untouched Q (raise ex : M A).
Proof. intros w path _. reflexivity. Qed.

Lemma untouched_call (o : outcome A) : untouched Q (call o).
Proof. intros w path _. reflexivity. Qed.
End untouched_rules.

Lemma untouched_call_unit Q (o : option exn) : untouched Q (call_unit o).
Proof. destruct o; [apply untouched_raise | apply untouched_ret]. Qed.

Lemma untouched_logger Q (l : level) (msg : string) : untouched Q (logger l msg).
Proof. intros w path _. reflexivity. Qed.

Lemma untouched_get_file Q (p : string) : untouched Q (get_file p).
Proof. intros w path _. reflexivity. Qed.

Lemma untouched_put_file (Q : string -> Prop) (p : string) (f : file) :
  ~ Q p -> untouched Q (put_file p f).
Proof.
  intros Hp w path HQ. cbn. apply lookup_insert_ne. intros ->. contradiction.
Qed.

Lemma untouched_for_each {A} Q (xs : list A) (body : A -> M unit) :
  (forall x, untouched Q (body x)) -> untouched Q (for_each xs body).
Proof.
  intros Hb. induction xs as [|x xs IH]; cbn [for_each].
  - apply untouched_ret.
  - apply untouched_bind; auto.
Qed.

Ltac untouched_step :=
  match goal with
  | |- untouched _ (mbind _ _) => apply untouched_bind
  | |- untouched _ (mret _) => apply untouched_ret
  | |- untouched _ (raise _) => apply untouched_raise
  | |- untouched _ (call_unit _) => apply untouched_call_unit
  | |- untouched _ (call _) => apply untouched_call
  | |- untouched _ (logger _ _) => apply untouched_logger
  | |- untouched _ (get_file _) => apply untouched_get_file
  | |- untouched _ (try_except _ _) => apply untouched_try
  | |- untouched _ (on_exit _ _) => apply untouched_on_exit
  | |- untouched _ (for_each _ _) => apply untouched_for_each
  | |- untouched _ (if ?b then _ else _) => destruct b
  | |- untouched _ (match ?x with _ => _ end) => destruct x
  | |- forall _, _ => intro
  end.

Lemma untouched_score_icon Q e icon_path :
  untouched Q (GenerateOnce.score_icon e icon_path).
Proof. unfold GenerateOnce.score_icon. repeat untouched_step. Qed.

Lemma untouched_select_best_icon Q e icon_files best_icon best_score :
  untouched Q (GenerateOnce.select_best_icon e icon_files best_icon best_score).
Proof.
  revert best_icon best_score.
  induction icon_files as [|p rest IH]; intros best_icon best_score;
    cbn [GenerateOnce.select_best_icon].
  - apply untouched_ret.
  - apply untouched_bind; [apply untouched_score_icon|].
    intros score. destruct (best_score <? score); apply IH.
Qed.

(** Every directory of the caching loop lies under the icon cache, and so
    does every path at which a copy is left. *)
Lemma cache_subdir_under_cache e icon_path (z : Z) :
  under_icon_cache e (GenerateOnce.cache_subdir (icon_cache_dir e) icon_path z)
  = true.
Proof.
  unfold under_icon_cache, GenerateOnce.cache_subdir, GenerateOnce.size_dir.
  repeat match goal with
         | |- context [if ?b then _ else _] => destruct b
         end;
    rewrite join_eq by (vm_compute; discriminate);
    rewrite <- append_assoc; apply startswith_app.
Qed.

Lemma cache_target_under_cache e src icon_path (z : Z) (name : string) :
  under_icon_cache e
    (copy2_target e src
       (GenerateOnce.cache_subdir (icon_cache_dir e) icon_path z // name))
  = true.
Proof.
  unfold under_icon_cache, copy2_target.
  destruct (isdir e _); [apply startswith_app_l|];
    apply startswith_join, cache_subdir_under_cache.
Qed.

Lemma untouched_cache_icon e icon_path :
  untouched (fun path => under_icon_cache e path = false)
    (GenerateOnce.cache_icon e (icon_cache_dir e) icon_path).
Proof.
  unfold GenerateOnce.cache_icon, copy2. cbv zeta.
  repeat first
    [ apply untouched_put_file;
      rewrite cache_target_under_cache; discriminate
    | untouched_step ].
Qed.

Lemma untouched_extract_and_cache_icons e appimage_path :
  untouched (fun path => under_icon_cache e path = false)
    (GenerateOnce.extract_and_cache_icons e appimage_path).
Proof.
  unfold GenerateOnce.extract_and_cache_icons, with_TemporaryDirectory,
    GenerateOnce.extract_body.
  fold (icon_cache_dir e).
  repeat first [ apply untouched_select_best_icon
               | apply untouched_cache_icon
               | untouched_step ].
Qed.

Lemma untouched_update_desktop_database Q e d :
  untouched Q (GenerateOnce.update_desktop_database e d).
Proof. unfold GenerateOnce.update_desktop_database. repeat untouched_step. Qed.

Lemma untouched_weaken {A} (P Q : string -> Prop) (c : M A) :
  (forall path, Q path -> P path) -> untouched P c -> untouched Q c.
Proof. intros HPQ Hc w path HQ. apply Hc, HPQ, HQ. Qed.

(** ** Files that can be overwritten *)

Lemma same_access_apply_writes e Q writes (m m' : gmap string file) :
  same_access e Q m m' ->
  same_access e Q (apply_writes writes m) (apply_writes writes m').
Proof.
  intros H path HQ. rewrite !apply_writes_lookup.
  destruct (written writes path); [reflexivity|apply H, HQ].
Qed.

Section steady_rules.
Context {A B : Type} (e : Env) (Q : string -> Prop).

Lemma steady_writer (c : M A) : writer c -> steady e Q c.
Proof.
  intros (o & l & Hc) w w' _.
  destruct (Hc w) as [Ho Hfs], (Hc w') as [Ho' Hfs'].
  split; [congruence|]. exists l. auto.
Qed.

Lemma steady_bind (m : M A) (k : A -> M B) :
  steady e Q m -> (forall a, steady e Q (k a)) -> steady e Q (m ≫= k).
Proof.
  intros Hm Hk w w' Hw. rewrite !bind_run.
  destruct (Hm w w' Hw) as (Ho & l1 & H1 & H1').
  destruct (m w) as [r w1], (m w') as [r' w1']. cbn [fst snd] in *. subst r'.
  destruct r as [a|ex].
  - destruct (Hk a w1 w1') as (Ho2 & l2 & H2 & H2').
    { rewrite H1, H1'. apply same_access_apply_writes, Hw. }
    split; [exact Ho2|]. exists (l1 ++ l2)%list.
    rewrite !apply_writes_app, <- H1, <- H1'. auto.
  - split; [reflexivity|]. exists l1. auto.
Qed.

Lemma steady_try (body : M A) (handler : exn -> M A) :
  steady e Q body -> (forall ex, steady e Q (handler ex)) ->
  steady e Q (try_except body handler).
Proof.
  intros Hb Hh w w' Hw. unfold try_except.
  destruct (Hb w w' Hw) as (Ho & l1 & H1 & H1').
  destruct (body w) as [r w1], (body w') as [r' w1']. cbn [fst snd] in *.
  subst r'. destruct r as [a|ex].
  - split; [reflexivity|]. exists l1. auto.
  - destruct (Hh ex w1 w1') as (Ho2 & l2 & H2 & H2').
    { rewrite H1, H1'. apply same_access_apply_writes, Hw. }
    split; [exact Ho2|]. exists (l1 ++ l2)%list.
    rewrite !apply_writes_app, <- H1, <- H1'. auto.
Qed.

Lemma steady_on_exit (body : M A) (exit : option exn) :
  steady e Q body -> steady e Q (on_exit body exit).
Proof.
  intros Hb w w' Hw. unfold on_exit.
  destruct (Hb w w' Hw) as (Ho & l & H1 & H1').
  destruct (body w) as [r w1], (body w') as [r' w1']. cbn [fst snd] in *.
  subst r'. destruct exit; (split; [reflexivity|]; exists l; auto).
Qed.
End steady_rules.

Lemma steady_for_each {A} e Q (xs : list A) (body : A -> M unit) :
  (forall x, steady e Q (body x)) -> steady e Q (for_each xs body).
Proof.
  intros Hb. induction xs as [|x xs IH]; cbn [for_each].
  - apply steady_writer, writer_ret.
  - apply steady_bind; auto.
Qed.

(** A copy asks only whether the file where it lands can be overwritten. *)
Lemma steady_copy2 e (Q : string -> Prop) src dst :
  Q (copy2_target e src dst) -> steady e Q (copy2 e src dst).
Proof.
  intros HQ w w' Hw. unfold copy2. cbv zeta.
  destruct (copy2_error e src (copy2_target e src dst)) as [ex|];
    cbn [call_unit]; run.
  - split; [reflexivity|]. exists []. split; reflexivity.
  - rewrite !get_file_run. run. rewrite <- (Hw _ HQ).
    destruct (may_overwrite e (fs w !! copy2_target e src dst)).
    + split; [reflexivity|].
      exists [(copy2_target e src dst, scratch_file e src)]. split; reflexivity.
    + split; [reflexivity|]. exists []. split; reflexivity.
Qed.

Ltac steady_step :=
  match goal with
  | |- steady _ _ (mbind _ _) => apply steady_bind
  | |- steady _ _ (try_except _ _) => apply steady_try
  | |- steady _ _ (on_exit _ _) => apply steady_on_exit
  | |- steady _ _ (for_each _ _) => apply steady_for_each
  | |- steady _ _ (if ?b then _ else _) => destruct b
  | |- steady _ _ (match ?x with _ => _ end) => destruct x
  | |- steady _ _ _ => apply steady_writer; solve [repeat writer_step]
  | |- forall _, _ => intro
  end.

Lemma steady_cache_icon e icon_path :
  steady e (fun path => under_icon_cache e path = true)
    (GenerateOnce.cache_icon e (icon_cache_dir e) icon_path).
Proof.
  unfold GenerateOnce.cache_icon.
  repeat first [ apply steady_copy2; apply cache_target_under_cache
               | steady_step ].
Qed.

(** The extraction asks of the files only whether those under the icon
    cache can be overwritten. *)
Lemma steady_extract_and_cache_icons e appimage_path :
  steady e (fun path => under_icon_cache e path = true)
    (GenerateOnce.extract_and_cache_icons e appimage_path).
Proof.
  unfold GenerateOnce.extract_and_cache_icons, with_TemporaryDirectory,
    GenerateOnce.extract_body.
  fold (icon_cache_dir e).
  repeat first [ apply steady_writer, writer_select_best_icon
               | apply steady_cache_icon
               | steady_step ].
Qed.

Section keeps_access_rules.
Context {A B : Type} (e : Env).

Lemma keeps_access_bind (m : M A) (k : A -> M B) :
  keeps_access e m -> (forall a, keeps_access e (k a)) ->
  keeps_access e (m ≫= k).
Proof.
  intros Hm Hk w path. rewrite bind_run.
  specialize (Hm w path). destruct (m w) as [[a|ex] w1]; cbn [snd] in *.
  - rewrite (Hk a w1 path). exact Hm.
  - exact Hm.
Qed.

Lemma keeps_access_call_bind (o : outcome A) (k : A -> M B) :
  (forall a, o = Returned a -> keeps_access e (k a)) ->
  keeps_access e (call o ≫= k).
Proof.
  intros Hk w path. rewrite bind_run, call_run.
  destruct o as [a|ex]; [apply (Hk a eq_refl)|reflexivity].
Qed.

Lemma keeps_access_try (body : M A) (handler : exn -> M A) :
  keeps_access e body -> (forall ex, keeps_access e (handler ex)) ->
  keeps_access e (try_except body handler).
Proof.
  intros Hb Hh w path. unfold try_except.
  specialize (Hb w path). destruct (body w) as [[a|ex] w1]; cbn [snd] in *.
  - exact Hb.
  - rewrite (Hh ex w1 path). exact Hb.
Qed.

Lemma keeps_access_on_exit (body : M A) (exit : option exn) :
  keeps_access e body -> keeps_access e (on_exit body exit).
Proof.
  intros Hb w path. unfold on_exit.
  specialize (Hb w path). destruct (body w) as [r w1].
  destruct exit; exact Hb.
Qed.

Lemma keeps_access_untouched (c : M A) :
  untouched (fun _ => True) c -> keeps_access e c.
Proof. intros H w path. rewrite (H w path I). reflexivity. Qed.
End keeps_access_rules.

Lemma keeps_access_for_each {A} e (xs : list A) (body : A -> M unit) :
  (forall x, In x xs -> keeps_access e (body x)) ->
  keeps_access e (for_each xs body).
Proof.
  intros Hb. induction xs as [|x xs IH]; cbn [for_each].
  - apply keeps_access_untouched, untouched_ret.
  - apply keeps_access_bind; [apply Hb; left; reflexivity|].
    intros _. apply IH. intros y Hy. apply Hb. right. exact Hy.
Qed.

(** A copy that can itself be overwritten leaves every path as open to
    writing as it was. *)
Lemma keeps_access_copy2 e src dst :
  may_overwrite e (Some (scratch_file e src)) = true ->
  keeps_access e (copy2 e src dst).
Proof.
  intros Hsrc w path. unfold copy2. cbv zeta.
  destruct (copy2_error e src (copy2_target e src dst)) as [ex|];
    cbn [call_unit]; run; [reflexivity|].
  rewrite get_file_run. run.
  destruct (may_overwrite e (fs w !! copy2_target e src dst)) eqn:Hold;
    [|reflexivity].
  rewrite put_file_run. cbn [snd fs].
  destruct (decide (copy2_target e src dst = path)) as [<-|Hne].
  - rewrite lookup_insert_eq, Hold. exact Hsrc.
  - rewrite lookup_insert_ne by exact Hne. reflexivity.
Qed.

Ltac keeps_step :=
  match goal with
  | |- keeps_access _ (mbind _ _) => apply keeps_access_bind
  | |- keeps_access _ (try_except _ _) => apply keeps_access_try
  | |- keeps_access _ (on_exit _ _) => apply keeps_access_on_exit
  | |- keeps_access _ (if ?b then _ else _) => destruct b
  | |- keeps_access _ _ =>
      apply keeps_access_untouched; solve [repeat untouched_step]
  | |- forall _, _ => intro
  end.

Lemma keeps_access_cache_icon e dir icon_path :
  may_overwrite e (Some (scratch_file e icon_path)) = true ->
  keeps_access e (GenerateOnce.cache_icon e dir icon_path).
Proof.
  intros Hsrc. unfold GenerateOnce.cache_icon.
  repeat first [ apply keeps_access_copy2; exact Hsrc | keeps_step ].
Qed.

(** When the icons of the bundle leave copies that can be overwritten, the
    extraction leaves every path as open to writing as it was. *)
Lemma keeps_access_extract_and_cache_icons e appimage_path :
  keeps_cache_writable e appimage_path ->
  keeps_access e (GenerateOnce.extract_and_cache_icons e appimage_path).
Proof.
  intros Hw.
  unfold GenerateOnce.extract_and_cache_icons, with_TemporaryDirectory.
  apply keeps_access_bind; [keeps_step|intros _].
  apply keeps_access_call_bind. intros temp_path Htmp.
  apply keeps_access_on_exit, keeps_access_bind; [keeps_step|intros _].
  apply keeps_access_try; [|repeat keeps_step].
  unfold GenerateOnce.extract_body.
  apply keeps_access_bind; [keeps_step|intros result].
  destruct (negb (returncode result =? 0)); [repeat keeps_step|].
  cbv zeta.
  destruct (GenerateOnce.find_icon_files e temp_path) as [|q0 rest] eqn:Hfiles;
    [repeat keeps_step|].
  apply keeps_access_bind; [keeps_step|intros _].
  apply keeps_access_bind;
    [apply keeps_access_untouched, untouched_select_best_icon|].
  intros [[best_icon|] best_score]; [|repeat keeps_step].
  apply keeps_access_bind; [keeps_step|intros _].
  apply keeps_access_bind; [|repeat keeps_step].
  apply keeps_access_for_each. intros q Hq.
  apply keeps_access_cache_icon, (Hw temp_path q Htmp).
  rewrite Hfiles. exact Hq.
Qed.

(** ** Writing the entry *)

(** Refreshing the desktop database leaves the files alone, whatever
    happens. *)
Lemma update_desktop_database_fs e d w :
  fs (snd (GenerateOnce.update_desktop_database e d w)) = fs w.
Proof.
  unfold GenerateOnce.update_desktop_database, try_except.
  rewrite bind_run. unfold call_unit.
  destruct (run_update_desktop_database e d) as [ex|]; simpl; [|reflexivity].
  destruct (isinstance ex CalledProcessError); [reflexivity|].
  destruct (isinstance ex FileNotFoundError); reflexivity.
Qed.

(** Lines 212-226 as one computation: write, chmod, log, refresh. *)
Lemma write_entry_fs e df d text w :
  fs (snd ((write_text e df text;;
            chmod e df 493;;
            logger INFO ("Generated desktop file: " +:+ df);;
            GenerateOnce.update_desktop_database e d) w))
  = entry_fs e df text (fs w).
Proof.
  unfold entry_fs, write_text, chmod, call_unit.
  destruct (open_error e df) as [ex|]; [reflexivity|].
  destruct (write_error e df) as [ex|]; [reflexivity|].
  destruct (chmod_error e df) as [ex|].
  - run_M. rewrite insert_insert_eq. reflexivity.
  - run_M. rewrite lookup_insert_eq.
    rewrite update_desktop_database_fs. cbn [fs contents].
    rewrite !insert_insert_eq. reflexivity.
Qed.


(** ** Exceptions stay inside [generate_desktop_file] *)

Lemma generate_returns e p d w :
  fst (GenerateOnce.generate_desktop_file e p d w) = Returned tt.
Proof.
  unfold GenerateOnce.generate_desktop_file, try_except.
  destruct (GenerateOnce.generate_body e p d w) as [[[]|ex] w1]; reflexivity.
Qed.

Lemma generate_logs_error e p d w ex w1 :
  GenerateOnce.generate_body e p d w = (Raised ex, w1) ->
  GenerateOnce.generate_desktop_file e p d w =
  (Returned tt,
   {| fs := fs w1;
      log := log w1 ++ [(ERROR, "Error generating desktop file for " +:+ p
                                +:+ ": " +:+ exc_str ex)] |}).
Proof.
  intros H. unfold GenerateOnce.generate_desktop_file, try_except.
  rewrite H. reflexivity.
Qed.

(** The loop of [main], lines 253-255. *)
Lemma main_loop_run e d (appimages : list string) w :
  for_each appimages (fun appimage =>
    logger INFO ("Processing: " +:+ Path.name appimage);;
    GenerateOnce.generate_desktop_file e appimage d) w
  = (Returned tt,
     fold_left
       (fun w appimage =>
          snd (GenerateOnce.generate_desktop_file e appimage d
                 (snd (logger INFO ("Processing: " +:+ Path.name appimage) w))))
       appimages w).
Proof.
  revert w. induction appimages as [|a rest IH]; intros w; [reflexivity|].
  rewrite for_each_cons, bind_run, bind_run, logger_run.
  pose proof (generate_returns e a d
                {| fs := fs w;
                   log := log w ++ [(INFO, "Processing: " +:+ Path.name a)] |})
    as Hret.
  cbn [fold_left]. rewrite logger_run. cbn [snd].
  destruct (GenerateOnce.generate_desktop_file e a d _) as [r w1].
  simpl in Hret. subst r. cbn [snd]. apply IH.
Qed.

(** Once its two directories exist, [main] runs to its end. *)
Lemma main_returns e w :
  mkdir_p e (home e // "AppImages") = None ->
  mkdir_p e (home e // ".local/share/applications") = None ->
  fst (GenerateOnce.main e w) = Returned tt.
Proof.
  intros Hmk1 Hmk2. unfold GenerateOnce.main. rewrite Hmk1, Hmk2.
  cbn [call_unit]. run.
  destruct (glob_AppImage e (home e // "AppImages")) as [|a rest] eqn:Hglob;
    [reflexivity|].
  rewrite <- Hglob. run. rewrite main_loop_run. run. reflexivity.
Qed.

(** C9: [generate_desktop_file] never raises.  Whatever fails inside its
    [try] block - the extraction, opening or writing the entry, [chmod],
    or a refresh of the desktop database that raises something else than
    the two exceptions handled on the spot - ends in one ERROR record and a
    normal return; a refresh that fails or is absent is logged as a
    WARNING on the spot; so the loop of [main] goes on to every remaining
    bundle and [main], once its directories exist, runs to its end. *)
Theorem C9_generate_never_raises (e : Env) (appimage_path desktop_dir : string)
    (w : World) :
  fst (GenerateOnce.generate_desktop_file e appimage_path desktop_dir w)
  = Returned tt
  /\ (forall ex w1,
        GenerateOnce.generate_body e appimage_path desktop_dir w
        = (Raised ex, w1) ->
        GenerateOnce.generate_desktop_file e appimage_path desktop_dir w
        = (Returned tt,
           {| fs := fs w1;
              log := log w1 ++
                     [(ERROR, "Error generating desktop file for "
                              +:+ appimage_path +:+ ": " +:+ exc_str ex)] |}))
  /\ (forall ex,
        run_update_desktop_database e desktop_dir = Some ex ->
        isinstance ex CalledProcessError || isinstance ex FileNotFoundError
        = true ->
        exists msg,
          GenerateOnce.update_desktop_database e desktop_dir w
          = (Returned tt,
             {| fs := fs w; log := log w ++ [(WARNING, msg)] |}))
  /\ (forall appimages : list string,
        for_each appimages (fun appimage =>
          logger INFO ("Processing: " +:+ Path.name appimage);;
          GenerateOnce.generate_desktop_file e appimage desktop_dir) w
        = (Returned tt,
           fold_left
             (fun w appimage =>
                snd (GenerateOnce.generate_desktop_file e appimage desktop_dir
                       (snd (logger INFO
                               ("Processing: " +:+ Path.name appimage) w))))
             appimages w))
  /\ (mkdir_p e (home e // "AppImages") = None ->
      mkdir_p e (home e // ".local/share/applications") = None ->
      fst (GenerateOnce.main e w) = Returned tt).
Proof.
  split; [apply generate_returns|].
  split; [intros ex w1; apply generate_logs_error|].
  split; [|split; [intros appimages; apply main_loop_run|apply main_returns]].
  intros ex Hrun Hhandled.
  unfold GenerateOnce.update_desktop_database, try_except.
  rewrite Hrun. cbn [call_unit]. run.
  destruct (isinstance ex CalledProcessError); [eexists; reflexivity|].
  destruct (isinstance ex FileNotFoundError); [eexists; reflexivity|].
  discriminate Hhandled.
Qed.

(** An applications directory that cannot be written: the error is
    logged and the call returns. *)
Lemma C9_witness :
  exists w1,
    GenerateOnce.generate_desktop_file read_only_env sample_bundle
      sample_desktop_dir empty_world
    = (Returned tt,
       {| fs := fs w1;
          log := log w1 ++
                 [(ERROR, "Error generating desktop file for "
                          +:+ sample_bundle
                          +:+ ": [Errno 13] Permission denied")] |}).
Proof.
  destruct (C9_generate_never_raises read_only_env sample_bundle
              sample_desktop_dir empty_world) as (_ & Hlogged & _).
  eexists.
  apply (Hlogged {| exc_type := PermissionError;
                    exc_str := "[Errno 13] Permission denied" |}).
  vm_compute. reflexivity.
Defined.

(** ** Scoring *)

(** The value of the scoring body, in closed form. *)
Lemma score_of_eq e icon_path :
  score_of e icon_path =
  match st_size e icon_path with
  | Raised _ => None
  | Returned file_size =>
      Some (GenerateOnce.format_score icon_path 0
            + Z.min (Z.of_N file_size / 1024) 100
            + if String.eqb (PyStr.lower (Path.suffix icon_path)) ".png"
              then match obtainable_dimensions e icon_path with
                   | Some (width, height) =>
                       Z.min (Z.of_N width * Z.of_N height / 1000) 200
                   | None => 0
                   end
              else 0)
  end.
Proof.
  unfold score_of, GenerateOnce.score_icon, obtainable_dimensions.
  rewrite bind_run. unfold call at 1.
  destruct (st_size e icon_path) as [file_size|ex]; [|reflexivity].
  destruct (String.eqb (PyStr.lower (Path.suffix icon_path)) ".png").
  - unfold try_except, call_unit.
    destruct (import_PIL e) as [ex|].
    + run_M. destruct (isinstance ex ImportError); cbn; f_equal; lia.
    + run_M. destruct (Image_size e icon_path) as [[width height]|ex].
      * reflexivity.
      * destruct (isinstance ex ImportError); cbn; f_equal; lia.
  - cbn. f_equal. lia.
Qed.

(** The scoring body gives the same score from every world, and writes no
    file. *)
Lemma score_icon_run e icon_path w :
  exists w',
    GenerateOnce.score_icon e icon_path w =
    (match score_of e icon_path with
     | Some score => Returned score
     | None => match st_size e icon_path with
               | Raised ex => Raised ex
               | Returned _ => Returned 0
               end
     end, w')
    /\ fs w' = fs w.
Proof.
  unfold score_of, GenerateOnce.score_icon.
  rewrite !bind_run. unfold call at 1 3.
  destruct (st_size e icon_path) as [file_size|ex]; [|eexists; split; reflexivity].
  destruct (String.eqb (PyStr.lower (Path.suffix icon_path)) ".png").
  - unfold try_except, call_unit.
    destruct (import_PIL e) as [ex|].
    + run_M. destruct (isinstance ex ImportError); eexists; split; reflexivity.
    + run_M. destruct (Image_size e icon_path) as [[width height]|ex].
      * eexists; split; reflexivity.
      * destruct (isinstance ex ImportError); eexists; split; reflexivity.
  - eexists; split; reflexivity.
Qed.

Lemma score_of_Some_run e icon_path score w :
  score_of e icon_path = Some score ->
  exists w', GenerateOnce.score_icon e icon_path w = (Returned score, w')
             /\ fs w' = fs w.
Proof.
  intros H. destruct (score_icon_run e icon_path w) as (w' & Hrun & Hfs).
  rewrite H in Hrun. eauto.
Qed.

Lemma score_of_stat e icon_path :
  is_Some (score_of e icon_path) <->
  exists file_size, st_size e icon_path = Returned file_size.
Proof.
  rewrite score_of_eq. destruct (st_size e icon_path) as [n|ex]; split.
  - eauto.
  - intros _. eexists. reflexivity.
  - intros [x Hx]. discriminate.
  - intros [n Hn]. discriminate.
Qed.

Lemma format_score_format_of icon_path :
  GenerateOnce.format_score icon_path 0 =
  match format_of icon_path with
  | Some f => base_score f
  | None => 0
  end.
Proof.
  unfold GenerateOnce.format_score, format_of. cbv zeta.
  repeat match goal with
         | |- context [String.eqb ?a ?b] => destruct (String.eqb a b)
         end; reflexivity.
Qed.

Lemma format_of_png icon_path :
  String.eqb (PyStr.lower (Path.suffix icon_path)) ".png" = true <->
  format_of icon_path = Some PNG.
Proof.
  unfold format_of. cbv zeta.
  destruct (String.eqb (PyStr.lower (Path.suffix icon_path)) ".svg") eqn:Esvg.
  - apply String.eqb_eq in Esvg. rewrite Esvg. split; discriminate.
  - destruct (String.eqb (PyStr.lower (Path.suffix icon_path)) ".png").
    + split; reflexivity.
    + split; [discriminate|].
      repeat match goal with
             | |- context [String.eqb ?a ?b] => destruct (String.eqb a b)
             end; discriminate.
Qed.

(** The score of a candidate that has a format is the score of the
    specification. *)
Lemma score_of_spec_score e icon_path f file_size :
  format_of icon_path = Some f ->
  st_size e icon_path = Returned file_size ->
  score_of e icon_path =
  Some (spec_score f file_size (obtainable_dimensions e icon_path)).
Proof.
  intros Hf Hsize. rewrite score_of_eq, Hsize, format_score_format_of, Hf.
  unfold spec_score. f_equal. f_equal.
  destruct (String.eqb (PyStr.lower (Path.suffix icon_path)) ".png") eqn:Epng.
  - apply format_of_png in Epng. rewrite Epng in Hf. injection Hf as <-.
    destruct (obtainable_dimensions e icon_path) as [[width height]|];
      reflexivity.
  - destruct f; try reflexivity.
    apply format_of_png in Hf. congruence.
Qed.

Lemma score_of_nonneg e icon_path score :
  score_of e icon_path = Some score -> 0 <= score.
Proof.
  rewrite score_of_eq, format_score_format_of.
  destruct (st_size e icon_path) as [n|ex]; [|discriminate].
  intros [= <-].
  assert (0 <= Z.of_N n / 1024) by (apply Z.div_pos; lia).
  assert (0 <= match format_of icon_path with
               | Some f => base_score f
               | None => 0
               end) by (destruct (format_of icon_path) as [[]|]; simpl; lia).
  assert (0 <= if String.eqb (PyStr.lower (Path.suffix icon_path)) ".png"
               then match obtainable_dimensions e icon_path with
                    | Some (width, height) =>
                        Z.min (Z.of_N width * Z.of_N height / 1000) 200
                    | None => 0
                    end
               else 0).
  { destruct (String.eqb _ ".png"); [|lia].
    destruct (obtainable_dimensions e icon_path) as [[width height]|]; [|lia].
    assert (0 <= Z.of_N width * Z.of_N height / 1000)
      by (apply Z.div_pos; nia).
    lia. }
  lia.
Qed.

Lemma score_of_format_at_least_50 e icon_path f score :
  format_of icon_path = Some f ->
  score_of e icon_path = Some score -> 50 <= score.
Proof.
  intros Hf. rewrite score_of_eq, format_score_format_of, Hf.
  destruct (st_size e icon_path) as [n|ex]; [|discriminate].
  intros [= <-].
  assert (0 <= Z.of_N n / 1024) by (apply Z.div_pos; lia).
  assert (50 <= base_score f) by (destruct f; simpl; lia).
  assert (0 <= if String.eqb (PyStr.lower (Path.suffix icon_path)) ".png"
               then match obtainable_dimensions e icon_path with
                    | Some (width, height) =>
                        Z.min (Z.of_N width * Z.of_N height / 1000) 200
                    | None => 0
                    end
               else 0).
  { destruct (String.eqb _ ".png"); [|lia].
    destruct (obtainable_dimensions e icon_path) as [[width height]|]; [|lia].
    assert (0 <= Z.of_N width * Z.of_N height / 1000)
      by (apply Z.div_pos; nia).
    lia. }
  lia.
Qed.

(** The scoring loop, from any starting pair: either no icon beats the
    starting score and the pair is returned unchanged, or the icon
    returned is the first of those with the highest score. *)
Lemma select_best_icon_run e (icon_files : list string) :
  (forall p, In p icon_files -> is_Some (score_of e p)) ->
  forall best_icon best_score w,
  exists best' score' w',
    GenerateOnce.select_best_icon e icon_files best_icon best_score w
    = (Returned (best', score'), w')
    /\ fs w' = fs w
    /\ ((best' = best_icon /\ score' = best_score /\
         forall p s, In p icon_files -> score_of e p = Some s -> s <= best_score)
        \/ exists before b after,
             icon_files = (before ++ b :: after)%list /\
             best' = Some b /\ score_of e b = Some score' /\
             best_score < score' /\
             (forall p s, In p before -> score_of e p = Some s -> s < score') /\
             (forall p s, In p after -> score_of e p = Some s -> s <= score')).
Proof.
  induction icon_files as [|p rest IH]; intros Hall best_icon best_score w.
  - exists best_icon, best_score, w. split; [reflexivity|]. split; [reflexivity|].
    left. repeat split; auto. intros q s [].
  - assert (Hrest : forall q, In q rest -> is_Some (score_of e q))
      by (intros q Hq; apply Hall; right; exact Hq).
    destruct (Hall p (or_introl eq_refl)) as [s Hs].
    destruct (score_of_Some_run e p s w Hs) as (w1 & Hrun & Hfs1).
    cbn [GenerateOnce.select_best_icon]. rewrite bind_run, Hrun.
    destruct (best_score <? s) eqn:Hlt.
    + apply Z.ltb_lt in Hlt.
      destruct (IH Hrest (Some p) s w1)
        as (best' & score' & w' & Hsel & Hfs & Hcase).
      exists best', score', w'. split; [exact Hsel|].
      split; [congruence|]. right.
      destruct Hcase as [(-> & -> & Hle)
                        |(before & b & after & -> & -> & Hb & Hgt & Hbef & Haft)].
      * exists [], p, rest. repeat split; auto. intros q t [].
      * exists (p :: before), b, after. repeat split; auto; [lia|].
        intros q t [<-|Hq] Ht; [|eauto]. rewrite Hs in Ht. injection Ht as <-.
        exact Hgt.
    + apply Z.ltb_ge in Hlt.
      destruct (IH Hrest best_icon best_score w1)
        as (best' & score' & w' & Hsel & Hfs & Hcase).
      exists best', score', w'. split; [exact Hsel|].
      split; [congruence|].
      destruct Hcase as [(-> & -> & Hle)
                        |(before & b & after & -> & -> & Hb & Hgt & Hbef & Haft)].
      * left. repeat split; auto.
        intros q t [<-|Hq] Ht; [|eauto]. rewrite Hs in Ht. injection Ht as <-.
        exact Hlt.
      * right. exists (p :: before), b, after. repeat split; auto.
        intros q t [<-|Hq] Ht; [|eauto]. rewrite Hs in Ht. injection Ht as <-.
        lia.
Qed.

(** From the sentinel [-1] a non-empty list always yields a winner. *)
Lemma select_best_icon_winner e (icon_files : list string) w :
  icon_files <> [] ->
  (forall p, In p icon_files -> is_Some (score_of e p)) ->
  exists before b after score w',
    GenerateOnce.select_best_icon e icon_files None (-1) w
    = (Returned (Some b, score), w')
    /\ fs w' = fs w
    /\ icon_files = (before ++ b :: after)%list
    /\ score_of e b = Some score
    /\ (forall p s, In p before -> score_of e p = Some s -> s < score)
    /\ (forall p s, In p after -> score_of e p = Some s -> s <= score).
Proof.
  intros Hne Hall.
  destruct (select_best_icon_run e icon_files Hall None (-1) w)
    as (best' & score' & w' & Hsel & Hfs & Hcase).
  destruct Hcase as [(-> & -> & Hle)
                    |(before & b & after & Hsplit & -> & Hb & _ & Hbef & Haft)].
  - destruct icon_files as [|p rest]; [congruence|].
    destruct (Hall p (or_introl eq_refl)) as [s Hs].
    pose proof (score_of_nonneg e p s Hs).
    pose proof (Hle p s (or_introl eq_refl) Hs). lia.
  - exists before, b, after, score', w'. repeat split; auto.
Qed.

(** ** Extraction and caching *)

(** With the scratch directory in place, the function is its [try] block
    under its handlers, run after the first log record. *)
Lemma extract_and_cache_icons_run e p tmp w :
  scratch_ok e p tmp ->
  GenerateOnce.extract_and_cache_icons e p w =
  try_except
    (GenerateOnce.extract_body e p (icon_cache_dir e) tmp)
    (extract_handler p)
    {| fs := fs w;
       log := log w ++ [(INFO, "Extracting " +:+ p +:+ " to " +:+ tmp)] |}.
Proof.
  intros (Hmk & Htmp & Hclean).
  unfold GenerateOnce.extract_and_cache_icons, with_TemporaryDirectory.
  fold (icon_cache_dir e). rewrite Hmk, Htmp.
  cbn [call_unit]. run. unfold on_exit. rewrite Hclean. run.
  unfold extract_handler.
  match goal with
  | |- match ?c with _ => _ end = _ => destruct c as [r w']
  end.
  reflexivity.
Qed.

(** The handlers turn every exception of the [try] block into "no icon". *)
Lemma extract_handler_run p ex w :
  exists w', extract_handler p ex w = (Returned None, w') /\ fs w' = fs w.
Proof.
  unfold extract_handler.
  destruct (isinstance ex TimeoutExpired); eexists; split; reflexivity.
Qed.

Lemma extract_no_icon e p tmp w :
  scratch_ok e p tmp ->
  (exists ex, run_appimage_extract e p tmp = Raised ex)
  \/ (exists r, run_appimage_extract e p tmp = Returned r /\ returncode r <> 0)
  \/ (exists r, run_appimage_extract e p tmp = Returned r /\
                GenerateOnce.find_icon_files e tmp = []) ->
  exists w', GenerateOnce.extract_and_cache_icons e p w = (Returned None, w')
             /\ fs w' = fs w.
Proof.
  intros Hok Hfail. rewrite (extract_and_cache_icons_run e p tmp w Hok).
  unfold try_except, GenerateOnce.extract_body. rewrite bind_run. unfold call.
  destruct Hfail as [[ex ->]|[(r & -> & Hrc)|(r & -> & Hnone)]].
  - match goal with
    | |- context [extract_handler p ex ?w0] =>
        destruct (extract_handler_run p ex w0) as (w' & Hh & Hfs)
    end.
    exists w'. split; [exact Hh | exact Hfs].
  - apply Z.eqb_neq in Hrc. rewrite Hrc. cbn [negb].
    eexists. split; reflexivity.
  - destruct (negb (returncode r =? 0)); [eexists; split; reflexivity|].
    rewrite Hnone. eexists. split; reflexivity.
Qed.

Lemma all_cachable_sizes e (icons : list (string * N))
    (m : gmap string file) :
  all_cachable e m icons ->
  forall q n, In (q, n) icons -> st_size e q = Returned n.
Proof.
  revert m. induction icons as [|[q0 n0] icons IH]; intros m Hall q n Hin;
    [destruct Hin|].
  destruct Hall as [(Hs & _) Hrest].
  destruct Hin as [[= <- <-]|Hin]; [exact Hs|]. eapply IH; eauto.
Qed.

(** The caching loop copies every icon of its list, in order. *)
Lemma cache_loop_run e (icons : list (string * N)) w :
  all_cachable e (fs w) icons ->
  exists w',
    for_each (List.map fst icons) (GenerateOnce.cache_icon e (icon_cache_dir e)) w
    = (Returned tt, w')
    /\ fs w' = apply_writes (cache_writes e icons) (fs w).
Proof.
  revert w. induction icons as [|[q n] icons IH]; intros w Hall.
  - exists w. split; reflexivity.
  - destruct Hall as [(Hsize & Hmk & Hcp & Hov) Hrest]. cbn [fst snd] in *.
    cbn [List.map fst]. rewrite for_each_cons, bind_run.
    unfold GenerateOnce.cache_icon at 1. rewrite Hsize. run.
    rewrite Hmk. cbn [call_unit]. run. unfold copy2. cbv zeta.
    fold (cache_dest e q n). fold (cache_target e q n).
    rewrite Hcp. cbn [call_unit]. run. rewrite get_file_run. run.
    cbn [fs]. rewrite Hov, put_file_run. run.
    match goal with
    | |- context [for_each _ _ ?w0] =>
        destruct (IH w0 Hrest) as (w' & Hrun & Hfs)
    end.
    exists w'. split; [exact Hrun|]. exact Hfs.
Qed.

(** A successful extraction with candidates returns the stem of the
    winner of the scoring loop - the first candidate of highest score -
    and leaves the copies of all of them. *)
Lemma extract_returns_winner e p tmp r (icons : list (string * N)) w :
  scratch_ok e p tmp ->
  run_appimage_extract e p tmp = Returned r -> returncode r = 0 ->
  GenerateOnce.find_icon_files e tmp = List.map fst icons ->
  icons <> [] ->
  all_cachable e (fs w) icons ->
  exists before winner after score w',
    GenerateOnce.extract_and_cache_icons e p w
    = (Returned (Some (Path.stem winner)), w')
    /\ List.map fst icons = (before ++ winner :: after)%list
    /\ score_of e winner = Some score
    /\ (forall q s, In q before -> score_of e q = Some s -> s < score)
    /\ (forall q s, In q after -> score_of e q = Some s -> s <= score)
    /\ fs w' = apply_writes (cache_writes e icons) (fs w).
Proof.
  intros Hok Hrun Hrc Hfiles Hne Hall.
  rewrite (extract_and_cache_icons_run e p tmp w Hok).
  unfold try_except, GenerateOnce.extract_body.
  rewrite bind_run, Hrun. unfold call. rewrite Hrc. cbn [Z.eqb negb].
  rewrite Hfiles.
  destruct (List.map fst icons) as [|q0 rest] eqn:Hmap;
    [destruct icons; [congruence|discriminate]|].
  rewrite <- Hmap. rewrite bind_run, logger_run, bind_run.
  assert (Hscores : forall q, In q (List.map fst icons) -> is_Some (score_of e q)).
  { intros q Hq. apply score_of_stat. apply in_map_iff in Hq as ([q' n] & <- & Hin).
    exists n. apply (all_cachable_sizes e icons (fs w) Hall q' n Hin). }
  assert (Hne' : List.map fst icons <> []) by (rewrite Hmap; discriminate).
  match goal with
  | |- context [GenerateOnce.select_best_icon e _ None (-1) ?w0] =>
      destruct (select_best_icon_winner e (List.map fst icons) w0 Hne' Hscores)
        as (before & b & after & score & w1 & Hsel & Hfs1 & Hsplit & Hb
            & Hbef & Haft)
  end.
  rewrite Hsel. rewrite bind_run, logger_run, bind_run.
  match goal with
  | |- context [for_each _ _ ?w2] =>
      destruct (cache_loop_run e icons w2) as (w3 & Hloop & Hfs3);
        [cbn [fs]; rewrite Hfs1; exact Hall|]
  end.
  rewrite Hloop. exists before, b, after, score, w3.
  split; [reflexivity|]. repeat split; auto.
  rewrite Hfs3. cbn [fs]. rewrite Hfs1. reflexivity.
Qed.

Lemma extract_with_icons e p tmp r (icons : list (string * N)) w :
  scratch_ok e p tmp ->
  run_appimage_extract e p tmp = Returned r -> returncode r = 0 ->
  GenerateOnce.find_icon_files e tmp = List.map fst icons ->
  icons <> [] ->
  all_cachable e (fs w) icons ->
  exists winner w',
    GenerateOnce.extract_and_cache_icons e p w
    = (Returned (Some (Path.stem winner)), w')
    /\ In winner (List.map fst icons)
    /\ fs w' = apply_writes (cache_writes e icons) (fs w).
Proof.
  intros Hok Hrun Hrc Hfiles Hne Hall.
  destruct (extract_returns_winner e p tmp r icons w Hok Hrun Hrc Hfiles Hne Hall)
    as (before & b & after & score & w' & Hx & Hsplit & _ & _ & _ & Hfs).
  exists b, w'. split; [exact Hx|]. split; [|exact Hfs].
  rewrite Hsplit. apply in_or_app. right. left. reflexivity.
Qed.

(** The files after a successful extraction: the copies of all candidates
    replayed in order. *)
Lemma extract_fs_cache_writes e p tmp r (icons : list (string * N)) w :
  scratch_ok e p tmp ->
  run_appimage_extract e p tmp = Returned r -> returncode r = 0 ->
  GenerateOnce.find_icon_files e tmp = List.map fst icons ->
  all_cachable e (fs w) icons ->
  fs (snd (GenerateOnce.extract_and_cache_icons e p w))
  = apply_writes (cache_writes e icons) (fs w).
Proof.
  intros Hok Hrun Hrc Hfiles Hall.
  destruct icons as [|icon icons'] eqn:Hicons.
  - destruct (extract_no_icon e p tmp w Hok) as (w' & Hx & Hfs');
      [right; right; eauto|].
    rewrite Hx. exact Hfs'.
  - rewrite <- Hicons in *.
    destruct (extract_with_icons e p tmp r icons w Hok Hrun Hrc Hfiles)
      as (b & w' & Hx & _ & Hfs'); [congruence|exact Hall|].
    rewrite Hx. exact Hfs'.
Qed.

Lemma written_Some_In (writes : list (string * file)) (path : string)
    (g : file) :
  written writes path = Some g -> In (path, g) writes.
Proof.
  induction writes as [|[q h] writes IH]; cbn [written]; [discriminate|].
  destruct (written writes path) as [g'|].
  - intros [= ->]. right. apply IH. reflexivity.
  - destruct (decide (q = path)) as [->|]; [|discriminate].
    intros [= ->]. left. reflexivity.
Qed.

Lemma written_In (writes : list (string * file)) (path : string) (f : file) :
  In (path, f) writes ->
  exists g, written writes path = Some g /\ In (path, g) writes.
Proof.
  intros Hin.
  assert (Hsome : exists g, written writes path = Some g).
  { induction writes as [|[q h] writes IH]; [destruct Hin|].
    cbn [written]. destruct (written writes path) as [g|]; [eauto|].
    destruct Hin as [[= -> ->]|Hin].
    - destruct (decide (path = path)); [eauto|congruence].
    - destruct (IH Hin) as [g Hg]. discriminate. }
  destruct Hsome as [g Hg]. exists g. split; [exact Hg|].
  apply written_Some_In, Hg.
Qed.

Lemma format_of_svg icon_path :
  String.eqb (PyStr.lower (Path.suffix icon_path)) ".svg" = true <->
  format_of icon_path = Some SVG.
Proof.
  unfold format_of. cbv zeta.
  destruct (String.eqb (PyStr.lower (Path.suffix icon_path)) ".svg").
  - split; reflexivity.
  - split; [discriminate|].
    repeat match goal with
           | |- context [String.eqb ?a ?b] => destruct (String.eqb a b)
           end; discriminate.
Qed.

(** Where the caching loop puts a candidate. *)
Lemma cache_dest_cases e icon_path (n : N) :
  (format_of icon_path = Some SVG ->
   cache_dest e icon_path n
   = icon_cache_dir e // "scalable/apps" // Path.stem icon_path)
  /\ (format_of icon_path <> Some SVG ->
      (Z.of_N n < 5000 ->
       cache_dest e icon_path n
       = icon_cache_dir e // "16x16/apps" // Path.stem icon_path)
      /\ (5000 <= Z.of_N n < 15000 ->
          cache_dest e icon_path n
          = icon_cache_dir e // "32x32/apps" // Path.stem icon_path)
      /\ (15000 <= Z.of_N n < 50000 ->
          cache_dest e icon_path n
          = icon_cache_dir e // "48x48/apps" // Path.stem icon_path)
      /\ (50000 <= Z.of_N n < 100000 ->
          cache_dest e icon_path n
          = icon_cache_dir e // "64x64/apps" // Path.stem icon_path)
      /\ (100000 <= Z.of_N n ->
          cache_dest e icon_path n
          = icon_cache_dir e // "128x128/apps" // Path.stem icon_path)).
Proof.
  unfold cache_dest, GenerateOnce.cache_subdir, GenerateOnce.size_dir.
  split.
  - intros Hsvg. apply format_of_svg in Hsvg. rewrite Hsvg. reflexivity.
  - intros Hnot.
    destruct (String.eqb (PyStr.lower (Path.suffix icon_path)) ".svg") eqn:E;
      [apply format_of_svg in E; congruence|].
    repeat split; intros Hn;
      repeat match goal with
             | |- context [?a <? ?b] =>
                 destruct (Z.ltb_spec a b); try lia
             end; reflexivity.
Qed.

(** Where a copy lands, from the destination the loop computes. *)
Lemma cache_target_cases e icon_path (n : N) :
  (isdir e (cache_dest e icon_path n) = false ->
   cache_target e icon_path n = cache_dest e icon_path n)
  /\ (isdir e (cache_dest e icon_path n) = true ->
      cache_target e icon_path n
      = cache_dest e icon_path n +:+ "/" +:+ Path.name icon_path)
  /\ (Path.stem icon_path = "." ->
      cache_dest e icon_path n
      = GenerateOnce.cache_subdir (icon_cache_dir e) icon_path (Z.of_N n)).
Proof.
  unfold cache_target, copy2_target. split; [|split].
  - intros ->. reflexivity.
  - intros ->. reflexivity.
  - intros H. unfold cache_dest. rewrite H. reflexivity.
Qed.

(** A file that is enumerated and whose name is longer than its extension
    has, for pathlib, the format of that extension. *)
Lemma format_of_enumerated (root file : string) :
  PyStr.rfind file "/" = -1 ->
  PyStr.endswith_any (PyStr.lower file) [".png"; ".svg"; ".xpm"; ".ico"] = true ->
  ~ In (PyStr.lower file) [".png"; ".svg"; ".xpm"; ".ico"] ->
  format_of (root // file) = enumerated_as (root // file)
  /\ is_Some (format_of (root // file)).
Proof.
  intros Hslash Hend Hbare.
  assert (Hdot : file <> ".") by (intros ->; discriminate Hend).
  split; [|destruct (enumerated_file_format root file Hslash Hend Hbare);
           eauto].
  unfold PyStr.endswith_any in Hend.
  apply existsb_exists in Hend as (ext & Hext & Hends).
  assert (Hne : PyStr.lower file <> ext)
    by (intros E; apply Hbare; rewrite E; exact Hext).
  unfold format_of, enumerated_as, Path.suffix.
  rewrite (name_join root file Hslash Hdot). cbv zeta.
  destruct Hext as [<-|[<-|[<-|[<-|[]]]]];
    (unshelve epose proof
       (suffix_of_longer_name _ _ _ file _ _ _ _ Hends Hne)
       as (Hpos & Hlen & Hlow);
     [discriminate| discriminate | discriminate
     | repeat split; discriminate |];
     assert (Hcond : (0 <? PyStr.rfind file ".")
                     && (PyStr.rfind file "." <? PyStr.len file - 1) = true)
       by (apply andb_true_iff; split; apply Z.ltb_lt; lia);
     rewrite Hcond, Hlow;
     repeat match goal with
            | |- context [PyStr.endswith (PyStr.lower file) ?k] =>
                first
                  [ rewrite Hends
                  | let E := fresh "E" in
                    destruct (PyStr.endswith (PyStr.lower file) k) eqn:E;
                    [ pose proof (endswith_same_length _ _ _ E Hends eq_refl)
                        as Habs; discriminate Habs | ] ]
            end;
     reflexivity).
Qed.





(** C4, as the code has it: after a successful extraction whose
    candidates can all be read and copied, every enumerated candidate, and
    not only the winner, has been copied into the icon cache, in traversal
    order: the files are those before the call with one copy per candidate
    replayed on them, and the path at which each candidate lands holds a
    candidate copied there.  The destination computed for a candidate is
    [<dir>/<stem>], with pathlib's stem and suffix: [<dir>] is
    [scalable/apps] when the suffix is [.svg] in any case, and otherwise
    [<bucket>/apps] with the bucket [16x16] below 5000 bytes, [32x32]
    below 15000, [48x48] below 50000, [64x64] below 100000 and [128x128]
    from there on; for a name longer than its extension the suffix is that
    extension, while a file named [.svg] has no suffix and keeps its whole
    name as stem.  The copy lands at that destination unless it is a
    directory, as it is for the stem [.], which leaves [<dir>] itself:
    then the copy lands inside it under the full name of the candidate. *)
Theorem C4_every_candidate_is_cached (e : Env) (appimage_path temp_path : string)
    (r : completed_process) (icons : list (string * N)) (w : World) :
  scratch_ok e appimage_path temp_path ->
  run_appimage_extract e appimage_path temp_path = Returned r ->
  returncode r = 0 ->
  GenerateOnce.find_icon_files e temp_path = List.map fst icons ->
  all_cachable e (fs w) icons ->
  let w' := snd (GenerateOnce.extract_and_cache_icons e appimage_path w) in
  fs w' = apply_writes (cache_writes e icons) (fs w)
  /\ (forall q n,
        In (q, n) icons ->
        exists q' n',
          In (q', n') icons /\ cache_target e q' n' = cache_target e q n /\
          fs w' !! cache_target e q n = Some (scratch_file e q'))
  /\ (forall q n,
        (isdir e (cache_dest e q n) = false ->
         cache_target e q n = cache_dest e q n)
        /\ (isdir e (cache_dest e q n) = true ->
            cache_target e q n = cache_dest e q n +:+ "/" +:+ Path.name q)
        /\ (Path.stem q = "." ->
            cache_dest e q n
            = GenerateOnce.cache_subdir (icon_cache_dir e) q (Z.of_N n)))
  /\ (forall q n,
        (format_of q = Some SVG ->
         cache_dest e q n = icon_cache_dir e // "scalable/apps" // Path.stem q)
        /\ (format_of q <> Some SVG ->
            (Z.of_N n < 5000 ->
             cache_dest e q n = icon_cache_dir e // "16x16/apps" // Path.stem q)
            /\ (5000 <= Z.of_N n < 15000 ->
                cache_dest e q n
                = icon_cache_dir e // "32x32/apps" // Path.stem q)
            /\ (15000 <= Z.of_N n < 50000 ->
                cache_dest e q n
                = icon_cache_dir e // "48x48/apps" // Path.stem q)
            /\ (50000 <= Z.of_N n < 100000 ->
                cache_dest e q n
                = icon_cache_dir e // "64x64/apps" // Path.stem q)
            /\ (100000 <= Z.of_N n ->
                cache_dest e q n
                = icon_cache_dir e // "128x128/apps" // Path.stem q)))
  /\ (forall root file,
        PyStr.rfind file "/" = -1 ->
        PyStr.endswith_any (PyStr.lower file) [".png"; ".svg"; ".xpm"; ".ico"]
        = true ->
        ~ In (PyStr.lower file) [".png"; ".svg"; ".xpm"; ".ico"] ->
        format_of (root // file) = enumerated_as (root // file)
        /\ is_Some (format_of (root // file))).
Proof.
  intros Hok Hrun Hrc Hfiles Hall. cbv zeta.
  pose proof (extract_fs_cache_writes e appimage_path temp_path r icons w
                Hok Hrun Hrc Hfiles Hall) as Hfs.
  split; [exact Hfs|].
  split; [|split; [intros q n; apply cache_target_cases|
                   split; [intros q n; apply cache_dest_cases|
                           apply format_of_enumerated]]].
  intros q n Hin. rewrite Hfs, apply_writes_lookup.
  assert (Hw : In (cache_target e q n, scratch_file e q) (cache_writes e icons)).
  { unfold cache_writes. apply in_map_iff. exists (q, n). auto. }
  destruct (written_In _ _ _ Hw) as (g & -> & Hg).
  unfold cache_writes in Hg. apply in_map_iff in Hg as ([q' n'] & [= Hd <-] & Hin').
  exists q', n'. auto.
Qed.

(** The sample tree: the PNG of 20000 bytes lands in [48x48/apps]. *)
Lemma C4_witness :
  let w' := snd (GenerateOnce.extract_and_cache_icons sample_env sample_bundle
                   empty_world) in
  fs w' = apply_writes (cache_writes sample_env sample_icons) ∅
  /\ fs w' !! "/home/user/.local/share/icons/hicolor/48x48/apps/app"
     = Some (scratch_file sample_env "/tmp/tmpk3v9/squashfs-root/app.png").
Proof.
  destruct (C4_every_candidate_is_cached sample_env sample_bundle "/tmp/tmpk3v9"
              {| returncode := 0; stderr := "" |} sample_icons empty_world)
    as (Hfs & Hall & Hdest).
  - repeat split.
  - reflexivity.
  - reflexivity.
  - vm_compute. reflexivity.
  - vm_compute. repeat split.
  - cbv zeta. split; [exact Hfs|].
    rewrite Hfs. vm_compute. reflexivity.
Defined.

(** C4 as stated fails twice.  A file whose whole name is [.svg] is
    enumerated as an SVG, yet pathlib gives it no suffix and the stem
    [.svg]: it lands in a size bucket under its whole name, and nothing
    lands under [scalable/apps].  A file named [..png] has the stem [.]:
    its destination is the directory [16x16/apps] itself and the copy
    lands inside it as [..png], extension included. *)
Lemma C4_counterexample_bare_svg :
  let w' := snd (GenerateOnce.extract_and_cache_icons bare_svg_env sample_bundle
                   empty_world) in
  GenerateOnce.find_icon_files bare_svg_env "/tmp/tmpk3v9"
  = ["/tmp/tmpk3v9/squashfs-root/.svg"; "/tmp/tmpk3v9/squashfs-root/..png"]
  /\ enumerated_as "/tmp/tmpk3v9/squashfs-root/.svg" = Some SVG
  /\ Path.stem "/tmp/tmpk3v9/squashfs-root/.svg" = ".svg"
  /\ Path.stem "/tmp/tmpk3v9/squashfs-root/..png" = "."
  /\ fs w'
     = {[ "/home/user/.local/share/icons/hicolor/16x16/apps/.svg"
          := scratch_file bare_svg_env "/tmp/tmpk3v9/squashfs-root/.svg";
          "/home/user/.local/share/icons/hicolor/16x16/apps/..png"
          := scratch_file bare_svg_env "/tmp/tmpk3v9/squashfs-root/..png" ]}
  /\ fs w' !! "/home/user/.local/share/icons/hicolor/scalable/apps/.svg" = None
  /\ fs w' !! "/home/user/.local/share/icons/hicolor/scalable/apps/" = None
  /\ fs w' !! "/home/user/.local/share/icons/hicolor/16x16/apps/." = None.
Proof.
  cbv zeta. repeat split; vm_compute; reflexivity.
Qed.

(** ** The entry file *)

(** The text the code renders is the template of the specification. *)
Lemma desktop_content_template app_name appimage_path icon_name category :
  GenerateOnce.desktop_content app_name appimage_path icon_name category
  = unlines (entry_lines app_name appimage_path (icon_or_fallback icon_name)
               category).
Proof.
  unfold GenerateOnce.desktop_content, entry_lines, icon_or_fallback,
    PyStr.truthy, GenerateOnce.nl.
  cbn [unlines]. rewrite !append_assoc.
  assert (Hicon :
    match icon_name with
    | Some s => if negb (String.eqb s "") then s else "application-x-executable"
    | None => "application-x-executable"
    end =
    match icon_name with
    | Some s => if String.eqb s "" then "application-x-executable" else s
    | None => "application-x-executable"
    end).
  { destruct icon_name as [s|]; [|reflexivity].
    destruct (String.eqb s ""); reflexivity. }
  rewrite Hicon. reflexivity.
Qed.

(** The handler of [generate_desktop_file] only logs. *)
Lemma generate_fs_of_body e p d w :
  fs (snd (GenerateOnce.generate_desktop_file e p d w))
  = fs (snd (GenerateOnce.generate_body e p d w)).
Proof.
  unfold GenerateOnce.generate_desktop_file, try_except.
  destruct (GenerateOnce.generate_body e p d w) as [[[]|ex] w1]; reflexivity.
Qed.

(** The files after [generate_desktop_file] when the extraction
    returned. *)
Lemma generate_fs_run e p d w icon_name w1 :
  GenerateOnce.extract_and_cache_icons e p w = (Returned icon_name, w1) ->
  fs (snd (GenerateOnce.generate_desktop_file e p d w))
  = entry_fs e (desktop_file_of p d)
      (GenerateOnce.desktop_content (Path.stem p) p icon_name
         (GenerateOnce.detect_category (Path.stem p)))
      (fs w1).
Proof.
  intros Hx. rewrite generate_fs_of_body.
  unfold GenerateOnce.generate_body. rewrite bind_run, Hx.
  apply write_entry_fs.
Qed.

(** With the entry file writable, it ends up holding the text under mode
    [0o755]. *)
Lemma entry_fs_written e df text (m : gmap string file) :
  open_error e df = None -> write_error e df = None ->
  chmod_error e df = None ->
  entry_fs e df text m !! df = Some {| contents := text; mode := 493 |}.
Proof.
  intros Ho Hw Hc. unfold entry_fs. rewrite Ho, Hw, Hc.
  apply lookup_insert_eq.
Qed.

(** The paths [main] hands over lie under the directory it scanned. *)
Lemma glob_AppImage_paths e dir appimage :
  In appimage (glob_AppImage e dir) ->
  exists entry, appimage = dir // entry /\
                PyStr.endswith entry ".AppImage" = true.
Proof.
  unfold glob_AppImage. intros Hin.
  apply in_map_iff in Hin as (entry & <- & Hentry).
  apply filter_In in Hentry as [_ Hend]. eauto.
Qed.

(** C5: for every bundle path, once the icon extraction has returned and
    the entry file can be opened, written and made executable,
    [generate_desktop_file] leaves at [<desktop_dir>/<stem>.desktop]
    exactly the eight lines of the template - with [Name=<stem>],
    [Exec=<bundle path> %u], the icon identifier or the fallback, and the
    category of the stem - under mode [0o755], whose executable bits are all
    set; the bundle paths given by [main] are those of the scanned
    directory joined with the entry names. *)
Theorem C5_entry_file_is_the_template (e : Env)
    (appimage_path desktop_dir : string) (icon_name : option string) (w : World) :
  fst (GenerateOnce.extract_and_cache_icons e appimage_path w)
  = Returned icon_name ->
  open_error e (desktop_file_of appimage_path desktop_dir) = None ->
  write_error e (desktop_file_of appimage_path desktop_dir) = None ->
  chmod_error e (desktop_file_of appimage_path desktop_dir) = None ->
  let w' := snd (GenerateOnce.generate_desktop_file e appimage_path
                   desktop_dir w) in
  fs w' !! (desktop_dir // (Path.stem appimage_path +:+ ".desktop"))
  = Some {| contents :=
              unlines
                [ "[Desktop Entry]";
                  "Type=Application";
                  "Name=" +:+ Path.stem appimage_path;
                  "Comment=AppImage Application";
                  "Exec=" +:+ appimage_path +:+ " %u";
                  "Icon=" +:+ icon_or_fallback icon_name;
                  "Terminal=false";
                  "Categories=" +:+
                  GenerateOnce.detect_category (Path.stem appimage_path) ];
            mode := 493 |}
  /\ Z.land 493 executable_bits = executable_bits
  /\ (forall appimage,
        In appimage (glob_AppImage e (home e // "AppImages")) ->
        exists entry, appimage = home e // "AppImages" // entry).
Proof.
  intros Hx Ho Hw Hc. cbv zeta.
  destruct (GenerateOnce.extract_and_cache_icons e appimage_path w)
    as [r w1] eqn:Hrun.
  simpl in Hx. subst r.
  split; [|split; [reflexivity|]].
  - rewrite (generate_fs_run e appimage_path desktop_dir w icon_name w1 Hrun).
    fold (desktop_file_of appimage_path desktop_dir).
    rewrite (entry_fs_written e _ _ _ Ho Hw Hc).
    rewrite desktop_content_template. reflexivity.
  - intros appimage Hin.
    destruct (glob_AppImage_paths e _ _ Hin) as (entry & -> & _). eauto.
Qed.

(** The entry of the sample bundle on the sample machine. *)
Lemma C5_witness :
  fs (snd (GenerateOnce.generate_desktop_file sample_env sample_bundle
             sample_desktop_dir empty_world))
  !! "/home/user/.local/share/applications/firefox-Games-edition.desktop"
  = Some {| contents :=
              unlines
                [ "[Desktop Entry]";
                  "Type=Application";
                  "Name=firefox-Games-edition";
                  "Comment=AppImage Application";
                  "Exec=/home/user/AppImages/firefox-Games-edition.AppImage %u";
                  "Icon=app";
                  "Terminal=false";
                  "Categories=Network;WebBrowser;" ];
            mode := 493 |}.
Proof.
  destruct (C5_entry_file_is_the_template sample_env sample_bundle
              sample_desktop_dir (Some "app") empty_world) as (Hfile & _).
  - vm_compute. reflexivity.
  - reflexivity.
  - reflexivity.
  - reflexivity.
  - exact Hfile.
Defined.



(** ** The sentinel of the scoring loop *)

(** C10, as the code has it: the score of every candidate whose size can
    be read is at least 0, hence above the sentinel [-1], and at least 50
    when its suffix is one of the four extensions, which is so for every
    enumerated file but those whose whole name is a bare extension such as
    [.png]; on a non-empty list the
    scoring loop therefore always returns a candidate of the list, so the
    branch "No suitable icon found" is not taken; and when the scratch
    directory is in place and every candidate can be read and copied,
    [extract_and_cache_icons] returns [None] exactly when the extraction
    raised, exited with a non-zero status, or no candidate was
    enumerated. *)
Theorem C10_sentinel_always_beaten (e : Env) (appimage_path temp_path : string)
    (w : World) :
  (forall q s, score_of e q = Some s ->
               0 <= s /\ -1 < s /\ (forall f, format_of q = Some f -> 50 <= s))
  /\ (forall root file s,
        PyStr.rfind file "/" = -1 ->
        PyStr.endswith_any (PyStr.lower file) [".png"; ".svg"; ".xpm"; ".ico"]
        = true ->
        ~ In (PyStr.lower file) [".png"; ".svg"; ".xpm"; ".ico"] ->
        score_of e (root // file) = Some s -> 50 <= s)
  /\ (forall icon_files,
        icon_files <> [] ->
        (forall q, In q icon_files -> exists n, st_size e q = Returned n) ->
        exists winner score w',
          GenerateOnce.select_best_icon e icon_files None (-1) w
          = (Returned (Some winner, score), w')
          /\ In winner icon_files /\ -1 < score)
  /\ (forall icons,
        scratch_ok e appimage_path temp_path ->
        GenerateOnce.find_icon_files e temp_path = List.map fst icons ->
        all_cachable e (fs w) icons ->
        (fst (GenerateOnce.extract_and_cache_icons e appimage_path w)
         = Returned None
         <->
         (exists ex, run_appimage_extract e appimage_path temp_path = Raised ex)
         \/ (exists r, run_appimage_extract e appimage_path temp_path
                       = Returned r /\ returncode r <> 0)
         \/ icons = [])).
Proof.
  split; [|split; [|split]].
  - intros q s Hs. pose proof (score_of_nonneg e q s Hs).
    repeat split; [lia..|].
    intros f Hf. eapply score_of_format_at_least_50; eauto.
  - intros root file s Hslash Hend Hbare Hs.
    destruct (enumerated_file_format root file Hslash Hend Hbare) as [f Hf].
    eapply score_of_format_at_least_50; eauto.
  - intros icon_files Hne Hstat.
    assert (Hall : forall q, In q icon_files -> is_Some (score_of e q))
      by (intros q Hq; apply score_of_stat, Hstat, Hq).
    destruct (select_best_icon_winner e icon_files w Hne Hall)
      as (before & b & after & score & w' & Hsel & _ & Hsplit & Hb & _).
    exists b, score, w'. split; [exact Hsel|]. split.
    + rewrite Hsplit. apply in_or_app. right. left. reflexivity.
    + pose proof (score_of_nonneg e b score Hb). lia.
  - intros icons Hok Hfiles Hall. split.
    + intros Hnone.
      destruct (run_appimage_extract e appimage_path temp_path) as [r|ex] eqn:Hrun;
        [|eauto].
      destruct (Z.eq_dec (returncode r) 0) as [Hrc|Hrc]; [|eauto].
      destruct icons as [|icon icons'] eqn:Hicons; [auto|].
      rewrite <- Hicons in *.
      destruct (extract_with_icons e appimage_path temp_path r icons w
                  Hok Hrun Hrc Hfiles) as (b & w' & Hx & _);
        [congruence|exact Hall|].
      rewrite Hx in Hnone. discriminate.
    + intros Hfail.
      destruct (extract_no_icon e appimage_path temp_path w Hok)
        as (w1 & Hx & _); [|rewrite Hx; reflexivity].
      destruct Hfail as [H | [H | ->]]; [auto..|].
      destruct (run_appimage_extract e appimage_path temp_path) as [r|ex];
        [right; right|left]; eauto.
Qed.

(** The sample tree: scores, the winner, and when [None] comes back. *)
Lemma C10_witness :
  (0 <= 519 /\ -1 < 519 /\
   (forall f, format_of "/tmp/tmpk3v9/squashfs-root/app.png" = Some f ->
              50 <= 519))
  /\ 50 <= 50
  /\ (exists winner score w',
        GenerateOnce.select_best_icon sample_env (List.map fst sample_icons)
          None (-1) empty_world
        = (Returned (Some winner, score), w')
        /\ In winner (List.map fst sample_icons) /\ -1 < score)
  /\ (fst (GenerateOnce.extract_and_cache_icons sample_env sample_bundle
             empty_world) = Returned None
      <->
      (exists ex, run_appimage_extract sample_env sample_bundle "/tmp/tmpk3v9"
                  = Raised ex)
      \/ (exists r, run_appimage_extract sample_env sample_bundle "/tmp/tmpk3v9"
                    = Returned r /\ returncode r <> 0)
      \/ sample_icons = []).
Proof.
  destruct (C10_sentinel_always_beaten sample_env sample_bundle "/tmp/tmpk3v9"
              empty_world) as (Hscore & Hnamed & Hsel & Hnone).
  split; [|split; [|split]].
  - apply (Hscore "/tmp/tmpk3v9/squashfs-root/app.png"). vm_compute. reflexivity.
  - apply (Hnamed "/tmp/tmpk3v9/squashfs-root/usr" "small.ICO" 50).
    + reflexivity.
    + vm_compute. reflexivity.
    + vm_compute. intros [H|[H|[H|[H|[]]]]]; discriminate H.
    + vm_compute. reflexivity.
  - apply Hsel.
    + discriminate.
    + intros q [<-|[<-|[<-|[]]]]; eexists; vm_compute; reflexivity.
  - apply Hnone.
    + repeat split.
    + vm_compute. reflexivity.
    + vm_compute. repeat split.
Defined.

(** C10 as stated fails twice.  A file whose whole name is [.png] is
    enumerated, since its name ends in [.png], yet pathlib gives it no
    suffix, so it gets no points for a format; being empty it scores 0,
    below 50.  And when a candidate cannot be read - a dangling symbolic
    link in the bundle - the extraction has succeeded and a candidate has
    been enumerated, yet the function returns [None]. *)
Lemma C10_counterexample_hidden_png :
  (GenerateOnce.find_icon_files hidden_env "/tmp/tmpk3v9" = [hidden_icon]
   /\ score_of hidden_env hidden_icon = Some 0
   /\ ~ (forall e temp_path q s,
           In q (GenerateOnce.find_icon_files e temp_path) ->
           score_of e q = Some s -> 50 <= s))
  /\ (run_appimage_extract dangling_link_env sample_bundle "/tmp/tmpk3v9"
      = exit_status 0 ""
      /\ GenerateOnce.find_icon_files dangling_link_env "/tmp/tmpk3v9"
         = ["/tmp/tmpk3v9/squashfs-root/app.png"]
      /\ fst (GenerateOnce.extract_and_cache_icons dangling_link_env
                sample_bundle empty_world) = Returned None).
Proof.
  split.
  - split; [vm_compute; reflexivity|]. split; [vm_compute; reflexivity|].
    intros Hclaim.
    assert (H : 50 <= 0).
    { apply (Hclaim hidden_env "/tmp/tmpk3v9" hidden_icon 0).
      - vm_compute. left. reflexivity.
      - vm_compute. reflexivity. }
    lia.
  - split; [reflexivity|]. split; vm_compute; reflexivity.
Qed.

(** ** Running twice *)

(** The files after [generate_desktop_file], from the run of the
    extraction. *)
Lemma generate_fs_of_extract e p d w :
  fs (snd (GenerateOnce.generate_desktop_file e p d w)) =
  match fst (GenerateOnce.extract_and_cache_icons e p w) with
  | Returned icon_name =>
      entry_fs e (desktop_file_of p d)
        (GenerateOnce.desktop_content (Path.stem p) p icon_name
           (GenerateOnce.detect_category (Path.stem p)))
        (fs (snd (GenerateOnce.extract_and_cache_icons e p w)))
  | Raised _ => fs (snd (GenerateOnce.extract_and_cache_icons e p w))
  end.
Proof.
  destruct (GenerateOnce.extract_and_cache_icons e p w) as [[icon|ex] w1] eqn:Hx;
    cbn [fst snd].
  - apply (generate_fs_run e p d w icon w1 Hx).
  - rewrite generate_fs_of_body. unfold GenerateOnce.generate_body.
    rewrite bind_run, Hx. reflexivity.
Qed.


(** A second extraction, when the copies of the first can be overwritten,
    ends as the first did and leaves the files as they were. *)
Lemma extract_twice e p w :
  keeps_cache_writable e p ->
  let w1 := snd (GenerateOnce.extract_and_cache_icons e p w) in
  fs (snd (GenerateOnce.extract_and_cache_icons e p w1)) = fs w1
  /\ fst (GenerateOnce.extract_and_cache_icons e p w1)
     = fst (GenerateOnce.extract_and_cache_icons e p w).
Proof.
  intros Hw. cbv zeta.
  pose proof (keeps_access_extract_and_cache_icons e p Hw) as Hkeep.
  destruct (steady_extract_and_cache_icons e p w
              (snd (GenerateOnce.extract_and_cache_icons e p w)))
    as (Ho & l & H1 & H2).
  { intros path _. symmetry. apply Hkeep. }
  split; [|symmetry; exact Ho].
  rewrite H2, H1. apply apply_writes_idempotent.
Qed.




(** ** The two programs *)

(** What [generate_desktop_file] does to the files depends on the files
    alone, not on the log. *)
Lemma generate_fs_same_files e p d w1 w2 :
  fs w1 = fs w2 ->
  fs (snd (GenerateOnce.generate_desktop_file e p d w1))
  = fs (snd (GenerateOnce.generate_desktop_file e p d w2)).
Proof.
  intros Hfs. rewrite !generate_fs_of_extract.
  destruct (steady_extract_and_cache_icons e p w1 w2) as (Ho & l & H1 & H2).
  { intros path _. rewrite Hfs. reflexivity. }
  rewrite <- Ho, H1, H2, Hfs. reflexivity.
Qed.

(** C7: the methods of the daemon's handler compute what the functions of
    the one-shot script compute - the same category for every name, and
    from every world the same result, the same files and the same log
    for [extract_and_cache_icons] and [generate_desktop_file], the
    handler's [desktop_dir] standing for the script's argument.  A bundle
    reported by the daemon ([on_created], [on_moved]) therefore leaves the
    files that the script leaves for the same bundle. *)
Theorem C7_script_and_daemon_agree (self : Monitor.AppImageHandler) (e : Env) :
  (forall app_name,
     Monitor.detect_category self app_name
     = GenerateOnce.detect_category app_name)
  /\ (forall appimage_path w,
        Monitor.extract_and_cache_icons self e appimage_path w
        = GenerateOnce.extract_and_cache_icons e appimage_path w)
  /\ (forall appimage_path w,
        Monitor.generate_desktop_file self e appimage_path w
        = GenerateOnce.generate_desktop_file e appimage_path
            (Monitor.desktop_dir self) w)
  /\ (forall ev w,
        Monitor.is_directory ev = false ->
        PyStr.endswith (Monitor.src_path ev) ".AppImage" = true ->
        fs (snd (Monitor.on_created self e ev w))
        = fs (snd (GenerateOnce.generate_desktop_file e (Monitor.src_path ev)
                     (Monitor.desktop_dir self) w)))
  /\ (forall ev w,
        Monitor.is_directory ev = false ->
        PyStr.endswith (Monitor.dest_path ev) ".AppImage" = true ->
        fs (snd (Monitor.on_moved self e ev w))
        = fs (snd (GenerateOnce.generate_desktop_file e (Monitor.dest_path ev)
                     (Monitor.desktop_dir self) w))).
Proof.
  assert (Hgen : forall appimage_path w,
            Monitor.generate_desktop_file self e appimage_path w
            = GenerateOnce.generate_desktop_file e appimage_path
                (Monitor.desktop_dir self) w) by reflexivity.
  split; [reflexivity|]. split; [reflexivity|]. split; [exact Hgen|].
  split.
  - intros ev w Hdir Hend. unfold Monitor.on_created.
    rewrite Hdir, Hend. cbn [negb andb]. rewrite bind_run, logger_run, Hgen.
    apply generate_fs_same_files. reflexivity.
  - intros ev w Hdir Hend. unfold Monitor.on_moved.
    rewrite Hdir, Hend. cbn [negb andb]. rewrite bind_run, logger_run, Hgen.
    apply generate_fs_same_files. reflexivity.
Qed.

(** The daemon seeing the sample bundle appear. *)
Lemma C7_witness :
  fs (snd (Monitor.on_created
             {| Monitor.appimage_dir := "/home/user/AppImages";
                Monitor.desktop_dir := sample_desktop_dir |}
             sample_env
             {| Monitor.is_directory := false;
                Monitor.src_path := sample_bundle;
                Monitor.dest_path := "" |}
             empty_world))
  = fs (snd (GenerateOnce.generate_desktop_file sample_env sample_bundle
               sample_desktop_dir empty_world)).
Proof.
  destruct (C7_script_and_daemon_agree
              {| Monitor.appimage_dir := "/home/user/AppImages";
                 Monitor.desktop_dir := sample_desktop_dir |} sample_env)
    as (_ & _ & _ & Hcreated & _).
  apply (Hcreated {| Monitor.is_directory := false;
                     Monitor.src_path := sample_bundle;
                     Monitor.dest_path := "" |} empty_world).
  - reflexivity.
  - vm_compute. reflexivity.
Defined.

(** * Further properties *)

(** ** Substrings *)

Lemma contains_app (a k b : string) : PyStr.contains k (a +:+ k +:+ b) = true.
Proof.
  induction a as [|x a IH].
  - change ("" +:+ k +:+ b) with (k +:+ b).
    destruct (k +:+ b) eqn:E; cbn [PyStr.contains]; rewrite <- E;
      rewrite startswith_app; reflexivity.
  - rewrite append_cons. cbn [PyStr.contains]. rewrite IH. apply orb_true_r.
Qed.

Lemma contains_inv (k s : string) :
  PyStr.contains k s = true -> exists a b, s = a +:+ k +:+ b.
Proof.
  induction s as [|x s IH]; cbn [PyStr.contains]; intros H.
  - rewrite orb_false_r in H. destruct (startswith_inv _ _ H) as [b ->].
    exists "", b. reflexivity.
  - apply orb_true_iff in H as [H|H].
    + destruct (startswith_inv _ _ H) as [b ->]. exists "", b. reflexivity.
    + destruct (IH H) as (a & b & ->). exists (String x a), b. reflexivity.
Qed.

(** Whatever contains a string contains its parts. *)
Lemma contains_part (pre k post s : string) :
  PyStr.contains (pre +:+ k +:+ post) s = true -> PyStr.contains k s = true.
Proof.
  intros H. destruct (contains_inv _ _ H) as (a & b & ->).
  replace (a +:+ (pre +:+ k +:+ post) +:+ b)
    with ((a +:+ pre) +:+ k +:+ (post +:+ b))
    by (rewrite !append_assoc; reflexivity).
  apply contains_app.
Qed.

Lemma any_in_intro (keywords : list string) (k s : string) :
  In k keywords -> PyStr.contains k s = true -> any_in keywords s = true.
Proof. intros Hin Hc. apply existsb_exists. eauto. Qed.

(** X1: the office keyword [libreoffice] never decides: every name in
    which it occurs also holds the browser keyword [libre], tested first,
    and is classified as a web browser; likewise the development keyword
    [ide] catches every name that holds [video], which is a browser or a
    development tool and never a media player. *)
Theorem X1_shadowed_keywords (name : string) :
  (PyStr.contains "libreoffice" (PyStr.lower name) = true ->
   GenerateOnce.detect_category name = "Network;WebBrowser;")
  /\ (PyStr.contains "video" (PyStr.lower name) = true ->
      GenerateOnce.detect_category name = "Network;WebBrowser;"
      \/ GenerateOnce.detect_category name = "Development;IDE;").
Proof.
  split.
  - intros H.
    assert (Hlibre : PyStr.contains "libre" (PyStr.lower name) = true)
      by (apply (contains_part "" "libre" "office"); exact H).
    unfold GenerateOnce.detect_category. cbv zeta.
    rewrite (any_in_intro _ "libre" _); [reflexivity| |exact Hlibre].
    cbn. tauto.
  - intros H.
    assert (Hide : PyStr.contains "ide" (PyStr.lower name) = true)
      by (apply (contains_part "v" "ide" "o"); exact H).
    unfold GenerateOnce.detect_category. cbv zeta.
    match goal with
    | |- context [if any_in ?l ?s then "Network;WebBrowser;" else _] =>
        destruct (any_in l s)
    end; [left; reflexivity|right].
    rewrite (any_in_intro _ "ide" _); [reflexivity| |exact Hide].
    cbn. tauto.
Qed.

(** LibreOffice is a web browser, a video editor a development tool. *)
Lemma X1_witness :
  GenerateOnce.detect_category "LibreOffice-7.6" = "Network;WebBrowser;"
  /\ (GenerateOnce.detect_category "Video-Player" = "Network;WebBrowser;"
      \/ GenerateOnce.detect_category "Video-Player" = "Development;IDE;").
Proof.
  split.
  - apply (X1_shadowed_keywords "LibreOffice-7.6"). vm_compute. reflexivity.
  - apply (X1_shadowed_keywords "Video-Player"). vm_compute. reflexivity.
Defined.

(** ** The handlers of the daemon *)

(** X2: an event for a directory, or for a path that does not end in
    [.AppImage] spelled in this case, is ignored by [on_created] and
    [on_moved]: nothing is logged and no file is written. *)
Theorem X2_handlers_ignore_other_events (self : Monitor.AppImageHandler)
    (e : Env) (ev : Monitor.event) (w : World) :
  (Monitor.is_directory ev = true
   \/ PyStr.endswith (Monitor.src_path ev) ".AppImage" = false ->
   Monitor.on_created self e ev w = (Returned tt, w))
  /\ (Monitor.is_directory ev = true
      \/ PyStr.endswith (Monitor.dest_path ev) ".AppImage" = false ->
      Monitor.on_moved self e ev w = (Returned tt, w)).
Proof.
  split; intros [Hdir|Hend].
  - unfold Monitor.on_created. rewrite Hdir. reflexivity.
  - unfold Monitor.on_created. rewrite Hend, andb_false_r. reflexivity.
  - unfold Monitor.on_moved. rewrite Hdir. reflexivity.
  - unfold Monitor.on_moved. rewrite Hend, andb_false_r. reflexivity.
Qed.

(** A bundle whose extension is in lower case, and a directory named like
    a bundle. *)
Lemma X2_witness :
  Monitor.on_created sample_handler sample_env
    {| Monitor.is_directory := false;
       Monitor.src_path := "/home/user/AppImages/krita.appimage";
       Monitor.dest_path := "" |} empty_world
  = (Returned tt, empty_world)
  /\ Monitor.on_moved sample_handler sample_env
       {| Monitor.is_directory := true;
          Monitor.src_path := "/tmp/old";
          Monitor.dest_path := "/home/user/AppImages/dir.AppImage" |}
       empty_world
     = (Returned tt, empty_world).
Proof.
  split.
  - apply (X2_handlers_ignore_other_events sample_handler sample_env).
    right. vm_compute. reflexivity.
  - apply (X2_handlers_ignore_other_events sample_handler sample_env).
    left. reflexivity.
Defined.

(** X3: [on_created] and [on_moved] return normally for every event on
    every machine: no failure of the extraction, of the writing of the
    entry or of the refresh reaches the observer that calls them. *)
Theorem X3_handlers_never_raise (self : Monitor.AppImageHandler) (e : Env)
    (ev : Monitor.event) (w : World) :
  fst (Monitor.on_created self e ev w) = Returned tt
  /\ fst (Monitor.on_moved self e ev w) = Returned tt.
Proof.
  assert (Hgen : forall p w0,
            fst (Monitor.generate_desktop_file self e p w0) = Returned tt)
    by (intros p w0; apply (generate_returns e p (Monitor.desktop_dir self) w0)).
  split.
  - unfold Monitor.on_created.
    destruct (negb (Monitor.is_directory ev)
              && PyStr.endswith (Monitor.src_path ev) ".AppImage");
      [|reflexivity].
    rewrite bind_run, logger_run. apply Hgen.
  - unfold Monitor.on_moved.
    destruct (negb (Monitor.is_directory ev)
              && PyStr.endswith (Monitor.dest_path ev) ".AppImage");
      [|reflexivity].
    rewrite bind_run, logger_run. apply Hgen.
Qed.

(** ** The scan of the one-shot script *)

Lemma glob_nil e dir :
  (forall entry, In entry (listdir e dir) ->
                 PyStr.endswith entry ".AppImage" = false) ->
  glob_AppImage e dir = [].
Proof.
  intros Hnone. unfold glob_AppImage.
  induction (listdir e dir) as [|entry rest IH]; [reflexivity|].
  cbn [List.filter]. rewrite (Hnone entry) by (left; reflexivity).
  apply IH. intros x Hx. apply Hnone. right. exact Hx.
Qed.

(** X4: when no entry of the scanned directory ends in [.AppImage],
    [main] creates its two directories, logs three records, the last being
    "No AppImages found", and returns without writing any file. *)
Theorem X4_main_without_bundles (e : Env) (w : World) :
  mkdir_p e (default_appimage_dir e) = None ->
  mkdir_p e (default_desktop_dir e) = None ->
  (forall entry, In entry (listdir e (default_appimage_dir e)) ->
                 PyStr.endswith entry ".AppImage" = false) ->
  GenerateOnce.main e w
  = (Returned tt,
     {| fs := fs w;
        log := log w ++
               [(INFO, "Scanning for AppImages in: " +:+ default_appimage_dir e);
                (INFO, "Generating desktop files in: "
                       +:+ default_desktop_dir e);
                (INFO, "No AppImages found")] |}).
Proof.
  intros Hmk1 Hmk2 Hnone. unfold GenerateOnce.main.
  fold (default_appimage_dir e). fold (default_desktop_dir e).
  rewrite Hmk1, Hmk2, (glob_nil e _ Hnone). cbn [call_unit]. run.
  cbn [fs log]. rewrite <- !app_assoc. reflexivity.
Qed.

(** A directory holding only a text file and a bundle with a lower-case
    extension. *)
Lemma X4_witness :
  GenerateOnce.main
    (with_listdir sample_env (fun _ => ["notes.txt"; "krita.appimage"]))
    empty_world
  = (Returned tt,
     {| fs := ∅;
        log := [(INFO, "Scanning for AppImages in: /home/user/AppImages");
                (INFO, "Generating desktop files in: "
                       +:+ "/home/user/.local/share/applications");
                (INFO, "No AppImages found")] |}).
Proof.
  apply (X4_main_without_bundles
           (with_listdir sample_env (fun _ => ["notes.txt"; "krita.appimage"]))
           empty_world).
  - reflexivity.
  - reflexivity.
  - intros entry [<-|[<-|[]]]; vm_compute; reflexivity.
Defined.

(** X5: the creation of the two directories is outside every [try]: when
    either fails, [main] raises that exception at once, having logged
    nothing and written nothing. *)
Theorem X5_main_mkdir_failure_propagates (e : Env) (w : World) (ex : exn) :
  mkdir_p e (default_appimage_dir e) = Some ex
  \/ (mkdir_p e (default_appimage_dir e) = None /\
      mkdir_p e (default_desktop_dir e) = Some ex) ->
  GenerateOnce.main e w = (Raised ex, w).
Proof.
  intros [Hmk1|[Hmk1 Hmk2]]; unfold GenerateOnce.main;
    fold (default_appimage_dir e); fold (default_desktop_dir e).
  - rewrite Hmk1. reflexivity.
  - rewrite Hmk1, Hmk2. reflexivity.
Qed.

(** A home directory in which nothing can be created. *)
Lemma X5_witness :
  GenerateOnce.main (with_mkdir_p sample_env (fun _ => Some permission_denied))
    empty_world
  = (Raised permission_denied, empty_world).
Proof.
  apply (X5_main_mkdir_failure_propagates
           (with_mkdir_p sample_env (fun _ => Some permission_denied))
           empty_world permission_denied).
  left. reflexivity.
Defined.

Lemma fold_left_over_map {A B C} (f : A -> C -> A) (g : B -> C) (l : list B)
    (a : A) :
  fold_left f (List.map g l) a = fold_left (fun a x => f a (g x)) l a.
Proof.
  revert a. induction l as [|x l IH]; intros a; [reflexivity|].
  cbn [List.map fold_left]. apply IH.
Qed.

(** The files after the loop of [main], bundle after bundle. *)
Lemma main_loop_fs e d (appimages : list string) w :
  fs (fold_left
        (fun w appimage =>
           snd (GenerateOnce.generate_desktop_file e appimage d
                  (snd (logger INFO ("Processing: " +:+ Path.name appimage) w))))
        appimages w)
  = fold_left
      (fun m appimage =>
         fs (snd (GenerateOnce.generate_desktop_file e appimage d
                    {| fs := m; log := [] |})))
      appimages (fs w).
Proof.
  revert w. induction appimages as [|a rest IH]; intros w; [reflexivity|].
  cbn [fold_left]. rewrite IH. f_equal.
  apply generate_fs_same_files. reflexivity.
Qed.

(** X6: the files [main] leaves are those of [generate_desktop_file] run
    in turn, in the order of the listing, on the entries of [~/AppImages]
    whose name ends in [.AppImage], each written to
    [~/.local/share/applications]; the other entries of the directory
    play no part. *)
Theorem X6_main_files (e : Env) (w : World) :
  mkdir_p e (default_appimage_dir e) = None ->
  mkdir_p e (default_desktop_dir e) = None ->
  fst (GenerateOnce.main e w) = Returned tt
  /\ fs (snd (GenerateOnce.main e w))
     = fold_left
         (fun m entry =>
            fs (snd (GenerateOnce.generate_desktop_file e
                       (default_appimage_dir e // entry)
                       (default_desktop_dir e)
                       {| fs := m; log := [] |})))
         (List.filter (fun entry => PyStr.endswith entry ".AppImage")
            (listdir e (default_appimage_dir e)))
         (fs w).
Proof.
  intros Hmk1 Hmk2. split; [apply main_returns; assumption|].
  unfold GenerateOnce.main.
  fold (default_appimage_dir e). fold (default_desktop_dir e).
  rewrite Hmk1, Hmk2. cbn [call_unit]. run.
  unfold glob_AppImage.
  destruct (List.filter (fun entry => PyStr.endswith entry ".AppImage")
              (listdir e (default_appimage_dir e))) as [|a rest] eqn:Hls;
    [reflexivity|].
  rewrite <- Hls. clear Hls a rest.
  destruct (List.map _ _) as [|a rest] eqn:Hmap.
  - destruct (List.filter _ _); [reflexivity|discriminate Hmap].
  - rewrite <- Hmap. clear Hmap a rest. run. rewrite main_loop_run. run.
    cbn [snd fs]. rewrite main_loop_fs. cbn [fs].
    rewrite fold_left_over_map. reflexivity.
Qed.

(** The sample directory: two bundles and a text file. *)
Lemma X6_witness :
  fs (snd (GenerateOnce.main sample_env empty_world))
  = fold_left
      (fun m entry =>
         fs (snd (GenerateOnce.generate_desktop_file sample_env
                    ("/home/user/AppImages" // entry)
                    "/home/user/.local/share/applications"
                    {| fs := m; log := [] |})))
      ["firefox-Games-edition.AppImage"; "Krita-5.2.AppImage"] ∅.
Proof.
  destruct (X6_main_files sample_env empty_world) as [_ Hfs].
  - reflexivity.
  - reflexivity.
  - exact Hfs.
Defined.

(** ** Ranking of the formats *)

(** The score of an icon lies between the base of its format and that base
    plus the bonus for the size and, for a PNG, the bonus for the
    dimensions. *)
Lemma score_of_bounds e icon_path score :
  score_of e icon_path = Some score ->
  match format_of icon_path with
  | Some PNG => 500 <= score <= 800
  | Some f => base_score f <= score <= base_score f + 100
  | None => 0 <= score <= 100
  end.
Proof.
  rewrite score_of_eq, format_score_format_of.
  destruct (st_size e icon_path) as [n|ex]; [|discriminate].
  intros [= <-].
  assert (0 <= Z.of_N n / 1024) by (apply Z.div_pos; lia).
  destruct (String.eqb (PyStr.lower (Path.suffix icon_path)) ".png") eqn:Epng.
  - apply format_of_png in Epng. rewrite Epng. cbn [base_score].
    destruct (obtainable_dimensions e icon_path) as [[width height]|]; [|lia].
    assert (0 <= Z.of_N width * Z.of_N height / 1000)
      by (apply Z.div_pos; nia).
    lia.
  - destruct (format_of icon_path) as [[]|] eqn:Hf; cbn [base_score]; lia.
Qed.

(** X7: the format decides before the size for vector and PNG icons: an
    SVG scores strictly more than any candidate that is not an SVG, and a
    PNG strictly more than any XPM, ICO or file without a format, whatever
    their sizes and dimensions; no score exceeds 1100. *)
Theorem X7_svg_and_png_outrank (e : Env) (p q : string) (sp sq : Z) :
  score_of e p = Some sp ->
  score_of e q = Some sq ->
  (format_of p = Some SVG -> format_of q <> Some SVG -> sq < sp)
  /\ (format_of p = Some PNG ->
      format_of q = Some XPM \/ format_of q = Some ICO \/ format_of q = None ->
      sq < sp)
  /\ sp <= 1100.
Proof.
  intros Hp Hq.
  pose proof (score_of_bounds e p sp Hp) as Bp.
  pose proof (score_of_bounds e q sq Hq) as Bq.
  split; [|split].
  - intros Hsvg Hnot. rewrite Hsvg in Bp. cbn [base_score] in Bp.
    destruct (format_of q) as [[]|]; cbn [base_score] in Bq;
      try lia. congruence.
  - intros Hpng Hq'. rewrite Hpng in Bp.
    destruct Hq' as [Hf|[Hf|Hf]]; rewrite Hf in Bq; cbn [base_score] in Bq; lia.
  - destruct (format_of p) as [[]|]; cbn [base_score] in Bp; lia.
Qed.

(** The SVG and the PNG of the sample tree. *)
Lemma X7_witness :
  (519 < 1002) /\ 1002 <= 1100.
Proof.
  destruct (X7_svg_and_png_outrank sample_env
              "/tmp/tmpk3v9/squashfs-root/app.svg"
              "/tmp/tmpk3v9/squashfs-root/app.png" 1002 519)
    as (Hsvg & _ & Hmax).
  - vm_compute. reflexivity.
  - vm_compute. reflexivity.
  - split; [|exact Hmax]. apply Hsvg; [vm_compute; reflexivity|].
    vm_compute. discriminate.
Defined.

(** X8: whenever one of the candidates is an SVG, the icon the scoring
    loop selects is an SVG. *)
Theorem X8_an_svg_is_selected_when_present (e : Env)
    (icon_files : list string) (svg : string) (w : World) :
  (forall p, In p icon_files -> exists n, st_size e p = Returned n) ->
  In svg icon_files ->
  format_of svg = Some SVG ->
  exists winner score w',
    GenerateOnce.select_best_icon e icon_files None (-1) w
    = (Returned (Some winner, score), w')
    /\ In winner icon_files
    /\ format_of winner = Some SVG.
Proof.
  intros Hstat Hin Hsvg.
  assert (Hall : forall p, In p icon_files -> is_Some (score_of e p))
    by (intros p Hp; apply score_of_stat, Hstat, Hp).
  assert (Hne : icon_files <> []) by (intros ->; destruct Hin).
  destruct (select_best_icon_winner e icon_files w Hne Hall)
    as (before & b & after & score & w' & Hsel & _ & Hsplit & Hb & Hbef & Haft).
  exists b, score, w'. split; [exact Hsel|].
  assert (Hbin : In b icon_files)
    by (rewrite Hsplit; apply in_or_app; right; left; reflexivity).
  split; [exact Hbin|].
  destruct (Hall svg Hin) as [s Hs].
  assert (Hle : s <= score).
  { rewrite Hsplit in Hin. apply in_app_or in Hin as [Hin|[<-|Hin]].
    - pose proof (Hbef svg s Hin Hs). lia.
    - rewrite Hb in Hs. injection Hs as <-. lia.
    - eauto. }
  destruct (format_of b) as [[]|] eqn:Hfb; try reflexivity; exfalso;
    pose proof (score_of_bounds e svg s Hs) as Bs;
    pose proof (score_of_bounds e b score Hb) as Bb;
    rewrite Hsvg in Bs; rewrite Hfb in Bb; cbn [base_score] in Bs, Bb; lia.
Qed.

(** The sample tree holds an SVG. *)
Lemma X8_witness :
  exists winner score w',
    GenerateOnce.select_best_icon sample_env (List.map fst sample_icons)
      None (-1) empty_world
    = (Returned (Some winner, score), w')
    /\ In winner (List.map fst sample_icons)
    /\ format_of winner = Some SVG.
Proof.
  apply (X8_an_svg_is_selected_when_present sample_env
           (List.map fst sample_icons) "/tmp/tmpk3v9/squashfs-root/app.svg"
           empty_world).
  - intros p [<-|[<-|[<-|[]]]]; eexists; vm_compute; reflexivity.
  - right. left. reflexivity.
  - vm_compute. reflexivity.
Defined.

(** X9: between XPM and ICO the order of the formats can be overturned by
    the size: an ICO of at least 51 KiB scores more than an XPM of less
    than 1 KiB, and is the one selected when both are candidates, even if
    the XPM comes first. *)
Theorem X9_large_ico_outranks_small_xpm (e : Env) (xpm ico : string)
    (m n : N) (w : World) :
  format_of xpm = Some XPM -> st_size e xpm = Returned m ->
  (Z.of_N m < 1024) ->
  format_of ico = Some ICO -> st_size e ico = Returned n ->
  (52224 <= Z.of_N n) ->
  score_of e xpm = Some 100
  /\ (exists s, score_of e ico = Some s /\ 100 < s)
  /\ exists score w',
       GenerateOnce.select_best_icon e [xpm; ico] None (-1) w
       = (Returned (Some ico, score), w').
Proof.
  intros Hfx Hsx Hm Hfi Hsi Hn.
  assert (Hx : score_of e xpm = Some 100).
  { rewrite (score_of_spec_score e xpm XPM m Hfx Hsx). unfold spec_score.
    cbn [base_score]. rewrite Z.div_small by lia.
    destruct (obtainable_dimensions e xpm) as [[? ?]|]; reflexivity. }
  assert (Hi : exists s, score_of e ico = Some s /\ 100 < s).
  { rewrite (score_of_spec_score e ico ICO n Hfi Hsi). unfold spec_score.
    cbn [base_score]. eexists. split; [reflexivity|].
    assert (51 <= Z.of_N n / 1024) by (apply Z.div_le_lower_bound; lia).
    destruct (obtainable_dimensions e ico) as [[? ?]|]; lia. }
  split; [exact Hx|]. split; [exact Hi|].
  destruct Hi as (s & Hs & Hgt).
  destruct (score_of_Some_run e xpm 100 w Hx) as (w1 & Hrun1 & _).
  destruct (score_of_Some_run e ico s w1 Hs) as (w2 & Hrun2 & _).
  exists s, w2. cbn [GenerateOnce.select_best_icon].
  rewrite bind_run, Hrun1. cbn [Z.ltb Z.compare].
  rewrite bind_run, Hrun2.
  destruct (Z.ltb_spec 100 s); [reflexivity|lia].
Qed.

(** *** Scoring and PIL *)

(** X10: whatever PIL does, the scoring body returns a score as soon as
    the size of the icon can be read, and writes no file; it logs one
    WARNING when the icon is a PNG whose dimensions cannot be obtained
    (PIL missing, or the image not decodable) and nothing otherwise.  When
    the size cannot be read it raises that very exception. *)
Theorem X10_scoring_tolerates_pil (e : Env) (icon_path : string) (w : World) :
  (forall n,
     st_size e icon_path = Returned n ->
     exists score,
       score_of e icon_path = Some score
       /\ GenerateOnce.score_icon e icon_path w
          = (Returned score,
             {| fs := fs w; log := log w ++ scoring_warnings e icon_path |}))
  /\ (forall ex,
        st_size e icon_path = Raised ex ->
        GenerateOnce.score_icon e icon_path w = (Raised ex, w)).
Proof.
  split.
  - intros n Hn.
    destruct (proj2 (score_of_stat e icon_path) (ex_intro _ n Hn)) as [s Hs].
    exists s. split; [exact Hs|].
    revert Hs. unfold score_of, GenerateOnce.score_icon, scoring_warnings.
    rewrite !bind_run, Hn. unfold call at 1 3.
    destruct (String.eqb (PyStr.lower (Path.suffix icon_path)) ".png").
    + unfold try_except, call_unit.
      destruct (import_PIL e) as [ex|].
      * run. destruct (isinstance ex ImportError); run; cbn [fst];
          intros [= <-]; reflexivity.
      * run. destruct (Image_size e icon_path) as [[width height]|ex].
        -- cbn [fst]. intros [= <-]. rewrite app_nil_r, world_eta. reflexivity.
        -- destruct (isinstance ex ImportError); run; cbn [fst];
             intros [= <-]; reflexivity.
    + run. cbn [fst]. intros [= <-]. rewrite app_nil_r, world_eta. reflexivity.
  - intros ex Hex. unfold GenerateOnce.score_icon. rewrite bind_run, Hex.
    reflexivity.
Qed.

(** ** What a run leaves alone *)

(** X11: [extract_and_cache_icons] writes under the icon cache only: on
    every machine, whether it succeeds or fails, a file whose path does
    not start with [~/.local/share/icons/hicolor/] is after the call what
    it was before. *)
Theorem X11_extraction_writes_under_the_cache_only (e : Env)
    (appimage_path path : string) (w : World) :
  under_icon_cache e path = false ->
  fs (snd (GenerateOnce.extract_and_cache_icons e appimage_path w)) !! path
  = fs w !! path.
Proof. intros H. apply untouched_extract_and_cache_icons, H. Qed.

(** X12: [generate_desktop_file] changes no file but the entry of its own
    bundle and files under the icon cache; the entries of other bundles in
    the applications directory are left as they were. *)
Theorem X12_generate_leaves_other_entries (e : Env)
    (appimage_path desktop_dir path : string) (w : World) :
  under_icon_cache e path = false ->
  path <> desktop_file_of appimage_path desktop_dir ->
  fs (snd (GenerateOnce.generate_desktop_file e appimage_path desktop_dir w))
  !! path
  = fs w !! path.
Proof.
  intros Hcache Hne.
  assert (H : untouched
                (fun q => under_icon_cache e q = false /\
                          q <> desktop_file_of appimage_path desktop_dir)
                (GenerateOnce.generate_desktop_file e appimage_path
                   desktop_dir)).
  { unfold GenerateOnce.generate_desktop_file, GenerateOnce.generate_body,
      write_text, chmod.
    fold (desktop_file_of appimage_path desktop_dir).
    repeat first
      [ apply untouched_put_file; intros [_ Hq]; apply Hq; reflexivity
      | apply untouched_update_desktop_database
      | eapply untouched_weaken;
        [|apply untouched_extract_and_cache_icons]; intros q [Hq _]; exact Hq
      | untouched_step ]. }
  apply H. split; assumption.
Qed.

(** ** More on extraction and caching *)

Lemma written_last (l1 l2 : list (string * file)) (path : string) (f : file) :
  (forall q g, In (q, g) l2 -> q <> path) ->
  written (l1 ++ (path, f) :: l2) path = Some f.
Proof.
  intros Hlater. induction l1 as [|[q g] l1 IH]; cbn [app written].
  - assert (Hnone : written l2 path = None).
    { destruct (written l2 path) as [g|] eqn:E; [|reflexivity].
      apply written_Some_In in E. destruct (Hlater _ _ E). reflexivity. }
    rewrite Hnone. destruct (decide (path = path)); [reflexivity|congruence].
  - rewrite IH. reflexivity.
Qed.

(** X13: when several candidates are copied to the same path of the
    cache - same stem and same bucket - the file kept there is the copy of
    the last of them in traversal order. *)
Theorem X13_last_copy_wins (e : Env) (appimage_path temp_path : string)
    (r : completed_process) (before after : list (string * N))
    (q : string) (n : N) (w : World) :
  scratch_ok e appimage_path temp_path ->
  run_appimage_extract e appimage_path temp_path = Returned r ->
  returncode r = 0 ->
  GenerateOnce.find_icon_files e temp_path
  = List.map fst (before ++ (q, n) :: after) ->
  all_cachable e (fs w) (before ++ (q, n) :: after) ->
  (forall q' n', In (q', n') after ->
                 cache_target e q' n' <> cache_target e q n) ->
  fs (snd (GenerateOnce.extract_and_cache_icons e appimage_path w))
  !! cache_target e q n
  = Some (scratch_file e q).
Proof.
  intros Hok Hrun Hrc Hfiles Hall Hlater.
  rewrite (extract_fs_cache_writes e appimage_path temp_path r
             (before ++ (q, n) :: after) w Hok Hrun Hrc Hfiles Hall).
  rewrite apply_writes_lookup. unfold cache_writes.
  rewrite map_app. cbn [List.map].
  rewrite written_last; [reflexivity|].
  intros k g Hin. apply in_map_iff in Hin as ([q' n'] & [= <- _] & Hin).
  apply (Hlater q' n' Hin).
Qed.


(** The caching loop stops at the first icon whose directory cannot be
    made or whose copy fails; the copies made before stay. *)
Lemma cache_loop_fails e (done : list (string * N)) (q : string) (n : N)
    (rest : list string) (ex : exn) w :
  all_cachable e (fs w) done ->
  st_size e q = Returned n ->
  copy_fails e (apply_writes (cache_writes e done) (fs w)) q n ex ->
  exists w',
    for_each (List.map fst done ++ q :: rest)
      (GenerateOnce.cache_icon e (icon_cache_dir e)) w
    = (Raised ex, w')
    /\ fs w' = apply_writes (cache_writes e done) (fs w).
Proof.
  intros Hdone Hsize Hfail. revert w Hdone Hfail.
  induction done as [|[q' n'] done IH]; intros w Hdone Hfail.
  - cbn [List.map app]. rewrite for_each_cons, bind_run.
    unfold GenerateOnce.cache_icon at 1. rewrite Hsize. run.
    cbn [cache_writes List.map apply_writes] in Hfail.
    destruct Hfail as [Hmk|[Hmk [Hcp|(Hcp & Hov & ->)]]];
      rewrite Hmk; cbn [call_unit]; run.
    + exists w. split; reflexivity.
    + unfold copy2. cbv zeta.
      fold (cache_dest e q n). fold (cache_target e q n).
      rewrite Hcp. cbn [call_unit]. run.
      exists w. split; reflexivity.
    + unfold copy2. cbv zeta.
      fold (cache_dest e q n). fold (cache_target e q n).
      rewrite Hcp. cbn [call_unit]. run. rewrite get_file_run. run.
      rewrite Hov. run. exists w. split; reflexivity.
  - destruct Hdone as [(Hs & Hmk & Hcp & Hov) Hdone].
    cbn [List.map fst snd app] in *. rewrite for_each_cons, bind_run.
    unfold GenerateOnce.cache_icon at 1. rewrite Hs. run.
    rewrite Hmk. cbn [call_unit]. run. unfold copy2. cbv zeta.
    fold (cache_dest e q' n'). fold (cache_target e q' n').
    rewrite Hcp. cbn [call_unit]. run. rewrite get_file_run. run.
    cbn [fs]. rewrite Hov, put_file_run. run.
    match goal with
    | |- context [for_each _ _ ?w0] =>
        destruct (IH w0 Hdone Hfail) as (w' & Hrun & Hfs)
    end.
    exists w'. split; [exact Hrun|]. exact Hfs.
Qed.

(** X15: the cache is not rolled back.  When, after a successful
    extraction and scoring, the copy of one candidate fails before
    anything is written - its cache directory cannot be made, [copy2]
    cannot read the source or create the destination, or the file already
    at the destination is read-only - the function returns [None], the
    candidates before it stay copied in the cache and those after it are
    not copied. *)
Theorem X15_failed_copy_keeps_earlier_copies (e : Env)
    (appimage_path temp_path : string) (r : completed_process)
    (done : list (string * N)) (q : string) (n : N) (rest : list string)
    (ex : exn) (w : World) :
  scratch_ok e appimage_path temp_path ->
  run_appimage_extract e appimage_path temp_path = Returned r ->
  returncode r = 0 ->
  GenerateOnce.find_icon_files e temp_path
  = (List.map fst done ++ q :: rest)%list ->
  (forall p, In p rest -> exists m, st_size e p = Returned m) ->
  all_cachable e (fs w) done ->
  st_size e q = Returned n ->
  copy_fails e (apply_writes (cache_writes e done) (fs w)) q n ex ->
  fst (GenerateOnce.extract_and_cache_icons e appimage_path w) = Returned None
  /\ fs (snd (GenerateOnce.extract_and_cache_icons e appimage_path w))
     = apply_writes (cache_writes e done) (fs w).
Proof.
  intros Hok Hrun Hrc Hfiles Hrest Hdone Hsize Hfail.
  rewrite (extract_and_cache_icons_run e appimage_path temp_path w Hok).
  unfold try_except, GenerateOnce.extract_body.
  rewrite bind_run, Hrun. unfold call. rewrite Hrc. cbn [Z.eqb negb].
  rewrite Hfiles.
  set (files := (List.map fst done ++ q :: rest)%list).
  assert (Hne : files <> []) by (unfold files; destruct (List.map fst done); discriminate).
  assert (Hscores : forall p, In p files -> is_Some (score_of e p)).
  { intros p Hp. apply score_of_stat. unfold files in Hp.
    apply in_app_or in Hp as [Hp|[<-|Hp]]; [|eauto|eauto].
    apply in_map_iff in Hp as ([p' m] & <- & Hin).
    exists m. apply (all_cachable_sizes e done (fs w) Hdone p' m Hin). }
  destruct files as [|f0 files'] eqn:Hf; [congruence|].
  rewrite <- Hf in *. rewrite bind_run, logger_run, bind_run.
  match goal with
  | |- context [GenerateOnce.select_best_icon e _ None (-1) ?w0] =>
      destruct (select_best_icon_winner e files w0 Hne Hscores)
        as (before & b & after & score & w1 & Hsel & Hfs1 & _)
  end.
  rewrite Hsel. rewrite bind_run, logger_run, bind_run.
  match goal with
  | |- context [for_each _ _ ?w2] =>
      destruct (cache_loop_fails e done q n rest ex w2)
        as (w3 & Hloop & Hfs3);
        [cbn [fs]; rewrite Hfs1; exact Hdone | exact Hsize
        |cbn [fs]; rewrite Hfs1; exact Hfail|]
  end.
  subst files. rewrite Hloop.
  destruct (extract_handler_run appimage_path ex w3) as (w4 & Hh & Hfs4).
  rewrite Hh. cbn [fst snd]. split; [reflexivity|].
  rewrite Hfs4, Hfs3. cbn [fs]. rewrite Hfs1. reflexivity.
Qed.

(** X16: what is logged when no icon comes out of the extraction.  After
    the record announcing the extraction comes exactly one more: an ERROR
    "Timeout extracting ..." when the subprocess timed out, an ERROR
    carrying the message of any other exception, a WARNING carrying the
    standard error of a bundle that exited with a non-zero status, and a
    WARNING "No icons found in ..." when the tree holds no candidate. *)
Theorem X16_extraction_failure_records (e : Env)
    (appimage_path temp_path : string) (w : World) :
  scratch_ok e appimage_path temp_path ->
  let w' := snd (GenerateOnce.extract_and_cache_icons e appimage_path w) in
  let announced :=
    (log w ++ [(INFO, "Extracting " +:+ appimage_path +:+ " to "
                      +:+ temp_path)])%list
  in
  (forall ex,
     run_appimage_extract e appimage_path temp_path = Raised ex ->
     log w' = (announced ++
               [(ERROR,
                 if isinstance ex TimeoutExpired
                 then "Timeout extracting " +:+ appimage_path
                 else "Error extracting icons from " +:+ appimage_path
                      +:+ ": " +:+ exc_str ex)])%list)
  /\ (forall r,
        run_appimage_extract e appimage_path temp_path = Returned r ->
        returncode r <> 0 ->
        log w' = (announced ++
                  [(WARNING, "Failed to extract AppImage: "
                             +:+ stderr r)])%list)
  /\ (forall r,
        run_appimage_extract e appimage_path temp_path = Returned r ->
        returncode r = 0 ->
        GenerateOnce.find_icon_files e temp_path = [] ->
        log w' = (announced ++
                  [(WARNING, "No icons found in " +:+ appimage_path)])%list).
Proof.
  intros Hok. cbv zeta.
  rewrite (extract_and_cache_icons_run e appimage_path temp_path w Hok).
  unfold try_except, GenerateOnce.extract_body. rewrite bind_run. unfold call.
  split; [|split].
  - intros ex ->. unfold extract_handler.
    destruct (isinstance ex TimeoutExpired); reflexivity.
  - intros r -> Hrc. apply Z.eqb_neq in Hrc. rewrite Hrc. reflexivity.
  - intros r -> Hrc Hnone. rewrite Hrc, Hnone. reflexivity.
Qed.

(** ** The name and the state of the entry *)

(** X17: the entry is named after the bundle: for a bundle
    [<n>.AppImage] with [n] not empty, the stem is [n] - dots inside [n]
    are kept, only the last extension goes - and the entry file is
    [<desktop_dir>/<n>.desktop].  A bundle whose whole name is
    [.AppImage] keeps its name as stem. *)
Theorem X17_entry_is_named_after_the_bundle (dir desktop_dir n : string) :
  (n <> "" -> PyStr.rfind n "/" = -1 ->
   Path.stem (dir // (n +:+ ".AppImage")) = n
   /\ desktop_file_of (dir // (n +:+ ".AppImage")) desktop_dir
      = desktop_dir // (n +:+ ".desktop"))
  /\ Path.stem (dir // ".AppImage") = ".AppImage".
Proof.
  split.
  - intros Hn Hslash.
    assert (Hstem : Path.stem (dir // (n +:+ ".AppImage")) = n).
    { unfold Path.stem. rewrite name_join;
        [|apply rfind_app_absent; [exact Hslash|reflexivity]
         |destruct n as [|x [|y n]]; [congruence|discriminate..]].
      cbv zeta.
      change (n +:+ ".AppImage") with (n +:+ String "." "AppImage").
      rewrite rfind_join by reflexivity.
      rewrite len_app.
      assert (0 < PyStr.len n).
      { destruct n; [congruence|]. rewrite len_cons.
        pose proof (len_nonneg n). lia. }
      change (PyStr.len (String "." "AppImage")) with 9.
      destruct (Z.ltb_spec 0 (PyStr.len n)); [|lia].
      destruct (Z.ltb_spec (PyStr.len n) (PyStr.len n + 9 - 1)); [|lia].
      cbn [andb]. apply slice_to_app. }
    split; [exact Hstem|]. unfold desktop_file_of. rewrite Hstem. reflexivity.
  - unfold Path.stem. rewrite name_join; [reflexivity..|discriminate].
Qed.

(** A bundle with a version number in its name. *)
Lemma X17_witness :
  Path.stem ("/home/user/AppImages" // ("Krita-5.2" +:+ ".AppImage"))
  = "Krita-5.2"
  /\ desktop_file_of ("/home/user/AppImages" // ("Krita-5.2" +:+ ".AppImage"))
       sample_desktop_dir
     = sample_desktop_dir // ("Krita-5.2" +:+ ".desktop").
Proof.
  apply (X17_entry_is_named_after_the_bundle "/home/user/AppImages"
           sample_desktop_dir "Krita-5.2").
  - discriminate.
  - reflexivity.
Defined.

(** X18: the entry is not written atomically.  When the file opens but
    the write fails, the entry is left empty - a previous entry of the
    bundle is lost; when the write succeeds but [chmod] fails, the entry
    holds the new text under the mode it had before, or under the creation
    mode if it is new, so a new entry is not made executable. *)
Theorem X18_entry_after_a_failed_write_or_chmod (e : Env)
    (appimage_path desktop_dir : string) (icon_name : option string)
    (w : World) :
  fst (GenerateOnce.extract_and_cache_icons e appimage_path w)
  = Returned icon_name ->
  open_error e (desktop_file_of appimage_path desktop_dir) = None ->
  let w1 := snd (GenerateOnce.extract_and_cache_icons e appimage_path w) in
  let w' := snd (GenerateOnce.generate_desktop_file e appimage_path
                   desktop_dir w) in
  let old_mode :=
    match fs w1 !! desktop_file_of appimage_path desktop_dir with
    | Some f => mode f
    | None => creation_mode e
    end in
  (forall ex,
     write_error e (desktop_file_of appimage_path desktop_dir) = Some ex ->
     fs w' !! desktop_file_of appimage_path desktop_dir
     = Some {| contents := ""; mode := old_mode |})
  /\ (forall ex,
        write_error e (desktop_file_of appimage_path desktop_dir) = None ->
        chmod_error e (desktop_file_of appimage_path desktop_dir) = Some ex ->
        fs w' !! desktop_file_of appimage_path desktop_dir
        = Some {| contents :=
                    GenerateOnce.desktop_content (Path.stem appimage_path)
                      appimage_path icon_name
                      (GenerateOnce.detect_category (Path.stem appimage_path));
                  mode := old_mode |}).
Proof.
  intros Hx Ho. cbv zeta.
  destruct (GenerateOnce.extract_and_cache_icons e appimage_path w)
    as [o w1] eqn:Hrun.
  cbn [fst snd] in *. subst o.
  rewrite (generate_fs_run e appimage_path desktop_dir w icon_name w1 Hrun).
  unfold entry_fs. rewrite Ho. split.
  - intros ex ->. apply lookup_insert_eq.
  - intros ex -> ->. apply lookup_insert_eq.
Qed.

(** X19: a refresh of the desktop database that raises anything but
    [CalledProcessError] or [FileNotFoundError] - a permission error, say -
    is reported as a failure of the generation, although the entry has
    been written in full by then: after "Generated desktop file: ..." the
    log gets the ERROR record of the outer handler, and the entry holds
    the template under mode [0o755]. *)
Theorem X19_unhandled_refresh_error (e : Env)
    (appimage_path desktop_dir : string) (icon_name : option string)
    (ex : exn) (w : World) :
  fst (GenerateOnce.extract_and_cache_icons e appimage_path w)
  = Returned icon_name ->
  open_error e (desktop_file_of appimage_path desktop_dir) = None ->
  write_error e (desktop_file_of appimage_path desktop_dir) = None ->
  chmod_error e (desktop_file_of appimage_path desktop_dir) = None ->
  run_update_desktop_database e desktop_dir = Some ex ->
  isinstance ex CalledProcessError = false ->
  isinstance ex FileNotFoundError = false ->
  let w1 := snd (GenerateOnce.extract_and_cache_icons e appimage_path w) in
  let w' := snd (GenerateOnce.generate_desktop_file e appimage_path
                   desktop_dir w) in
  log w'
  = (log w1 ++
     [(INFO, "Generated desktop file: "
             +:+ desktop_file_of appimage_path desktop_dir);
      (ERROR, "Error generating desktop file for " +:+ appimage_path
              +:+ ": " +:+ exc_str ex)])%list
  /\ fs w' !! desktop_file_of appimage_path desktop_dir
     = Some {| contents :=
                 GenerateOnce.desktop_content (Path.stem appimage_path)
                   appimage_path icon_name
                   (GenerateOnce.detect_category (Path.stem appimage_path));
               mode := 493 |}.
Proof.
  intros Hx Ho Hw Hc Hrefresh Hcalled Hmissing. cbv zeta.
  destruct (GenerateOnce.extract_and_cache_icons e appimage_path w)
    as [o w1] eqn:Hrun.
  cbn [fst snd] in *. subst o. split.
  - unfold GenerateOnce.generate_desktop_file, try_except,
      GenerateOnce.generate_body.
    fold (desktop_file_of appimage_path desktop_dir).
    rewrite bind_run, Hrun. unfold write_text, chmod.
    rewrite Ho, Hw, Hc. cbn [call_unit].
    repeat first [ rewrite bind_run | rewrite ret_run | rewrite logger_run
                 | rewrite get_file_run | rewrite put_file_run
                 | progress cbv beta iota | progress cbn [fs log] ].
    rewrite lookup_insert_eq.
    repeat first [ rewrite bind_run | rewrite ret_run | rewrite logger_run
                 | rewrite get_file_run | rewrite put_file_run
                 | progress cbv beta iota | progress cbn [fs log] ].
    unfold GenerateOnce.update_desktop_database, try_except.
    rewrite Hrefresh. cbn [call_unit]. run.
    rewrite Hcalled, Hmissing. run. cbn [snd log].
    rewrite <- app_assoc. reflexivity.
  - rewrite (generate_fs_run e appimage_path desktop_dir w icon_name w1 Hrun).
    apply entry_fs_written; assumption.
Qed.

(** *** Instances on the sample machines *)

(** A small XPM and a large ICO, in this order. *)
Lemma X9_witness :
  exists score w',
    GenerateOnce.select_best_icon legacy_env
      ["/tmp/tmpk3v9/squashfs-root/old.xpm";
       "/tmp/tmpk3v9/squashfs-root/big.ico"] None (-1) empty_world
    = (Returned (Some "/tmp/tmpk3v9/squashfs-root/big.ico", score), w').
Proof.
  apply (X9_large_ico_outranks_small_xpm legacy_env
           "/tmp/tmpk3v9/squashfs-root/old.xpm"
           "/tmp/tmpk3v9/squashfs-root/big.ico" 500%N 60000%N empty_world).
  - vm_compute. reflexivity.
  - vm_compute. reflexivity.
  - lia.
  - vm_compute. reflexivity.
  - vm_compute. reflexivity.
  - lia.
Defined.

(** The PNG of the sample tree without PIL, and a dangling link. *)
Lemma X10_witness :
  (exists score,
     score_of sample_env "/tmp/tmpk3v9/squashfs-root/app.png" = Some score
     /\ GenerateOnce.score_icon sample_env "/tmp/tmpk3v9/squashfs-root/app.png"
          empty_world
        = (Returned score,
           {| fs := fs empty_world;
              log := log empty_world ++
                     scoring_warnings sample_env
                       "/tmp/tmpk3v9/squashfs-root/app.png" |}))
  /\ GenerateOnce.score_icon dangling_link_env
       "/tmp/tmpk3v9/squashfs-root/app.png" empty_world
     = (Raised {| exc_type := FileNotFoundError;
                  exc_str := "[Errno 2] No such file or directory" |},
        empty_world).
Proof.
  split.
  - apply (X10_scoring_tolerates_pil sample_env
             "/tmp/tmpk3v9/squashfs-root/app.png" empty_world) with (n := 20000%N).
    vm_compute. reflexivity.
  - apply (X10_scoring_tolerates_pil dangling_link_env
             "/tmp/tmpk3v9/squashfs-root/app.png" empty_world).
    reflexivity.
Defined.

(** The entry of another bundle survives an extraction and a
    generation. *)
Lemma X11_witness :
  fs (snd (GenerateOnce.extract_and_cache_icons sample_env sample_bundle
             world_with_other_entry)) !! other_entry
  = fs world_with_other_entry !! other_entry.
Proof.
  apply (X11_extraction_writes_under_the_cache_only sample_env sample_bundle
           other_entry world_with_other_entry).
  vm_compute. reflexivity.
Defined.

Lemma X12_witness :
  fs (snd (GenerateOnce.generate_desktop_file sample_env sample_bundle
             sample_desktop_dir world_with_other_entry)) !! other_entry
  = fs world_with_other_entry !! other_entry.
Proof.
  apply (X12_generate_leaves_other_entries sample_env sample_bundle
           sample_desktop_dir other_entry world_with_other_entry).
  - vm_compute. reflexivity.
  - vm_compute. discriminate.
Defined.

(** [icon.png] and [icon.xpm], both small: the XPM, copied last, stays. *)
Lemma X13_witness :
  fs (snd (GenerateOnce.extract_and_cache_icons collision_env sample_bundle
             empty_world))
  !! "/home/user/.local/share/icons/hicolor/16x16/apps/icon"
  = Some (scratch_file collision_env "/tmp/tmpk3v9/squashfs-root/icon.xpm").
Proof.
  apply (X13_last_copy_wins collision_env sample_bundle "/tmp/tmpk3v9"
           {| returncode := 0; stderr := "" |}
           [("/tmp/tmpk3v9/squashfs-root/icon.png", 1000%N)]
           [] "/tmp/tmpk3v9/squashfs-root/icon.xpm" 1000%N empty_world).
  - repeat split.
  - reflexivity.
  - reflexivity.
  - vm_compute. reflexivity.
  - vm_compute. repeat split.
  - intros q' n' [].
Defined.


(** A read-only [scalable/apps/app] is in the cache: the copy of the SVG
    fails, the PNG before it is cached, the ICO after it is not, and no
    icon is returned. *)
Lemma X15_witness :
  fst (GenerateOnce.extract_and_cache_icons sample_env sample_bundle
         world_with_locked_icon) = Returned None
  /\ fs (snd (GenerateOnce.extract_and_cache_icons sample_env
                sample_bundle world_with_locked_icon))
     = apply_writes
         (cache_writes sample_env
            [("/tmp/tmpk3v9/squashfs-root/app.png", 20000%N)])
         (fs world_with_locked_icon).
Proof.
  apply (X15_failed_copy_keeps_earlier_copies sample_env sample_bundle
           "/tmp/tmpk3v9" {| returncode := 0; stderr := "" |}
           [("/tmp/tmpk3v9/squashfs-root/app.png", 20000%N)]
           "/tmp/tmpk3v9/squashfs-root/app.svg" 3000%N
           ["/tmp/tmpk3v9/squashfs-root/usr/small.ICO"]
           (copy_denied locked_icon) world_with_locked_icon).
  - repeat split.
  - reflexivity.
  - reflexivity.
  - vm_compute. reflexivity.
  - intros p [<-|[]]. eexists. vm_compute. reflexivity.
  - vm_compute. repeat split.
  - vm_compute. reflexivity.
  - right. split; [reflexivity|]. right.
    split; [reflexivity|]. split; vm_compute; reflexivity.
Defined.

(** A timeout, an exit status of 1, and a tree without icons. *)
Lemma X16_witness :
  log (snd (GenerateOnce.extract_and_cache_icons timeout_env sample_bundle
              empty_world))
  = [(INFO, "Extracting " +:+ sample_bundle +:+ " to /tmp/tmpk3v9");
     (ERROR, "Timeout extracting " +:+ sample_bundle)]
  /\ log (snd (GenerateOnce.extract_and_cache_icons exit_1_env sample_bundle
                 empty_world))
     = [(INFO, "Extracting " +:+ sample_bundle +:+ " to /tmp/tmpk3v9");
        (WARNING, "Failed to extract AppImage: squashfs error")]
  /\ log (snd (GenerateOnce.extract_and_cache_icons no_icon_env sample_bundle
                 empty_world))
     = [(INFO, "Extracting " +:+ sample_bundle +:+ " to /tmp/tmpk3v9");
        (WARNING, "No icons found in " +:+ sample_bundle)].
Proof.
  split; [|split].
  - destruct (X16_extraction_failure_records timeout_env sample_bundle
                "/tmp/tmpk3v9" empty_world) as (Hraised & _).
    + repeat split.
    + apply (Hraised {| exc_type := TimeoutExpired;
                        exc_str := "timed out after 60 seconds" |}).
      reflexivity.
  - destruct (X16_extraction_failure_records exit_1_env sample_bundle
                "/tmp/tmpk3v9" empty_world) as (_ & Hstatus & _).
    + repeat split.
    + apply (Hstatus {| returncode := 1; stderr := "squashfs error" |}).
      * reflexivity.
      * discriminate.
  - destruct (X16_extraction_failure_records no_icon_env sample_bundle
                "/tmp/tmpk3v9" empty_world) as (_ & _ & Hnone).
    + repeat split.
    + apply (Hnone {| returncode := 0; stderr := "" |}).
      * reflexivity.
      * reflexivity.
      * vm_compute. reflexivity.
Defined.

(** A full disk leaves an empty entry; a failing [chmod] leaves a new
    entry under the creation mode [0o644]. *)
Lemma X18_witness :
  fs (snd (GenerateOnce.generate_desktop_file disk_full_env sample_bundle
             sample_desktop_dir empty_world))
  !! desktop_file_of sample_bundle sample_desktop_dir
  = Some {| contents := ""; mode := 420 |}
  /\ fs (snd (GenerateOnce.generate_desktop_file no_chmod_env sample_bundle
                sample_desktop_dir empty_world))
     !! desktop_file_of sample_bundle sample_desktop_dir
     = Some {| contents :=
                 GenerateOnce.desktop_content (Path.stem sample_bundle)
                   sample_bundle (Some "app")
                   (GenerateOnce.detect_category (Path.stem sample_bundle));
               mode := 420 |}.
Proof.
  split.
  - destruct (X18_entry_after_a_failed_write_or_chmod disk_full_env
                sample_bundle sample_desktop_dir (Some "app") empty_world)
      as (Hwrite & _).
    + vm_compute. reflexivity.
    + reflexivity.
    + rewrite (Hwrite disk_full) by reflexivity.
      vm_compute. reflexivity.
  - destruct (X18_entry_after_a_failed_write_or_chmod no_chmod_env
                sample_bundle sample_desktop_dir (Some "app") empty_world)
      as (_ & Hchmod).
    + vm_compute. reflexivity.
    + reflexivity.
    + rewrite (Hchmod permission_denied) by reflexivity.
      vm_compute. reflexivity.
Defined.

(** A refresh that is not permitted. *)
Lemma X19_witness :
  fs (snd (GenerateOnce.generate_desktop_file refresh_denied_env sample_bundle
             sample_desktop_dir empty_world))
  !! desktop_file_of sample_bundle sample_desktop_dir
  = Some {| contents :=
              GenerateOnce.desktop_content (Path.stem sample_bundle)
                sample_bundle (Some "app")
                (GenerateOnce.detect_category (Path.stem sample_bundle));
            mode := 493 |}.
Proof.
  apply (X19_unhandled_refresh_error refresh_denied_env sample_bundle
           sample_desktop_dir (Some "app") permission_denied empty_world).
  - vm_compute. reflexivity.
  - reflexivity.
  - reflexivity.
  - reflexivity.
  - reflexivity.
  - reflexivity.
  - reflexivity.
Defined.

(** ** When the extraction itself raises *)

(** Inside its [try] block nothing escapes [extract_and_cache_icons]. *)
Lemma extract_try_returns e p dir tmp w :
  exists o w',
    try_except (GenerateOnce.extract_body e p dir tmp) (extract_handler p) w
    = (Returned o, w').
Proof.
  unfold try_except.
  destruct (GenerateOnce.extract_body e p dir tmp w) as [[o|ex] w1]; [eauto|].
  destruct (extract_handler_run p ex w1) as (w' & Hh & _). eauto.
Qed.

(** X20: [extract_and_cache_icons] can raise.  With the home directory
    known, the creation of the root of the icon cache, the creation of the
    scratch directory and its removal on leaving the [with] block lie
    outside the [try]: when one of them fails, the function raises that
    exception.  When the three go through, the function returns, whatever
    fails inside the [try]. *)
Theorem X20_when_extraction_raises (e : Env) (appimage_path : string)
    (w : World) :
  (forall ex,
     mkdir_p e (icon_cache_dir e) = Some ex
     \/ (mkdir_p e (icon_cache_dir e) = None /\
         mkdtemp e appimage_path = Raised ex)
     \/ (mkdir_p e (icon_cache_dir e) = None /\
         exists temp_path,
           mkdtemp e appimage_path = Returned temp_path /\
           cleanup e temp_path = Some ex) ->
     fst (GenerateOnce.extract_and_cache_icons e appimage_path w) = Raised ex)
  /\ (forall temp_path,
        scratch_ok e appimage_path temp_path ->
        exists icon_name,
          fst (GenerateOnce.extract_and_cache_icons e appimage_path w)
          = Returned icon_name).
Proof.
  split.
  - intros ex Hfail.
    unfold GenerateOnce.extract_and_cache_icons, with_TemporaryDirectory.
    fold (icon_cache_dir e).
    destruct Hfail as [Hmk|[[Hmk Htmp]|(Hmk & tmp & Htmp & Hclean)]];
      rewrite Hmk; cbn [call_unit]; run; [reflexivity| |].
    + rewrite Htmp. run. reflexivity.
    + rewrite Htmp. run. unfold on_exit. rewrite Hclean.
      match goal with
      | |- context [match ?c with _ => _ end] => destruct c as [o w']
      end.
      reflexivity.
  - intros temp_path Hok.
    rewrite (extract_and_cache_icons_run e appimage_path temp_path w Hok).
    match goal with
    | |- context [try_except _ _ ?w0] =>
        destruct (extract_try_returns e appimage_path (icon_cache_dir e)
                    temp_path w0) as (o & w' & Htry)
    end.
    rewrite Htry. eauto.
Qed.

(** A home directory in which nothing can be created. *)
Lemma X20_witness :
  fst (GenerateOnce.extract_and_cache_icons
         (with_mkdir_p sample_env (fun _ => Some permission_denied))
         sample_bundle empty_world)
  = Raised permission_denied.
Proof.
  destruct (X20_when_extraction_raises
              (with_mkdir_p sample_env (fun _ => Some permission_denied))
              sample_bundle empty_world) as [Hraises _].
  apply Hraises. left. reflexivity.
Defined.

(** X21: when [extract_and_cache_icons] raises, [generate_desktop_file]
    writes no entry at all, not even one with the fallback icon: it logs
    the ERROR record of its handler and returns, and the entry file of the
    bundle is what it was before the call. *)
Theorem X21_no_entry_when_extraction_raises (e : Env)
    (appimage_path desktop_dir : string) (ex : exn) (w : World) :
  fst (GenerateOnce.extract_and_cache_icons e appimage_path w) = Raised ex ->
  let w1 := snd (GenerateOnce.extract_and_cache_icons e appimage_path w) in
  GenerateOnce.generate_desktop_file e appimage_path desktop_dir w
  = (Returned tt,
     {| fs := fs w1;
        log := log w1 ++
               [(ERROR, "Error generating desktop file for "
                        +:+ appimage_path +:+ ": " +:+ exc_str ex)] |})
  /\ (under_icon_cache e (desktop_file_of appimage_path desktop_dir) = false ->
      fs (snd (GenerateOnce.generate_desktop_file e appimage_path
                 desktop_dir w))
      !! desktop_file_of appimage_path desktop_dir
      = fs w !! desktop_file_of appimage_path desktop_dir).
Proof.
  intros Hx. cbv zeta.
  destruct (GenerateOnce.extract_and_cache_icons e appimage_path w)
    as [o w1] eqn:Hrun.
  cbn [fst snd] in *. subst o.
  assert (Hgen :
    GenerateOnce.generate_desktop_file e appimage_path desktop_dir w
    = (Returned tt,
       {| fs := fs w1;
          log := log w1 ++
                 [(ERROR, "Error generating desktop file for "
                          +:+ appimage_path +:+ ": " +:+ exc_str ex)] |})).
  { apply generate_logs_error. unfold GenerateOnce.generate_body.
    rewrite bind_run, Hrun. reflexivity. }
  split; [exact Hgen|].
  intros Hcache. rewrite Hgen. cbn [snd fs].
  pose proof (untouched_extract_and_cache_icons e appimage_path w
                (desktop_file_of appimage_path desktop_dir) Hcache) as H.
  rewrite Hrun in H. exact H.
Qed.

(** Nothing can be created: the old entry of the bundle stays. *)
Lemma X21_witness :
  fs (snd (GenerateOnce.generate_desktop_file
             (with_mkdir_p sample_env (fun _ => Some permission_denied))
             sample_bundle sample_desktop_dir empty_world))
  !! desktop_file_of sample_bundle sample_desktop_dir
  = fs empty_world !! desktop_file_of sample_bundle sample_desktop_dir.
Proof.
  apply (X21_no_entry_when_extraction_raises
           (with_mkdir_p sample_env (fun _ => Some permission_denied))
           sample_bundle sample_desktop_dir permission_denied empty_world).
  - reflexivity.
  - vm_compute. reflexivity.
Defined.

(** X22: extracting the same bundle again on the same machine, when every
    icon of the bundle leaves in the cache a copy that can be overwritten
    - the icon is writable by its owner, or the process is privileged -
    leaves the icon cache, and every other file, as the first extraction
    left it, and returns the same icon: each copy is overwritten with the
    same bytes and nothing accumulates. *)
Theorem X22_extraction_twice_same_files (e : Env) (appimage_path : string)
    (w : World) :
  keeps_cache_writable e appimage_path ->
  let w1 := snd (GenerateOnce.extract_and_cache_icons e appimage_path w) in
  let w2 := snd (GenerateOnce.extract_and_cache_icons e appimage_path w1) in
  fs w2 = fs w1
  /\ fst (GenerateOnce.extract_and_cache_icons e appimage_path w1)
     = fst (GenerateOnce.extract_and_cache_icons e appimage_path w).
Proof. apply extract_twice. Qed.

(** The sample bundle extracted twice. *)
Lemma X22_witness :
  let w1 := snd (GenerateOnce.extract_and_cache_icons sample_env sample_bundle
                   empty_world) in
  let w2 := snd (GenerateOnce.extract_and_cache_icons sample_env sample_bundle
                   w1) in
  fs w2 = fs w1
  /\ fst (GenerateOnce.extract_and_cache_icons sample_env sample_bundle w1)
     = fst (GenerateOnce.extract_and_cache_icons sample_env sample_bundle
              empty_world).
Proof.
  apply (X22_extraction_twice_same_files sample_env sample_bundle empty_world).
  intros temp_path icon_path _ _. reflexivity.
Defined.
